(** * CarryMonkey injection engine: a shallow embedding and its properties

    The development follows the TypeScript sources of the extension:
    the strategy selector ([InjectionStrategySelector]), the helper class
    [InjectionUtils] (run-at conversion, the enhanced in-page executor and
    the cached UserScripts API probe), the build-mode table, the two
    injection strategies, the [UnifiedInjectionEngine] and the
    [GMAPIManager] handler of [GM_xmlhttpRequest].

    Asynchronous functions are embedded as state-passing computations that
    end in a value or in a thrown error (a rejected promise); every reply
    of the browser is an input of the model. *)

From Stdlib Require Import ZArith Bool List String Ascii Lia.
From stdpp Require Import base option list gmap strings.
Import ListNotations.

Local Open Scope string_scope.

(** ** JavaScript conventions used by the sources *)

Module JS.

(** [s || d] on a possibly undefined string: [undefined] and the empty
    string are both falsy. *)
Definition orDefault (o : option string) (d : string) : string :=
  match o with
  | Some s => if String.eqb s "" then d else s
  | None => d
  end.

(** Truthiness of a possibly undefined string. *)
Definition truthy (o : option string) : bool :=
  match o with
  | Some s => negb (String.eqb s "")
  | None => false
  end.

(** [a || []] on a possibly undefined array. *)
Definition orEmpty {A} (o : option (list A)) : list A :=
  match o with
  | Some l => l
  | None => []
  end.

(** [Array.prototype.includes] on strings. *)
Definition includes (l : list string) (x : string) : bool :=
  existsb (String.eqb x) l.

(** [String.prototype.endsWith]. *)
Definition endsWith (s suffix : string) : bool :=
  let n := String.length s in
  let k := String.length suffix in
  (k <=? n)%nat && String.eqb (String.substring (n - k) k s) suffix.

(** [Array.prototype.join]. *)
Fixpoint join (sep : string) (l : list string) : string :=
  match l with
  | [] => ""
  | [x] => x
  | x :: rest => x ++ sep ++ join sep rest
  end.

(** The property names every plain object inherits from
    [Object.prototype]; reading one of them from an object used as a
    dictionary yields the inherited (truthy) value unless the object has
    an own property of that name. *)
Definition objectPrototypeKeys : list string :=
  [ "constructor"; "__proto__"; "hasOwnProperty"; "isPrototypeOf";
    "propertyIsEnumerable"; "toLocaleString"; "toString"; "valueOf";
    "__defineGetter__"; "__defineSetter__";
    "__lookupGetter__"; "__lookupSetter__" ].

Inductive Lookup (V : Type) : Type :=
| Own (v : V)
| Inherited
| Absent.
Arguments Own {V} v.
Arguments Inherited {V}.
Arguments Absent {V}.

(** [obj[key]] on a [Record<string, V>] held in a plain object. *)
Definition get {V} (obj : gmap string V) (key : string) : Lookup V :=
  match obj !! key with
  | Some v => Own v
  | None => if includes objectPrototypeKeys key then Inherited else Absent
  end.

End JS.

(** ** Data model (core/types) *)

Inductive Method : Type :=
| userscripts_dynamic
| userscripts_api
| content_script.

Inductive World : Type :=
| USER_SCRIPT
| MAIN
| ISOLATED.

Inductive Timing : Type :=
| document_start
| document_end
| document_idle.

Record InjectionStrategy : Type := mkStrategy {
  method : Method;
  world : World;
  timing : Timing;
  reason : string
}.

(** The metadata block of a user script. Fields the sources read through
    [x || default] are optional. *)
Record ScriptMeta : Type := mkMeta {
  name : string;
  grant : option (list string);
  run_at : option string;
  sandbox : option string;
  connect : option (list string);
  require : option (list string);
  resource : option (list (string * string));
  matches : option (list string)
}.

Record UserScript : Type := mkScript {
  id : string;
  content : string;
  meta : ScriptMeta
}.

Definition World_eqb (a b : World) : bool :=
  match a, b with
  | USER_SCRIPT, USER_SCRIPT => true
  | MAIN, MAIN => true
  | ISOLATED, ISOLATED => true
  | _, _ => false
  end.

Definition Timing_eqb (a b : Timing) : bool :=
  match a, b with
  | document_start, document_start => true
  | document_end, document_end => true
  | document_idle, document_idle => true
  | _, _ => false
  end.

(** ** InjectionUtils: the pure helpers *)

Module InjectionUtils.

(** [grants.length > 0 && !grants.every(g => g === 'none')] *)
Definition needsIsolation (script : UserScript) : bool :=
  let grants := JS.orEmpty (grant (meta script)) in
  (0 <? List.length grants)%nat
  && negb (forallb (fun g => String.eqb g "none") grants).

Definition convertRunAtTiming (runAt : string) : Timing :=
  if String.eqb runAt "document-start" then document_start
  else if String.eqb runAt "document-end" then document_end
  else if String.eqb runAt "document-idle" then document_idle
  else document_end.

Definition getWorldString (isolated : bool) : World :=
  if isolated then ISOLATED else MAIN.

(** *** The enhanced in-page executor

    The function returned by [createEnhancedScriptExecutor] runs inside
    the page. The page decides which DOM or code-synthesis step throws;
    the executor's observable behaviour is the sequence of its console
    lines, of the helper calls it makes and of the code it hands to the
    page. *)

(** The steps of [tryScriptTagInjection], in source order. *)
Inductive DomStep : Type :=
| CreateElement
| SetTextContent
| QueryNonce
| SetNonceAttribute
| CreatePolicy
| CreateScript
| SetTrustedTextContent
| AppendChild
| RemoveElement.

Record Page : Type := mkPage {
  (** [document.querySelector('script[nonce]')?.getAttribute('nonce')] *)
  pageNonce : option string;
  (** [window.trustedTypes && window.trustedTypes.createPolicy] *)
  hasTrustedTypes : bool;
  domThrows : DomStep -> bool;
  (** [new Function(...)] or the call of the synthesized function throws *)
  functionThrows : bool;
  (** [eval(code)] throws *)
  evalThrows : bool
}.

(** The script element as it is when appended. *)
Record ScriptElement : Type := mkElement {
  textContent : string;
  nonceAttribute : option string;
  (** the text was produced by the [carrymonkey-injection] policy *)
  fromPolicy : bool
}.

Inductive ExecMethod : Type :=
| ScriptTag
| FunctionConstructor
| EvalFallback.

Inductive Level : Type := LogLevel | WarnLevel | ErrorLevel.

Inductive ConsoleLine : Type :=
| Executing (scriptName : string)
| Successful (m : ExecMethod) (scriptName : string)
| Failed (m : ExecMethod)
| AllMethodsFailed (scriptName : string).

Inductive Effect : Type :=
| Try (m : ExecMethod)
| Console (lvl : Level) (line : ConsoleLine)
| Appended (el : ScriptElement)
| RanFunction (code : string)
| RanEval (code : string).

(** Run the DOM steps in order; the first one that throws ends the
    [try] block. *)
Fixpoint firstThrow (page : Page) (steps : list DomStep) : option DomStep :=
  match steps with
  | [] => None
  | s :: rest => if domThrows page s then Some s else firstThrow page rest
  end.

Definition scriptTagSteps (page : Page) : list DomStep :=
  [CreateElement; SetTextContent; QueryNonce]
  ++ (if JS.truthy (pageNonce page) then [SetNonceAttribute] else [])
  ++ (if hasTrustedTypes page
      then [CreatePolicy; CreateScript; SetTrustedTextContent] else [])
  ++ [AppendChild; RemoveElement].

Definition builtElement (page : Page) (code : string) : ScriptElement :=
  {| textContent := code;
     nonceAttribute :=
       if JS.truthy (pageNonce page) then pageNonce page else None;
     fromPolicy := hasTrustedTypes page |}.

(** The element reaches the document when [appendChild] has run, also
    when the later [script.remove()] is the step that throws. *)
Definition tryScriptTagInjection (page : Page) (code : string)
  : bool * list Effect :=
  match firstThrow page (scriptTagSteps page) with
  | None => (true, [Try ScriptTag; Appended (builtElement page code)])
  | Some RemoveElement =>
      (false, [Try ScriptTag; Appended (builtElement page code);
               Console WarnLevel (Failed ScriptTag)])
  | Some _ => (false, [Try ScriptTag; Console WarnLevel (Failed ScriptTag)])
  end.

Definition tryFunctionConstructor (page : Page) (code : string)
  : bool * list Effect :=
  if functionThrows page
  then (false, [Try FunctionConstructor;
                Console WarnLevel (Failed FunctionConstructor)])
  else (true, [Try FunctionConstructor; RanFunction code]).

Definition tryEvalFallback (page : Page) (code : string)
  : bool * list Effect :=
  if evalThrows page
  then (false, [Try EvalFallback; Console ErrorLevel (Failed EvalFallback)])
  else (true, [Try EvalFallback; RanEval code]).

(** The function [createEnhancedScriptExecutor] returns, applied to
    [(scriptContent, scriptName)] in [page]. *)
Definition createEnhancedScriptExecutor (page : Page)
           (scriptContent scriptName : string) : list Effect :=
  let start := [Console LogLevel (Executing scriptName)] in
  let '(ok1, e1) := tryScriptTagInjection page scriptContent in
  if ok1 then
    start ++ e1 ++ [Console LogLevel (Successful ScriptTag scriptName)]
  else
    let '(ok2, e2) := tryFunctionConstructor page scriptContent in
    if ok2 then
      start ++ e1 ++ e2
      ++ [Console LogLevel (Successful FunctionConstructor scriptName)]
    else
      let '(ok3, e3) := tryEvalFallback page scriptContent in
      if ok3 then
        start ++ e1 ++ e2 ++ e3
        ++ [Console LogLevel (Successful EvalFallback scriptName)]
      else
        start ++ e1 ++ e2 ++ e3
        ++ [Console ErrorLevel (AllMethodsFailed scriptName)].

(** *** The cached UserScripts API probe *)

Inductive ChromeGlobal : Type :=
| ChromeUndeclared   (* reading [chrome] raises a ReferenceError *)
| ChromeNullish
| ChromePresent.

Inductive PermissionReply : Type :=
| PermissionGranted
| PermissionDenied
| PermissionThrows.

(** What the browser answers during one run of
    [checkUserScriptsAPIInternal]. *)
Record Browser : Type := mkBrowser {
  chromeGlobal : ChromeGlobal;
  userScriptsObject : bool;
  permissionReply : PermissionReply;
  registerIsFunction : bool;
  getScriptsResolves : bool
}.

Inductive GuidanceType : Type :=
| userscripts_permission_denied
| userscripts_unavailable
| browser_compatibility.

(** A call of [GuidanceEventBus.emit]. *)
Record Emit : Type := mkEmit {
  emitType : GuidanceType;
  emitReason : option string
}.

(** Asynchronous interactions with the browser made while probing. *)
Inductive ProbeIO : Type :=
| PermissionsContains
| GetScripts
| Delay (ms : Z).

Definition checkUserScriptsAPIInternal (b : Browser)
  : bool * list ProbeIO * list Emit :=
  match chromeGlobal b with
  | ChromeUndeclared => (false, [], [])
  | ChromeNullish =>
      (false, [],
       [mkEmit userscripts_unavailable (Some "userScripts_object_missing")])
  | ChromePresent =>
      if negb (userScriptsObject b) then
        (false, [],
         [mkEmit userscripts_unavailable (Some "userScripts_object_missing")])
      else
        match permissionReply b with
        | PermissionDenied =>
            (false, [PermissionsContains],
             [mkEmit userscripts_permission_denied None])
        | PermissionGranted | PermissionThrows =>
            if negb (registerIsFunction b) then
              (false, [PermissionsContains],
               [mkEmit userscripts_unavailable
                       (Some "register_method_missing")])
            else if getScriptsResolves b then
              (true, [PermissionsContains; GetScripts], [])
            else
              (false, [PermissionsContains; GetScripts],
               [mkEmit userscripts_unavailable
                       (Some "functional_test_failed")])
        end
  end.

(** The static fields of the class together with what the probe has done
    so far. [checks] counts the runs of [checkUserScriptsAPIInternal]; the
    browser's answers to the n-th run are [browser n]. *)
Record ProbeState : Type := mkProbe {
  userScriptsAPICache : option (bool * Z);
  checks : nat;
  io : list ProbeIO;
  emitted : list Emit
}.

Definition CACHE_DURATION : Z := 30000.

Definition runCheck (browser : nat -> Browser) (st : ProbeState)
  : bool * ProbeState :=
  let '(available, ios, emits) :=
    checkUserScriptsAPIInternal (browser (checks st)) in
  (available,
   {| userScriptsAPICache := userScriptsAPICache st;
      checks := S (checks st);
      io := io st ++ ios;
      emitted := emitted st ++ emits |}).

Definition delay (ms : Z) (st : ProbeState) : ProbeState :=
  {| userScriptsAPICache := userScriptsAPICache st;
     checks := checks st;
     io := io st ++ [Delay ms];
     emitted := emitted st |}.

Definition setCache (c : option (bool * Z)) (st : ProbeState) : ProbeState :=
  {| userScriptsAPICache := c;
     checks := checks st;
     io := io st;
     emitted := emitted st |}.

(** Phases 1 and 2 and the write of the cache. *)
Definition probeAndCache (browser : nat -> Browser) (now : Z)
           (st : ProbeState) : bool * ProbeState :=
  let '(available, st1) := runCheck browser st in
  let '(available, st2) :=
    if negb available then runCheck browser (delay 150 st1)
    else (available, st1) in
  (available, setCache (Some (available, now)) st2).

(** [canUseUserScriptsAPI]; [now] is the reading of [Date.now()] taken
    on entry. This is one call from its entry to its return with no
    other call entered or resumed in between; calls that overlap are
    followed from await to await in [ProbeCalls]. *)
Definition canUseUserScriptsAPI (browser : nat -> Browser) (now : Z)
           (st : ProbeState) : bool * ProbeState :=
  match userScriptsAPICache st with
  | Some (available, timestamp) =>
      if (now - timestamp <? CACHE_DURATION)%Z
      then (available, st)
      else probeAndCache browser now st
  | None => probeAndCache browser now st
  end.

Definition clearUserScriptsAPICache (st : ProbeState) : ProbeState :=
  setCache None st.

End InjectionUtils.

(** ** InjectionStrategySelector *)

Module InjectionStrategySelector.

Definition specialAPIs : list string :=
  [ "GM_setValue"; "GM_getValue"; "GM_xmlhttpRequest";
    "GM_getResourceText"; "GM_getResourceURL" ].

Definition hasGMAPIs (script : UserScript) : bool :=
  let grants := JS.orEmpty (grant (meta script)) in
  (0 <? List.length grants)%nat
  && negb (forallb (fun g => String.eqb g "none") grants).

Definition hasSpecialAPIs (script : UserScript) : bool :=
  existsb (fun g => JS.includes specialAPIs g)
          (JS.orEmpty (grant (meta script))).

Definition needsEarlyExecution (script : UserScript) : bool :=
  String.eqb (JS.orDefault (run_at (meta script)) "document-end")
             "document-start".

Definition needsIsolation (script : UserScript) : bool :=
  negb (String.eqb (JS.orDefault (sandbox (meta script)) "raw") "raw")
  || hasGMAPIs script.

(** [selectStrategy]; [supportsUserScriptsAPI] is the reading of
    [checkUserScriptsAPISupport()] the branch conditions test. *)
Definition selectStrategy (supportsUserScriptsAPI : bool)
           (script : UserScript) : InjectionStrategy :=
  let runAt := JS.orDefault (run_at (meta script)) "document-end" in
  if needsEarlyExecution script && hasSpecialAPIs script
     && supportsUserScriptsAPI then
    {| method := userscripts_dynamic;
       world := USER_SCRIPT;
       timing := document_start;
       reason := "Early execution with GM APIs requires dynamic UserScripts API" |}
  else if hasSpecialAPIs script && supportsUserScriptsAPI then
    {| method := userscripts_api;
       world := USER_SCRIPT;
       timing := InjectionUtils.convertRunAtTiming runAt;
       reason := "GM APIs require UserScripts API with message passing" |}
  else if needsIsolation script then
    {| method := content_script;
       world := USER_SCRIPT;
       timing := InjectionUtils.convertRunAtTiming runAt;
       reason := "Isolation required but UserScripts API not available, using content script" |}
  else
    {| method := content_script;
       world := MAIN;
       timing := InjectionUtils.convertRunAtTiming runAt;
       reason := "Simple script without special requirements, using direct injection" |}.

Inductive Complexity : Type := simple | moderate | complex.

Definition evaluateScriptComplexity (script : UserScript) : Complexity :=
  let grants := JS.orEmpty (grant (meta script)) in
  let hasRequires := (0 <? List.length (JS.orEmpty (require (meta script))))%nat in
  let hasResources := (0 <? List.length (JS.orEmpty (resource (meta script))))%nat in
  let hasConnect := (0 <? List.length (JS.orEmpty (connect (meta script))))%nat in
  if (3 <? List.length grants)%nat || hasRequires || hasResources || hasConnect
  then complex
  else if (1 <? List.length grants)%nat
          || existsb (fun g => negb (String.eqb g "none")) grants
  then moderate
  else simple.

Definition getStrategyScore (strategy : InjectionStrategy)
           (script : UserScript) : Z :=
  let base :=
    match method strategy with
    | userscripts_dynamic => 100
    | userscripts_api => 80
    | content_script => 60
    end%Z in
  let requestedTiming := JS.orDefault (run_at (meta script)) "document-end" in
  let timingScore :=
    if Timing_eqb (InjectionUtils.convertRunAtTiming requestedTiming)
                  (timing strategy)
    then 20%Z else 0%Z in
  let grants := JS.orEmpty (grant (meta script)) in
  let hasGM := existsb (fun g => negb (String.eqb g "none")) grants in
  let grantScore :=
    if hasGM && World_eqb (world strategy) USER_SCRIPT then 15%Z else 0%Z in
  (base + timingScore + grantScore)%Z.

End InjectionStrategySelector.

(** ** Errors and outcomes of asynchronous calls *)

(** The browser calls of the injection path. *)
Inductive HostOp : Type :=
| UserScriptsRegister
| UserScriptsUnregister
| ScriptingExecuteScript.

(** What a [throw] of the modelled sources carries. *)
Inductive Error : Type :=
| EngineNonCompliant (issues : list string)
| StrategyNonCompliant (scriptName : string) (issues : list string)
| UserScriptsAPIUnavailable
| HostError (op : HostOp) (n : nat)
| UnknownBuildMode (mode : string)
| TypeError (what : string).

(** The message of the errors the modelled sources construct themselves;
    the messages of errors raised by the browser are not fixed by the
    sources. *)
Definition message (e : Error) : option string :=
  match e with
  | EngineNonCompliant issues =>
      Some ("Script contains non-compliant code: " ++ JS.join ", " issues)
  | StrategyNonCompliant scriptName issues =>
      Some ("Script " ++ scriptName ++ " contains non-compliant code: "
            ++ JS.join ", " issues)
  | UserScriptsAPIUnavailable => Some "UserScripts API is not available"
  | UnknownBuildMode mode => Some ("Unknown build mode: " ++ mode)
  | HostError _ _ | TypeError _ => None
  end.

(** A settled promise, or the result of a call that may throw. *)
Inductive Outcome (A : Type) : Type :=
| Fulfilled (a : A)
| Rejected (e : Error).
Arguments Fulfilled {A} a.
Arguments Rejected {A} e.

Definition isFulfilled {A} (o : Outcome A) : bool :=
  match o with
  | Fulfilled _ => true
  | Rejected _ => false
  end.

Definition isRejected {A} (o : Outcome A) : bool :=
  negb (isFulfilled o).

(** ** Build modes (config/build-modes) *)

Module BuildModes.

Record Features : Type := mkFeatures {
  userScriptsAPI : bool;
  legacyInjection : bool;
  dynamicCodeExecution : bool;
  strictCSP : bool;
  evalFallback : bool
}.

Record BuildMode : Type := mkBuildMode {
  name : string;
  description : string;
  features : Features;
  permissions : list string;
  storeCompliant : bool;
  minimumChromeVersion : option string
}.

Definition store : BuildMode :=
  {| name := "Store Compliant";
     description := "完全符合 Chrome Web Store 规范的版本";
     features := {| userScriptsAPI := true;
                    legacyInjection := false;
                    dynamicCodeExecution := false;
                    strictCSP := true;
                    evalFallback := false |};
     permissions := ["activeTab"; "storage"; "scripting"; "tabs"; "userScripts"];
     storeCompliant := true;
     minimumChromeVersion := Some "120" |}.

Definition compat : BuildMode :=
  {| name := "Maximum Compatibility";
     description := "最大兼容性版本，包含所有功能特性";
     features := {| userScriptsAPI := true;
                    legacyInjection := true;
                    dynamicCodeExecution := true;
                    strictCSP := true;
                    evalFallback := true |};
     permissions := ["activeTab"; "storage"; "scripting"; "tabs"; "userScripts"];
     storeCompliant := false;
     minimumChromeVersion := None |}.

Definition BUILD_MODES : gmap string BuildMode :=
  <["store" := store]> (<["compat" := compat]> ∅).

(** [keyof BuildMode['features']] *)
Inductive FeatureKey : Type :=
| KUserScriptsAPI
| KLegacyInjection
| KDynamicCodeExecution
| KStrictCSP
| KEvalFallback.

Definition feature (f : Features) (k : FeatureKey) : bool :=
  match k with
  | KUserScriptsAPI => userScriptsAPI f
  | KLegacyInjection => legacyInjection f
  | KDynamicCodeExecution => dynamicCodeExecution f
  | KStrictCSP => strictCSP f
  | KEvalFallback => evalFallback f
  end.

(** [getCurrentBuildMode]; [env] is [process.env.BUILD_MODE]. A name that
    only resolves along the prototype chain yields a value without
    [features]; it is returned as [None]. *)
Definition getCurrentBuildMode (env : option string)
  : Outcome (option BuildMode) :=
  let mode := JS.orDefault env "store" in
  match JS.get BUILD_MODES mode with
  | JS.Own buildMode => Fulfilled (Some buildMode)
  | JS.Inherited => Fulfilled None
  | JS.Absent => Rejected (UnknownBuildMode mode)
  end.

Definition isFeatureEnabled (env : option string) (k : FeatureKey)
  : Outcome bool :=
  match getCurrentBuildMode env with
  | Fulfilled (Some mode) => Fulfilled (feature (features mode) k)
  | Fulfilled None => Rejected (TypeError "features")
  | Rejected e => Rejected e
  end.

End BuildModes.

(** ** The injection path: strategies and the unified engine *)

Module Engine.

(** The names passed to [isFeatureEnabled] of config/feature-flags. *)
Inductive Flag : Type :=
| FStoreCompliant
| FLegacyInjection
| FEvalFallback.

(** Result of [CompliantScriptExecutor.validateScriptContent]. *)
Record ValidationResult : Type := mkValidation {
  safe : bool;
  issues : list string
}.

(** The browser, as seen by one task: the reply to the n-th call of
    each kind. *)
Record Host : Type := mkHost {
  (** [UserScriptsAPIManager.isAvailable()] / [canUseUserScriptsAPI()] *)
  apiAvailable : nat -> bool;
  registerResolves : nat -> bool;
  unregisterResolves : nat -> bool;
  executeScriptResolves : nat -> bool
}.

Inductive StrategyClass : Type :=
| Compliant        (* CompliantInjectionStrategy *)
| Compatibility.   (* CompatibilityInjectionStrategy *)

(** The places where a strategy's [inject] is called. *)
Inductive CallSite : Type :=
| EngineStrict           (* engine, store-compliant branch *)
| EngineLegacy           (* engine, legacy-injection branch *)
| EngineHybrid           (* engine, hybrid branch, first attempt *)
| EngineHybridFallback   (* engine, hybrid branch, inner catch *)
| EngineEmergency        (* engine, outer catch *)
| CompatibilityFirst.    (* CompatibilityInjectionStrategy.inject, first attempt *)

Definition callee (c : CallSite) : StrategyClass :=
  match c with
  | EngineStrict | EngineHybrid | CompatibilityFirst => Compliant
  | EngineLegacy | EngineHybridFallback | EngineEmergency => Compatibility
  end.

Definition byEngine (c : CallSite) : bool :=
  match c with
  | CompatibilityFirst => false
  | _ => true
  end.

Inductive Validator : Type :=
| ByEngine
| ByCompliantStrategy.

(** The log lines of [injectScript] that are kept. Most carry an
    [action] field in the source ('injection-start', 'validation-failed',
    'validation-passed', 'injection-success', 'injection-failed',
    'fallback-success', 'fallback-failed'); [strategy_determined] is
    'Injection strategy determined', [hybrid_fallback] is 'Compliant
    injection failed, trying compatibility fallback' and
    [emergency_attempt] is 'Attempting emergency fallback injection'. *)
Inductive EngineAction : Type :=
| injection_start
| strategy_determined
| validation_failed
| validation_passed
| hybrid_fallback
| injection_success
| injection_failed
| emergency_attempt
| fallback_success
| fallback_failed.

(** What is observed of a run: readings of the API availability, the
    selector's result and its attachment to the script
    ([script.meta._injectionStrategy = strategy]), calls of
    [validateScriptContent], entries into and returns from a strategy's
    [inject], the entry into [injectWithLegacyMethods], browser calls
    with their outcome, and the log lines above. The other logger calls
    of the sources are left out. *)
Inductive Event : Type :=
| AvailabilityRead (available : bool)
| Selected (scriptId : string) (strategy : InjectionStrategy)
| Attached (scriptId : string) (strategy : InjectionStrategy)
| Validated (by_ : Validator) (scriptId : string) (safe_ : bool)
| Invoke (site : CallSite) (scriptId : string)
| Return (site : CallSite) (scriptId : string) (ok : bool)
| LegacyMethods (scriptId : string)
| HostCall (op : HostOp) (ok : bool)
| Logged (action : EngineAction) (scriptId : string)
| BatchStart (count : nat)
| BatchComplete (count successful failed : nat)
| BatchItemFailed (index : nat) (scriptId : string) (e : Error).

(** Per-task call counters, the static [registeredScripts] map of
    [UserScriptsAPIManager] (its keys), and the log of what happened. *)
Record Sys : Type := mkSys {
  availabilityReads : nat;
  registerCalls : nat;
  unregisterCalls : nat;
  executeCalls : nat;
  registeredScripts : gset string;
  trace : list Event
}.

Definition initial : Sys :=
  {| availabilityReads := 0; registerCalls := 0; unregisterCalls := 0;
     executeCalls := 0; registeredScripts := ∅; trace := [] |}.

(** A computation that reads the host, threads the state and either
    returns or throws. *)
Definition M (A : Type) : Type := Host -> Sys -> Outcome A * Sys.

Definition ret {A} (a : A) : M A := fun _ s => (Fulfilled a, s).

Definition bind {A B} (m : M A) (k : A -> M B) : M B :=
  fun h s =>
    match m h s with
    | (Fulfilled a, s') => k a h s'
    | (Rejected e, s') => (Rejected e, s')
    end.

Definition throw {A} (e : Error) : M A := fun _ s => (Rejected e, s).

Definition tryCatch {A} (m : M A) (handler : Error -> M A) : M A :=
  fun h s =>
    match m h s with
    | (Fulfilled a, s') => (Fulfilled a, s')
    | (Rejected e, s') => handler e h s'
    end.

Declare Scope engine_scope.
Delimit Scope engine_scope with engine.
Notation "'let*' x ':=' m 'in' k" := (bind m (fun x => k))
  (at level 10, x name, m at level 100, k at level 200) : engine_scope.
Notation "m ';;' k" := (bind m (fun _ => k))
  (at level 100, k at level 200, right associativity) : engine_scope.
Local Open Scope engine_scope.

Definition logged (e : Event) (s : Sys) : Sys :=
  {| availabilityReads := availabilityReads s;
     registerCalls := registerCalls s;
     unregisterCalls := unregisterCalls s;
     executeCalls := executeCalls s;
     registeredScripts := registeredScripts s;
     trace := trace s ++ [e] |}.

Definition record (e : Event) : M unit :=
  fun _ s => (Fulfilled tt, logged e s).

(** [typeof chrome !== 'undefined' && chrome.userScripts !== undefined
     && typeof chrome.userScripts.register === 'function']: the body of
    [UserScriptsAPIManager.isAvailable()] and of the synchronous
    [InjectionUtils.canUseUserScriptsAPI()]. Each evaluation is a fresh
    reading of the browser. *)
Definition isAvailable : M bool :=
  fun h s =>
    let b := apiAvailable h (availabilityReads s) in
    (Fulfilled b,
     {| availabilityReads := S (availabilityReads s);
        registerCalls := registerCalls s;
        unregisterCalls := unregisterCalls s;
        executeCalls := executeCalls s;
        registeredScripts := registeredScripts s;
        trace := trace s ++ [AvailabilityRead b] |}).

(** An awaited browser call: it resolves or rejects. *)
Definition hostCall (op : HostOp) : M unit :=
  fun h s =>
    let n := match op with
             | UserScriptsRegister => registerCalls s
             | UserScriptsUnregister => unregisterCalls s
             | ScriptingExecuteScript => executeCalls s
             end in
    let ok := match op with
              | UserScriptsRegister => registerResolves h n
              | UserScriptsUnregister => unregisterResolves h n
              | ScriptingExecuteScript => executeScriptResolves h n
              end in
    let s' :=
      {| availabilityReads := availabilityReads s;
         registerCalls :=
           match op with UserScriptsRegister => S n | _ => registerCalls s end;
         unregisterCalls :=
           match op with UserScriptsUnregister => S n | _ => unregisterCalls s end;
         executeCalls :=
           match op with ScriptingExecuteScript => S n | _ => executeCalls s end;
         registeredScripts := registeredScripts s;
         trace := trace s ++ [HostCall op ok] |} in
    (if ok then Fulfilled tt else Rejected (HostError op n), s').

Definition isRegistered (scriptId : string) : M bool :=
  fun _ s => (Fulfilled (bool_decide (scriptId ∈ registeredScripts s)), s).

Definition setRegistered (f : gset string -> gset string) : M unit :=
  fun _ s =>
    (Fulfilled tt,
     {| availabilityReads := availabilityReads s;
        registerCalls := registerCalls s;
        unregisterCalls := unregisterCalls s;
        executeCalls := executeCalls s;
        registeredScripts := f (registeredScripts s);
        trace := trace s |}).

(** *** UserScriptsAPIManager *)

Definition unregisterScript (scriptId : string) : M unit :=
  let* available := isAvailable in
  if negb available then ret tt
  else
    let* has := isRegistered scriptId in
    if has then
      tryCatch
        (hostCall UserScriptsUnregister ;;
         setRegistered (fun r => r ∖ {[scriptId]}))
        (fun _ => ret tt)
    else ret tt.

Definition registerScriptCompliant (script : UserScript)
           (strategy : InjectionStrategy) : M unit :=
  let* available := isAvailable in
  if negb available then throw UserScriptsAPIUnavailable
  else
    unregisterScript (id script) ;;
    tryCatch
      (hostCall UserScriptsRegister ;;
       setRegistered (fun r => {[id script]} ∪ r))
      (fun error => throw error).

(** *** InjectionUtils.injectAPIBridge *)

Definition injectAPIBridge (tabId : Z) (scriptId : string) : M unit :=
  hostCall ScriptingExecuteScript ;;
  hostCall ScriptingExecuteScript.

Section Strategies.

Variable isFeatureEnabled : Flag -> bool.
Variable validateScriptContent : UserScript -> ValidationResult.

(** *** CompliantInjectionStrategy *)

Definition injectViaUserScripts (script : UserScript) : M unit :=
  let strategy :=
    {| method := userscripts_dynamic;
       world := USER_SCRIPT;
       timing := InjectionUtils.convertRunAtTiming
                   (JS.orDefault (run_at (meta script)) "");
       reason := "Using UserScripts API for compliant execution" |} in
  registerScriptCompliant script strategy.

Definition injectViaScripting (script : UserScript) (tabId : Z) : M unit :=
  let needsIsolation := InjectionUtils.needsIsolation script in
  (if needsIsolation then injectAPIBridge tabId (id script) else ret tt) ;;
  hostCall ScriptingExecuteScript.

Definition compliantInject (script : UserScript) (tabId : Z) : M unit :=
  let validation := validateScriptContent script in
  record (Validated ByCompliantStrategy (id script) (safe validation)) ;;
  (if negb (safe validation) && isFeatureEnabled FStoreCompliant
   then throw (StrategyNonCompliant (name (meta script)) (issues validation))
   else ret tt) ;;
  let* available := isAvailable in
  if available then injectViaUserScripts script
  else injectViaScripting script tabId.

(** A call of a strategy's [inject] from [site], bracketed in the log. *)
Definition call (site : CallSite) (scriptId : string) (m : M unit)
  : M unit :=
  record (Invoke site scriptId) ;;
  tryCatch
    (m ;; record (Return site scriptId true))
    (fun e => record (Return site scriptId false) ;; throw e).

(** *** CompatibilityInjectionStrategy *)

Definition injectWithLegacyMethods (script : UserScript) (tabId : Z)
  : M unit :=
  record (LegacyMethods (id script)) ;;
  let needsIsolation := InjectionUtils.needsIsolation script in
  (if needsIsolation then injectAPIBridge tabId (id script) else ret tt) ;;
  hostCall ScriptingExecuteScript.

Definition compatibilityInject (script : UserScript) (tabId : Z) : M unit :=
  tryCatch
    (call CompatibilityFirst (id script) (compliantInject script tabId))
    (fun _ => injectWithLegacyMethods script tabId).

(** *** UnifiedInjectionEngine *)

Definition emergencyGuard : bool :=
  negb (isFeatureEnabled FStoreCompliant)
  && negb (isFeatureEnabled FLegacyInjection)
  && isFeatureEnabled FEvalFallback.

(** The block of [injectScript] guarded by
    [isFeatureEnabled('storeCompliant')] that validates the content. *)
Definition validateCompliance (script : UserScript) : M unit :=
  let sid := id script in
  if isFeatureEnabled FStoreCompliant then
    let validation := validateScriptContent script in
    record (Validated ByEngine sid (safe validation)) ;;
    if negb (safe validation) then
      record (Logged validation_failed sid) ;;
      throw (EngineNonCompliant (issues validation))
    else record (Logged validation_passed sid)
  else ret tt.

(** The [try { ... } catch (error) { ... }] statement of
    [injectScript]: the injection chosen by the build mode, and the
    emergency fallback. *)
Definition injectByMode (script : UserScript) (tabId : Z) : M unit :=
  let sid := id script in
  tryCatch
    ((if isFeatureEnabled FStoreCompliant then
        call EngineStrict sid (compliantInject script tabId)
      else if isFeatureEnabled FLegacyInjection then
        call EngineLegacy sid (compatibilityInject script tabId)
      else
        tryCatch
          (call EngineHybrid sid (compliantInject script tabId))
          (fun _ =>
             record (Logged hybrid_fallback sid) ;;
             call EngineHybridFallback sid
                  (compatibilityInject script tabId))) ;;
     record (Logged injection_success sid))
    (fun error =>
       record (Logged injection_failed sid) ;;
       if emergencyGuard then
         record (Logged emergency_attempt sid) ;;
         tryCatch
           (call EngineEmergency sid (compatibilityInject script tabId) ;;
            record (Logged fallback_success sid))
           (fun fallbackError =>
              record (Logged fallback_failed sid) ;;
              throw fallbackError)
       else throw error).

(** [injectScript]: select and attach the strategy, validate in
    store-compliant mode, then inject. [supports] is what
    [checkUserScriptsAPISupport()] yields inside [selectStrategy]. *)
Definition injectScript (script : UserScript) (tabId : Z) : M unit :=
  let sid := id script in
  record (Logged injection_start sid) ;;
  let* supports := isAvailable in
  let strategy := InjectionStrategySelector.selectStrategy supports script in
  record (Selected sid strategy) ;;
  record (Attached sid strategy) ;;
  record (Logged strategy_determined sid) ;;
  validateCompliance script ;;
  injectByMode script tabId.

(** *** Batch injection

    [Promise.allSettled(scripts.map(script => this.injectScript(...)))]:
    one task per script. Task [i] talks to the browser through
    [hosts i] and counts its own calls; the [registeredScripts] map and
    the log are shared. The tasks are taken in array order. *)

Definition asTask {A} (h : Host) (m : M A) : M (Outcome A) :=
  fun _ s =>
    let s0 :=
      {| availabilityReads := 0; registerCalls := 0;
         unregisterCalls := 0; executeCalls := 0;
         registeredScripts := registeredScripts s;
         trace := trace s |} in
    let '(r, s') := m h s0 in
    (Fulfilled r, s').

Fixpoint allSettled (hosts : nat -> Host) (index : nat)
         (scripts : list UserScript) (tabId : Z)
  : M (list (Outcome unit)) :=
  match scripts with
  | [] => ret []
  | script :: rest =>
      let* r := asTask (hosts index) (injectScript script tabId) in
      let* rs := allSettled hosts (S index) rest tabId in
      ret (r :: rs)
  end.

(** [results.forEach((result, index) => ...)] *)
Fixpoint reportFailures (index : nat) (results : list (Outcome unit))
         (scripts : list UserScript) : M unit :=
  match results with
  | [] => ret tt
  | result :: results' =>
      (match result with
       | Rejected reason =>
           match scripts !! index with
           | Some script =>
               record (BatchItemFailed index (id script) reason)
           | None => throw (TypeError "id")
           end
       | Fulfilled _ => ret tt
       end) ;;
      reportFailures (S index) results' scripts
  end.

(** The body of [injectMultipleScripts] up to the point where
    [results] is known. *)
Definition batchResults (hosts : nat -> Host)
           (scripts : list UserScript) (tabId : Z)
  : M (list (Outcome unit)) :=
  record (BatchStart (List.length scripts)) ;;
  allSettled hosts 0 scripts tabId.

Definition injectMultipleScripts (hosts : nat -> Host)
           (scripts : list UserScript) (tabId : Z) : M unit :=
  let* results := batchResults hosts scripts tabId in
  let successful := List.length (List.filter isFulfilled results) in
  let failed := List.length (List.filter isRejected results) in
  record (BatchComplete (List.length scripts) successful failed) ;;
  reportFailures 0 results scripts.

End Strategies.

End Engine.

(** ** The engine's flags under a build mode

    config/feature-flags, from which the engine imports [isFeatureEnabled],
    is not among the sources. [legacyInjection] and [evalFallback] are
    features of the build-mode table and are read as
    [BuildModes.isFeatureEnabled] reads them. The table has no feature
    called [storeCompliant]; what [isFeatureEnabled] answers for it is the
    argument [storeCompliantFlag]. *)

Module FeatureFlags.

Definition flagsUnder (mode : BuildModes.BuildMode)
           (storeCompliantFlag : bool) (f : Engine.Flag) : bool :=
  match f with
  | Engine.FStoreCompliant => storeCompliantFlag
  | Engine.FLegacyInjection =>
      BuildModes.feature (BuildModes.features mode)
                         BuildModes.KLegacyInjection
  | Engine.FEvalFallback =>
      BuildModes.feature (BuildModes.features mode)
                         BuildModes.KEvalFallback
  end.

End FeatureFlags.

(** ** GMAPIManager: GM_xmlhttpRequest *)

Module GMAPIManager.

Record Details : Type := mkDetails {
  url : string;
  method : option string;
  headers : option (list (string * string));
  data : option string
}.

Record GMAPIPayload : Type := mkPayload {
  scriptId : option string;
  details : option Details
}.

(** The [data] of a successful [GM_xmlhttpRequest] response. *)
Record ResponseData : Type := mkResponseData {
  responseText : string;
  status : Z;
  statusText : string;
  responseHeaders : string;
  finalUrl : string
}.

Inductive GMAPIResponse : Type :=
| success (d : ResponseData)
| error (msg : string).

(** A call of [fetch(url, { method, headers, body })]. *)
Record Request : Type := mkRequest {
  requestUrl : string;
  requestMethod : string;
  requestHeaders : option (list (string * string));
  requestBody : option string
}.

(** What [fetch] followed by [response.text()] yields: the response, or
    the message of the error that was thrown. *)
Inductive FetchReply : Type :=
| Responded (d : ResponseData)
| Threw (msg : string).

Section Handler.

(** [new URL(u).hostname], or [None] when the constructor throws. *)
Variable hostnameOf : string -> option string.
(** The network. *)
Variable fetch : Request -> FetchReply.

Definition allowedBy (hostname : string) (domain : string) : bool :=
  String.eqb domain "*"
  || String.eqb hostname domain
  || JS.endsWith hostname ("." ++ domain).

Definition isAllowed (connect_ : list string) (hostname : string) : bool :=
  existsb (allowedBy hostname) connect_.

(** The result of the handler and the [fetch] calls it has issued. *)
Definition handleGMXMLHttpRequest (scriptCache : gmap string UserScript)
           (payload : GMAPIPayload)
  : Outcome GMAPIResponse * list Request :=
  match scriptId payload, details payload with
  | Some sid, Some d =>
      if String.eqb sid "" then
        (Fulfilled (error "Missing scriptId or details parameter"), [])
      else
        match JS.get scriptCache sid with
        | JS.Absent => (Fulfilled (error "Script not found"), [])
        | found =>
            match hostnameOf (url d) with
            | None => (Rejected (TypeError "Invalid URL"), [])
            | Some hostname =>
                match found with
                | JS.Own script =>
                    match connect (meta script) with
                    | None => (Rejected (TypeError "some"), [])
                    | Some domains =>
                        if negb (isAllowed domains hostname) then
                          (Fulfilled
                             (error ("Domain not whitelisted in @connect: "
                                     ++ hostname)), [])
                        else
                          let request :=
                            {| requestUrl := url d;
                               requestMethod := JS.orDefault (method d) "GET";
                               requestHeaders := headers d;
                               requestBody := data d |} in
                          match fetch request with
                          | Responded r => (Fulfilled (success r), [request])
                          | Threw msg => (Fulfilled (error msg), [request])
                          end
                    end
                | _ => (Rejected (TypeError "connect"), [])
                end
            end
        end
  | _, _ => (Fulfilled (error "Missing scriptId or details parameter"), [])
  end.

End Handler.

End GMAPIManager.

(** * Vocabulary of the properties, and sample inputs *)

(** A script requests a privileged grant: some [@grant] differs from
    ["none"]. *)
Definition requestsPrivilegedGrant (script : UserScript) : bool :=
  existsb (fun g => negb (String.eqb g "none"))
          (JS.orEmpty (grant (meta script))).

(** A script declares no grants at all. *)
Definition hasNoGrants (script : UserScript) : bool :=
  match JS.orEmpty (grant (meta script)) with
  | [] => true
  | _ => false
  end.

Definition sampleMeta (grants : option (list string))
           (runAt sandboxMode : option string) : ScriptMeta :=
  {| name := "sample";
     grant := grants;
     run_at := runAt;
     sandbox := sandboxMode;
     connect := Some ["example.com"];
     require := None;
     resource := None;
     matches := Some ["https://*/*"] |}.

Definition sampleScript (grants : option (list string))
           (runAt sandboxMode : option string) : UserScript :=
  {| id := "script-1";
     content := "console.log(1)";
     meta := sampleMeta grants runAt sandboxMode |}.

(** [@grant GM_addStyle], [@run-at document-start]. *)
Definition addStyleAtStart : UserScript :=
  sampleScript (Some ["GM_addStyle"]) (Some "document-start") None.

(** [@grant GM_setValue], [@run-at document-start]. *)
Definition setValueAtStart : UserScript :=
  sampleScript (Some ["GM_setValue"]) (Some "document-start") None.

(** No grants, a sandbox other than raw. *)
Definition sandboxedNoGrants : UserScript :=
  sampleScript None None (Some "isolated").

(** No grants, no sandbox declaration. *)
Definition plainScript : UserScript :=
  sampleScript None None None.

(** ** The executor's log *)

Module ExecutorLog.
Import InjectionUtils.

(** The helper calls, in order. *)
Fixpoint attempts (effects : list Effect) : list ExecMethod :=
  match effects with
  | [] => []
  | Try m :: rest => m :: attempts rest
  | _ :: rest => attempts rest
  end.

(** The console lines that report the outcome of an attempt. *)
Fixpoint outcomes (effects : list Effect) : list (ExecMethod * bool) :=
  match effects with
  | [] => []
  | Console _ (Successful m _) :: rest => (m, true) :: outcomes rest
  | Console _ (Failed m) :: rest => (m, false) :: outcomes rest
  | _ :: rest => outcomes rest
  end.




(** The code the executor hands to the page for execution, with the
    method that hands it over: the text of an appended script element,
    the body given to the synthesized function that was called, the
    argument of [eval]. *)
Fixpoint executions (effects : list Effect) : list (ExecMethod * string) :=
  match effects with
  | [] => []
  | Appended el :: rest => (ScriptTag, textContent el) :: executions rest
  | RanFunction code :: rest => (FunctionConstructor, code) :: executions rest
  | RanEval code :: rest => (EvalFallback, code) :: executions rest
  | _ :: rest => executions rest
  end.


(** A page with a nonce and Trusted Types where only [eval] works. *)
Definition strictPage : Page :=
  {| pageNonce := Some "abc";
     hasTrustedTypes := true;
     domThrows := fun s => match s with AppendChild => true | _ => false end;
     functionThrows := true;
     evalThrows := false |}.

End ExecutorLog.

(** ** Sample probe inputs *)

Module ProbeSamples.
Import InjectionUtils.

Definition working : Browser :=
  {| chromeGlobal := ChromePresent;
     userScriptsObject := true;
     permissionReply := PermissionGranted;
     registerIsFunction := true;
     getScriptsResolves := true |}.

Definition missing : Browser :=
  {| chromeGlobal := ChromePresent;
     userScriptsObject := false;
     permissionReply := PermissionDenied;
     registerIsFunction := false;
     getScriptsResolves := false |}.

(** The API appears only from the third check on. *)
Definition lateBrowser (n : nat) : Browser :=
  if (n <? 2)%nat then missing else working.

Definition fresh : ProbeState :=
  {| userScriptsAPICache := None; checks := 0; io := []; emitted := [] |}.

End ProbeSamples.

(** ** Sample GM_xmlhttpRequest inputs *)

Module GMSamples.
Import GMAPIManager.

(** A toy reading of [new URL(u).hostname]: the text after ["https://"],
    for URLs without a path. *)
Definition hostnameOf (u : string) : option string :=
  if String.prefix "https://" u
  then Some (String.substring 8 (String.length u - 8) u)
  else None.

Definition fetch (r : Request) : FetchReply :=
  Responded {| responseText := "ok"; status := 200; statusText := "OK";
               responseHeaders := ""; finalUrl := requestUrl r |}.

Definition cache : gmap string UserScript :=
  {[ "script-1" := plainScript ]}.

Definition payloadFor (u : string) : GMAPIPayload :=
  {| scriptId := Some "script-1";
     details := Some {| url := u; method := None;
                        headers := None; data := None |} |}.

End GMSamples.

(** ** Reading the engine's log *)

Module EngineLog.
Import Engine.

Definition StrategyClass_eqb (a b : StrategyClass) : bool :=
  match a, b with
  | Compliant, Compliant => true
  | Compatibility, Compatibility => true
  | _, _ => false
  end.

(** Every call of a strategy's [inject], in order. *)
Fixpoint invocations (t : list Event) : list CallSite :=
  match t with
  | [] => []
  | Invoke site _ :: rest => site :: invocations rest
  | _ :: rest => invocations rest
  end.

(** The calls made by the engine itself, with how each one ended. *)
Fixpoint engineReturns (t : list Event) : list (CallSite * bool) :=
  match t with
  | [] => []
  | Return site _ ok :: rest =>
      if byEngine site then (site, ok) :: engineReturns rest
      else engineReturns rest
  | _ :: rest => engineReturns rest
  end.

(** How often the [inject] of a strategy class was entered. *)
Definition runs (c : StrategyClass) (t : list Event) : nat :=
  List.length
    (List.filter (fun site => StrategyClass_eqb (callee site) c)
                 (invocations t)).

(** The selector is not consulted before the engine has validated:
    [validated] tells whether the engine's validation has been seen. *)
Fixpoint selectionFollowsValidation (validated : bool) (t : list Event)
  : bool :=
  match t with
  | [] => true
  | Validated ByEngine _ _ :: rest => selectionFollowsValidation true rest
  | Selected _ _ :: rest =>
      validated && selectionFollowsValidation validated rest
  | _ :: rest => selectionFollowsValidation validated rest
  end.

Definition isSelection (e : Event) : bool :=
  match e with
  | Selected _ _ | Attached _ _ => true
  | _ => false
  end.

(** Events of the emergency tier. *)
Definition isEmergency (e : Event) : bool :=
  match e with
  | Invoke EngineEmergency _ | Return EngineEmergency _ _ => true
  | Logged emergency_attempt _ | Logged fallback_success _
  | Logged fallback_failed _ => true
  | _ => false
  end.

(** Events below the engine: what the strategies and the browser calls
    leave in the log. *)
Definition belowEngine (e : Event) : bool :=
  match e with
  | AvailabilityRead _ | HostCall _ _ | LegacyMethods _ => true
  | Validated ByCompliantStrategy _ _ => true
  | Invoke CompatibilityFirst _ | Return CompatibilityFirst _ _ => true
  | _ => false
  end.

(** Events a strategy's [inject] never leaves: calls of strategies. *)
Definition belowStrategy (e : Event) : bool :=
  match e with
  | AvailabilityRead _ | HostCall _ _ => true
  | Validated ByCompliantStrategy _ _ => true
  | _ => false
  end.

(** Entering or leaving a strategy's [inject]. *)
Definition isBracket (e : Event) : bool :=
  match e with
  | Invoke _ _ | Return _ _ _ => true
  | _ => false
  end.

Definition silent (e : Event) : bool := negb (isBracket e).

(** [m] only appends to the log; [R] relates its outcome to what it
    appends. *)
Definition logs {A} (m : M A) (R : Outcome A -> list Event -> Prop) : Prop :=
  forall h s, exists evs,
    trace (snd (m h s)) = (trace s ++ evs)%list /\ R (fst (m h s)) evs.

(** The state in which [injectScript] reaches its validation block. *)
Definition afterSelection (script : UserScript) (h : Host) (s : Sys) : Sys :=
  let b := apiAvailable h (availabilityReads s) in
  let strategy := InjectionStrategySelector.selectStrategy b script in
  {| availabilityReads := S (availabilityReads s);
     registerCalls := registerCalls s;
     unregisterCalls := unregisterCalls s;
     executeCalls := executeCalls s;
     registeredScripts := registeredScripts s;
     trace := trace s
              ++ [Logged injection_start (id script); AvailabilityRead b;
                  Selected (id script) strategy;
                  Attached (id script) strategy;
                  Logged strategy_determined (id script)] |}.

(** How often the engine itself called the compatibility strategy. *)
Definition compatibilityCalls (chain : list (CallSite * bool)) : nat :=
  List.length
    (List.filter (fun c => StrategyClass_eqb (callee (fst c)) Compatibility)
                 chain).

(** [m] only appends to the log, and only events accepted by [q]. *)
Definition emits {A} (q : Event -> bool) (m : M A) : Prop :=
  forall h s, exists evs,
    trace (snd (m h s)) = (trace s ++ evs)%list /\ forallb q evs = true.

(** Two states agree on what decides the replies of the browser that
    matter for the outcome of a task. *)
Definition agree (s1 s2 : Sys) : Prop :=
  availabilityReads s1 = availabilityReads s2
  /\ registerCalls s1 = registerCalls s2
  /\ executeCalls s1 = executeCalls s2.

(** The outcome of [m] does not depend on the shared part of the state
    (the registered scripts, the log, the unregister counter). *)
Definition respects {A} (m : M A) : Prop :=
  forall h s1 s2, agree s1 s2 ->
    fst (m h s1) = fst (m h s2) /\ agree (snd (m h s1)) (snd (m h s2)).

(** The shape of the engine-level chain of a call outside strict mode. *)
Definition fallbackChain (legacy evalFallback_ : bool)
           (chain : list (CallSite * bool)) : Prop :=
  if legacy then
    exists ok, chain = [(EngineLegacy, ok)]
  else
    chain = [(EngineHybrid, true)]
    \/ chain = [(EngineHybrid, false); (EngineHybridFallback, true)]
    \/ (evalFallback_ = false
        /\ chain = [(EngineHybrid, false); (EngineHybridFallback, false)])
    \/ (evalFallback_ = true
        /\ exists ok,
             chain = [(EngineHybrid, false); (EngineHybridFallback, false);
                      (EngineEmergency, ok)]).

(** Whether the last call of a chain succeeded. *)
Definition chainSucceeded (chain : list (CallSite * bool)) : bool :=
  match List.last chain (EngineStrict, false) with
  | (_, ok) => ok
  end.

(** What the log of a call outside strict mode says about the chain: its
    shape, that the engine-level entries and returns match, that the call
    succeeds exactly when the last attempt did, and how often each
    strategy ran. *)
Definition chainFacts (legacy evalFallback_ : bool)
           (r : Outcome unit) (evs : list Event) : Prop :=
  let chain := engineReturns evs in
  fallbackChain legacy evalFallback_ chain
  /\ List.filter byEngine (invocations evs) = List.map fst chain
  /\ isFulfilled r = chainSucceeded chain
  /\ runs Compliant evs = List.length chain
  /\ runs Compatibility evs = compatibilityCalls chain.

(** The outcome of the task that injects [script] as item [i] of a
    batch: that of [injectScript] talking to [hosts i]. *)
Definition taskOutcome (isFeatureEnabled : Flag -> bool)
           (validateScriptContent : UserScript -> ValidationResult)
           (hosts : nat -> Host) (tabId : Z)
           (i : nat) (script : UserScript) : Outcome unit :=
  fst (injectScript isFeatureEnabled validateScriptContent script tabId
                    (hosts i) initial).

End EngineLog.

(** ** Sample engine inputs *)

Module EngineSamples.
Import Engine.

Definition strictFlags (f : Flag) : bool :=
  match f with
  | FStoreCompliant => true
  | _ => false
  end.

Definition legacyFlags (f : Flag) : bool :=
  match f with
  | FLegacyInjection => true
  | FEvalFallback => true
  | FStoreCompliant => false
  end.

(** Neither store-compliant nor legacy, with the eval fallback on. *)
Definition hybridFlags (f : Flag) : bool :=
  match f with
  | FEvalFallback => true
  | _ => false
  end.

Definition rejectAll (script : UserScript) : ValidationResult :=
  {| safe := false; issues := ["eval() usage detected"] |}.

Definition acceptAll (script : UserScript) : ValidationResult :=
  {| safe := true; issues := [] |}.

(** Rejects the scripts whose content is empty. *)
Definition rejectEmpty (script : UserScript) : ValidationResult :=
  if String.eqb (content script) ""
  then {| safe := false; issues := ["empty"] |}
  else {| safe := true; issues := [] |}.

Definition failingHost : Host :=
  {| apiAvailable := fun _ => false;
     registerResolves := fun _ => false;
     unregisterResolves := fun _ => false;
     executeScriptResolves := fun _ => false |}.

Definition workingHost : Host :=
  {| apiAvailable := fun _ => true;
     registerResolves := fun _ => true;
     unregisterResolves := fun _ => true;
     executeScriptResolves := fun _ => true |}.

Definition emptyScript : UserScript :=
  {| id := "script-2"; content := ""; meta := sampleMeta None None None |}.

End EngineSamples.

(** * Further vocabulary *)

(** ** The probe, layer by layer *)

Module ProbeLog.
Import InjectionUtils.

(** Every layer of [checkUserScriptsAPIInternal] lets the browser
    through: the [chrome] global and [chrome.userScripts] exist, the
    permission query does not answer "no", [register] is a function and
    [getScripts()] resolves. *)
Definition passes (b : Browser) : bool :=
  match chromeGlobal b with
  | ChromePresent =>
      userScriptsObject b
      && match permissionReply b with
         | PermissionDenied => false
         | _ => true
         end
      && registerIsFunction b
      && getScriptsResolves b
  | _ => false
  end.


(** [getUserScriptsAPIStats]; [now] is the reading of [Date.now()]. *)
Record Stats : Type := mkStats {
  cached : bool;
  cacheAge : option Z;
  statsAvailable : option bool
}.

Definition getUserScriptsAPIStats (now : Z) (st : ProbeState) : Stats :=
  match userScriptsAPICache st with
  | None => {| cached := false; cacheAge := None; statsAvailable := None |}
  | Some (available, timestamp) =>
      {| cached := true;
         cacheAge := Some (now - timestamp)%Z;
         statsAvailable := Some available |}
  end.

End ProbeLog.

(** ** Calls of the probe that overlap

    [canUseUserScriptsAPI] is an async function: it reads the cache when
    it is entered and writes it after its awaits. Between two awaits a
    call runs without interruption; at an await it is suspended and other
    calls may be entered or resumed. A call is followed here from one
    suspension to the next: [enter] runs it up to its first await (or to
    its return on a cache hit), [resume] from one await to the next. The
    awaits are those of the source: the permission query and
    [getScripts()] inside [checkUserScriptsAPIInternal], the await of the
    check's result in [canUseUserScriptsAPI] (twice), and the timer.

    As in [runCheck], the browser's answers to the n-th run of the check
    are [browser n]; a run takes its number when it starts. *)

Module ProbeCalls.
Import InjectionUtils.

Inductive CheckPhase : Type :=
| Immediate   (* the check awaited at [let available = await ...] *)
| Retry.      (* the check awaited after the delay *)

(** Where a call is suspended; [now] is the reading of [Date.now()] it
    took on entry. *)
Inductive Call : Type :=
(** inside check [n], at [await chrome.permissions.contains(...)] *)
| AtPermissionQuery (phase : CheckPhase) (now : Z) (n : nat)
(** inside check [n], at [await chrome.userScripts.getScripts()] *)
| AtGetScripts (phase : CheckPhase) (now : Z) (n : nat)
(** at [await this.checkUserScriptsAPIInternal()], the check having
    returned [available] *)
| AtCheckResult (phase : CheckPhase) (now : Z) (available : bool)
(** at [await new Promise(resolve => setTimeout(resolve, 150))] *)
| AtDelay (now : Z)
| Returned (available : bool).

Definition isReturned (c : Call) : bool :=
  match c with
  | Returned _ => true
  | _ => false
  end.

(** The entry-time reading of a call that has not returned. *)
Definition entryTime (c : Call) : option Z :=
  match c with
  | AtPermissionQuery _ now _ | AtGetScripts _ now _
  | AtCheckResult _ now _ | AtDelay now => Some now
  | Returned _ => None
  end.

Section Steps.

Variable browser : nat -> Browser.

Definition logged (ios : list ProbeIO) (emits : list Emit)
           (st : ProbeState) : ProbeState :=
  {| userScriptsAPICache := userScriptsAPICache st;
     checks := checks st;
     io := io st ++ ios;
     emitted := emitted st ++ emits |}.

(** [checkUserScriptsAPIInternal] from its call to its first await,
    or to its return when the first layer fails. *)
Definition startCheck (phase : CheckPhase) (now : Z) (st : ProbeState)
  : Call * ProbeState :=
  let n := checks st in
  let st1 :=
    {| userScriptsAPICache := userScriptsAPICache st;
       checks := S n;
       io := io st;
       emitted := emitted st |} in
  match chromeGlobal (browser n) with
  | ChromeUndeclared => (AtCheckResult phase now false, st1)
  | ChromeNullish =>
      (AtCheckResult phase now false,
       logged [] [mkEmit userscripts_unavailable
                         (Some "userScripts_object_missing")] st1)
  | ChromePresent =>
      if negb (userScriptsObject (browser n)) then
        (AtCheckResult phase now false,
         logged [] [mkEmit userscripts_unavailable
                           (Some "userScripts_object_missing")] st1)
      else
        (AtPermissionQuery phase now n, logged [PermissionsContains] [] st1)
  end.

(** [canUseUserScriptsAPI] from its call to its first await, or to
    its return on a cache hit. *)
Definition enter (now : Z) (st : ProbeState) : Call * ProbeState :=
  match userScriptsAPICache st with
  | Some (available, timestamp) =>
      if (now - timestamp <? CACHE_DURATION)%Z
      then (Returned available, st)
      else startCheck Immediate now st
  | None => startCheck Immediate now st
  end.

(** A suspended call from the await it is at to the next. *)
Definition resume (c : Call) (st : ProbeState) : Call * ProbeState :=
  match c with
  | AtPermissionQuery phase now n =>
      match permissionReply (browser n) with
      | PermissionDenied =>
          (AtCheckResult phase now false,
           logged [] [mkEmit userscripts_permission_denied None] st)
      | PermissionGranted | PermissionThrows =>
          if negb (registerIsFunction (browser n)) then
            (AtCheckResult phase now false,
             logged [] [mkEmit userscripts_unavailable
                               (Some "register_method_missing")] st)
          else (AtGetScripts phase now n, logged [GetScripts] [] st)
      end
  | AtGetScripts phase now n =>
      if getScriptsResolves (browser n) then
        (AtCheckResult phase now true, st)
      else
        (AtCheckResult phase now false,
         logged [] [mkEmit userscripts_unavailable
                           (Some "functional_test_failed")] st)
  | AtCheckResult Immediate now available =>
      if negb available then (AtDelay now, st)
      else (Returned available, setCache (Some (available, now)) st)
  | AtDelay now => startCheck Retry now (delay 150 st)
  | AtCheckResult Retry now available =>
      (Returned available, setCache (Some (available, now)) st)
  | Returned available => (Returned available, st)
  end.

(** [k] resumptions of one call, nothing else running in between. *)
Fixpoint resumeN (k : nat) (c : Call) (st : ProbeState)
  : Call * ProbeState :=
  match k with
  | O => (c, st)
  | S k' => let '(c', st') := resume c st in resumeN k' c' st'
  end.

(** What happens next: a new call is entered at time [now], the call
    entered as the i-th is resumed, or [clearUserScriptsAPICache] is
    called. *)
Inductive Action : Type :=
| Enter (now : Z)
| Resume (i : nat)
| Clear.

(** The calls entered so far, in order of entry, and the state they
    share. *)
Definition Pool : Type := (list Call * ProbeState)%type.

Definition act (p : Pool) (a : Action) : Pool :=
  let '(calls, st) := p in
  match a with
  | Enter now =>
      let '(c, st') := enter now st in ((calls ++ [c])%list, st')
  | Resume i =>
      match calls !! i with
      | Some c =>
          let '(c', st') := resume c st in (<[i := c']> calls, st')
      | None => (calls, st)
      end
  | Clear => (calls, clearUserScriptsAPICache st)
  end.

Definition run (schedule : list Action) (p : Pool) : Pool :=
  fold_left act schedule p.

(** A call is suspended at most seven times. *)
Definition resumeToEnd (i : nat) : list Action := replicate 7 (Resume i).

(** Call [i] entered at [now] and run to its return with nothing in
    between. *)
Definition solo (i : nat) (now : Z) : list Action :=
  Enter now :: resumeToEnd i.

End Steps.

End ProbeCalls.

(** ** GuidanceEventBus (guidance-events)

    The static [listeners] map is a [Map] from event type to an array of
    listeners; its keys keep their insertion order, so it is a list of
    pairs with distinct keys. A listener is a function object, identified
    here by a number; what a call of it does to the bus's caller is only
    whether it throws, given by [behaviour]. Listeners are taken not to
    register or remove listeners while they are being called. *)

Module GuidanceEventBus.

Definition Listener : Type := nat.

Record GuidanceEvent : Type := mkEvent {
  type : string;
  data : option string;
  timestamp : Z
}.

Definition Listeners : Type := list (string * list Listener).

(** [Map.prototype.get] *)
Fixpoint get (listeners : Listeners) (eventType : string)
  : option (list Listener) :=
  match listeners with
  | [] => None
  | (k, ls) :: rest =>
      if String.eqb k eventType then Some ls else get rest eventType
  end.

(** [Map.prototype.set]: an existing key keeps its place, a new key goes
    to the end. Also used for the in-place changes of the array held
    under a key. *)
Fixpoint set (listeners : Listeners) (eventType : string)
         (ls : list Listener) : Listeners :=
  match listeners with
  | [] => [(eventType, ls)]
  | (k, old) :: rest =>
      if String.eqb k eventType then (k, ls) :: rest
      else (k, old) :: set rest eventType ls
  end.

Definition on (eventType : string) (listener : Listener)
           (listeners : Listeners) : Listeners :=
  let listeners1 :=
    match get listeners eventType with
    | None => set listeners eventType []
    | Some _ => listeners
    end in
  match get listeners1 eventType with
  | Some ls => set listeners1 eventType (ls ++ [listener])
  | None => listeners1
  end.

(** [indexOf] followed by [splice(index, 1)]. *)
Fixpoint removeFirst (listener : Listener) (ls : list Listener)
  : list Listener :=
  match ls with
  | [] => []
  | l :: rest =>
      if Nat.eqb l listener then rest else l :: removeFirst listener rest
  end.

Definition off (eventType : string) (listener : Listener)
           (listeners : Listeners) : Listeners :=
  match get listeners eventType with
  | Some ls => set listeners eventType (removeFirst listener ls)
  | None => listeners
  end.

(** A call of a listener from [emit]. *)
Record Delivery : Type := mkDelivery {
  receiver : Listener;
  received : GuidanceEvent;
  threw : bool
}.

(** [listeners.forEach(listener => { try { listener(event) } catch ... })] *)
Fixpoint deliver (behaviour : Listener -> GuidanceEvent -> bool)
         (event : GuidanceEvent) (ls : list Listener) : list Delivery :=
  match ls with
  | [] => []
  | l :: rest =>
      {| receiver := l; received := event; threw := behaviour l event |}
      :: deliver behaviour event rest
  end.

(** [emit]; [now] is the reading of [Date.now()]. The result lists the
    calls of listeners it made. *)
Definition emit (behaviour : Listener -> GuidanceEvent -> bool)
           (eventType : string) (data_ : option string) (now : Z)
           (listeners : Listeners) : list Delivery :=
  let event := {| type := eventType; data := data_; timestamp := now |} in
  match get listeners eventType with
  | Some ls =>
      if (0 <? List.length ls)%nat then deliver behaviour event ls else []
  | None => []
  end.

Definition getRegisteredEvents (listeners : Listeners) : list string :=
  List.map fst listeners.

Definition clear (listeners : Listeners) : Listeners := [].

(** The event type names of the union type [GuidanceEvent['type']]. *)
Definition typeName (t : InjectionUtils.GuidanceType) : string :=
  match t with
  | InjectionUtils.userscripts_permission_denied =>
      "userscripts_permission_denied"
  | InjectionUtils.userscripts_unavailable => "userscripts_unavailable"
  | InjectionUtils.browser_compatibility => "browser_compatibility"
  end.

(** [GuidanceEventBus.emit(type, { reason })] as the probe calls it. *)
Definition emitProbeEvent (behaviour : Listener -> GuidanceEvent -> bool)
           (e : InjectionUtils.Emit) (now : Z) (listeners : Listeners)
  : list Delivery :=
  emit behaviour (typeName (InjectionUtils.emitType e))
       (InjectionUtils.emitReason e) now listeners.

End GuidanceEventBus.

(** ** UserGuidanceService.init (user-guidance)

    [init] registers one listener per guidance event type, once. The three
    arrow functions it creates are the listeners 0, 1 and 2. *)

Module UserGuidanceService.

Record State : Type := mkState {
  initialized : bool;
  bus : GuidanceEventBus.Listeners
}.

Definition permissionListener : GuidanceEventBus.Listener := 0.
Definition unavailableListener : GuidanceEventBus.Listener := 1.
Definition compatibilityListener : GuidanceEventBus.Listener := 2.

Definition init (s : State) : State :=
  if initialized s then s
  else
    {| initialized := true;
       bus :=
         GuidanceEventBus.on "browser_compatibility" compatibilityListener
           (GuidanceEventBus.on "userscripts_unavailable" unavailableListener
              (GuidanceEventBus.on "userscripts_permission_denied"
                 permissionListener (bus s))) |}.

End UserGuidanceService.

(** ** UserScriptsAPIManager: the rest of the class

    [registerScript] differs from [registerScriptCompliant] only in the
    code it hands to the browser (a wrapper unless the method is
    userscripts-dynamic); the calls it makes and what it does to
    [registeredScripts] are the same. *)

Module UserScriptsAPIManager.
Import Engine.
Local Open Scope engine_scope.

Definition registerScript (script : UserScript)
           (strategy : InjectionStrategy) : M unit :=
  let* available := isAvailable in
  if negb available then throw UserScriptsAPIUnavailable
  else
    unregisterScript (id script) ;;
    tryCatch
      (hostCall UserScriptsRegister ;;
       setRegistered (fun r => {[id script]} ∪ r))
      (fun error => throw error).

Definition updateScript (script : UserScript)
           (strategy : InjectionStrategy) : M unit :=
  registerScript script strategy.

Definition unregisterAll : M unit :=
  let* available := isAvailable in
  if negb available then ret tt
  else
    tryCatch
      (hostCall UserScriptsUnregister ;;
       setRegistered (fun _ => ∅))
      (fun _ => ret tt).

(** [getScriptStatus]: [true] stands for 'registered'. *)
Definition getScriptStatus (scriptId : string) (s : Sys) : bool :=
  bool_decide (scriptId ∈ registeredScripts s).

(** The loop of [registerMultipleScripts]: each script is entered in
    [registeredScripts] as its descriptor is built. *)
Fixpoint markRegistered (scripts : list (UserScript * InjectionStrategy))
  : M unit :=
  match scripts with
  | [] => ret tt
  | (script, _) :: rest =>
      setRegistered (fun r => {[id script]} ∪ r) ;;
      markRegistered rest
  end.

Definition registerMultipleScripts
           (scripts : list (UserScript * InjectionStrategy)) : M unit :=
  let* available := isAvailable in
  if negb available then throw UserScriptsAPIUnavailable
  else
    markRegistered scripts ;;
    tryCatch
      (hostCall UserScriptsRegister)
      (fun error => throw error).

End UserScriptsAPIManager.

(** Sample hosts for the registry. *)
Module RegistrySamples.
Import Engine.

(** The API is present, the browser rejects every registration. *)
Definition rejectingHost : Host :=
  {| apiAvailable := fun _ => true;
     registerResolves := fun _ => false;
     unregisterResolves := fun _ => true;
     executeScriptResolves := fun _ => true |}.

End RegistrySamples.

(** ** InjectionUtils: validation for the current mode *)

Module ModeValidation.
Import Engine.

Record Validity : Type := mkValidity {
  valid : bool;
  validityIssues : list string
}.

Section Validation.

Variable isFeatureEnabled : Flag -> bool.
Variable validateScriptContent : UserScript -> ValidationResult.

(** [InjectionUtils.validateScriptForCurrentMode] *)
Definition validateScriptForCurrentMode (script : UserScript) : Validity :=
  if isFeatureEnabled FStoreCompliant then
    let validation := validateScriptContent script in
    {| valid := safe validation; validityIssues := issues validation |}
  else
    {| valid := true; validityIssues := [] |}.

End Validation.

End ModeValidation.

(** ** The background page: automatic injection on page load *)

Module Background.
Import Engine.
Local Open Scope engine_scope.

Section AutoInject.

Variable isFeatureEnabled : Flag -> bool.
Variable validateScriptContent : UserScript -> ValidationResult.

(** [script.enabled && matches(tab.url, script.meta.match)] for the
    tab that is loading. *)
Variable matched : UserScript -> bool.

(** The loop [for (const script of parsedScripts)] of the
    [chrome.tabs.onUpdated] listener: the scripts are injected one
    after the other, each [injectScript] awaited outside any [try]. *)
Fixpoint autoInject (parsedScripts : list UserScript) (tabId : Z)
  : M unit :=
  match parsedScripts with
  | [] => ret tt
  | script :: rest =>
      (if matched script
       then injectScript isFeatureEnabled validateScriptContent
                         script tabId
       else ret tt) ;;
      autoInject rest tabId
  end.

End AutoInject.

End Background.

(** Vocabulary for what a computation can throw and for the injections a
    log shows as started. *)
Module EngineFacts.
Import Engine.

(** [m] throws only errors accepted by [p]. *)
Definition raises {A} (p : Error -> bool) (m : M A) : Prop :=
  forall h s e, fst (m h s) = Rejected e -> p e = true.

Definition isEngineNonCompliant (e : Error) : bool :=
  match e with
  | EngineNonCompliant _ => true
  | _ => false
  end.

Definition isStrategyNonCompliant (e : Error) : bool :=
  match e with
  | StrategyNonCompliant _ _ => true
  | _ => false
  end.

Definition isStart (e : Event) : bool :=
  match e with
  | Logged injection_start _ => true
  | _ => false
  end.

(** The scripts whose injection a log shows as started, in order. *)
Fixpoint starts (t : list Event) : list string :=
  match t with
  | [] => []
  | Logged injection_start scriptId :: rest => scriptId :: starts rest
  | _ :: rest => starts rest
  end.

(** The browser accepts every [chrome.scripting.executeScript]. *)
Definition scriptingWorks (h : Host) : Prop :=
  forall n, executeScriptResolves h n = true.

(** The UserScripts API is there at every reading. *)
Definition alwaysAvailable (h : Host) : Prop :=
  forall n, apiAvailable h n = true.

(** Whether [CompliantInjectionStrategy.inject] refuses the script. *)
Definition refused (isFeatureEnabled : Flag -> bool)
           (validateScriptContent : UserScript -> ValidationResult)
           (script : UserScript) : bool :=
  negb (safe (validateScriptContent script))
  && isFeatureEnabled FStoreCompliant.

End EngineFacts.

(** ** UnifiedInjectionEngine.healthCheck *)

Module UnifiedInjectionEngine.

(** [String.prototype.startsWith]. *)
Fixpoint startsWith (s searchString : string) : bool :=
  match searchString, s with
  | EmptyString, _ => true
  | String _ _, EmptyString => false
  | String a searchString', String b s' =>
      Ascii.eqb a b && startsWith s' searchString'
  end.

(** [String.prototype.includes]. *)
Fixpoint stringIncludes (s searchString : string) : bool :=
  startsWith s searchString
  || match s with
     | EmptyString => false
     | String _ s' => stringIncludes s' searchString
     end.

Inductive Status : Type := healthy | degraded | unhealthy.

Record Health : Type := mkHealth {
  status : Status;
  healthIssues : list string
}.

(** What [await chrome.permissions.getAll()] does: it resolves with an
    object whose [permissions] may be missing, or the [try] block is
    left with an error, of which the [catch] uses the text. *)
Inductive PermissionsReply : Type :=
| PermissionsResolved (granted : option (list string))
| PermissionsRejected (errorText : string).

Definition requiredPermissions : list string :=
  ["scripting"; "tabs"; "activeTab"].

(** [!permissions.permissions?.includes(permission)] *)
Definition lacks (granted : option (list string)) (permission : string)
  : bool :=
  negb (match granted with
        | Some l => JS.includes l permission
        | None => false
        end).

Section HealthCheck.

(** [isFeatureEnabled('userScriptsAPI')] *)
Variable userScriptsAPIFlag : bool.
(** Whether [chrome.userScripts] is truthy. *)
Variable userScriptsPresent : bool.

Definition collectIssues (reply : PermissionsReply) : list string :=
  (if userScriptsAPIFlag && negb userScriptsPresent
   then ["UserScripts API not available but feature is enabled"]
   else [])
  ++ match reply with
     | PermissionsResolved granted =>
         List.map (fun permission =>
                     "Missing required permission: " ++ permission)
                  (List.filter (lacks granted) requiredPermissions)
         ++ (if userScriptsAPIFlag && lacks granted "userScripts"
             then ["Missing userScripts permission but feature is enabled"]
             else [])
     | PermissionsRejected errorText =>
         ["Permission check failed: " ++ errorText]
     end.

Definition healthCheck (reply : PermissionsReply) : Health :=
  let issues := collectIssues reply in
  {| status :=
       if (List.length issues =? 0)%nat then healthy
       else if existsb (fun issue =>
                          stringIncludes issue "required permission")
                       issues
            then unhealthy
            else degraded;
     healthIssues := issues |}.

End HealthCheck.

End UnifiedInjectionEngine.

(** * Properties *)

(** * The strategy selector *)

Section Selector.
Import InjectionStrategySelector.

Lemma special_is_not_none (g : string) :
  JS.includes specialAPIs g = true -> String.eqb g "none" = false.
Proof.
  unfold JS.includes, specialAPIs. simpl.
  destruct (String.eqb_spec g "none") as [-> | _]; [ | reflexivity ].
  simpl. discriminate.
Qed.

Lemma special_requests_privileged (script : UserScript) :
  hasSpecialAPIs script = true -> requestsPrivilegedGrant script = true.
Proof.
  unfold hasSpecialAPIs, requestsPrivilegedGrant.
  rewrite !existsb_exists. intros [g [Hin Hg]].
  exists g. split; [ exact Hin | ].
  rewrite (special_is_not_none g Hg). reflexivity.
Qed.

Lemma early_timing (script : UserScript) :
  needsEarlyExecution script = true ->
  InjectionUtils.convertRunAtTiming
    (JS.orDefault (run_at (meta script)) "document-end") = document_start.
Proof.
  unfold needsEarlyExecution. intros H.
  apply String.eqb_eq in H. rewrite H. reflexivity.
Qed.

End Selector.

(** C3 (as stated, refuted): a script that runs at document-start and
    requests the privileged grant [GM_addStyle] is, with the UserScripts
    API available, given the content-script method with score 95, not
    [userscripts-dynamic] with score 135. *)
Lemma selectStrategy_privileged_start_not_dynamic :
  InjectionStrategySelector.needsEarlyExecution addStyleAtStart = true
  /\ requestsPrivilegedGrant addStyleAtStart = true
  /\ method (InjectionStrategySelector.selectStrategy true addStyleAtStart)
     = content_script
  /\ InjectionStrategySelector.getStrategyScore
       (InjectionStrategySelector.selectStrategy true addStyleAtStart)
       addStyleAtStart = 95%Z
  /\ ~ (method (InjectionStrategySelector.selectStrategy true addStyleAtStart)
        = userscripts_dynamic
        /\ InjectionStrategySelector.getStrategyScore
             (InjectionStrategySelector.selectStrategy true addStyleAtStart)
             addStyleAtStart = 135%Z).
Proof.
  repeat split; try reflexivity.
  intros [H _]. vm_compute in H. discriminate H.
Qed.

(** C3 (amended): a script that runs at document-start and whose grants
    include one of the five GM APIs the selector lists (GM_setValue,
    GM_getValue, GM_xmlhttpRequest, GM_getResourceText, GM_getResourceURL)
    is, with the UserScripts API available, given [userscripts-dynamic] in
    the USER_SCRIPT world at document_start, and the score of that
    selection is 135. *)
Theorem selectStrategy_special_start_dynamic (script : UserScript) :
  InjectionStrategySelector.needsEarlyExecution script = true ->
  InjectionStrategySelector.hasSpecialAPIs script = true ->
  let strategy := InjectionStrategySelector.selectStrategy true script in
  method strategy = userscripts_dynamic
  /\ world strategy = USER_SCRIPT
  /\ timing strategy = document_start
  /\ InjectionStrategySelector.getStrategyScore strategy script = 135%Z.
Proof.
  intros Hearly Hspecial strategy.
  assert (Hsel : strategy
                 = {| method := userscripts_dynamic; world := USER_SCRIPT;
                      timing := document_start;
                      reason := "Early execution with GM APIs requires dynamic UserScripts API" |}).
  { unfold strategy, InjectionStrategySelector.selectStrategy.
    rewrite Hearly, Hspecial. reflexivity. }
  rewrite Hsel. repeat split.
  unfold InjectionStrategySelector.getStrategyScore. cbn [method timing world].
  rewrite (early_timing script Hearly).
  pose proof (special_requests_privileged script Hspecial) as Hpriv.
  unfold requestsPrivilegedGrant in Hpriv. rewrite Hpriv. reflexivity.
Qed.

Lemma selectStrategy_special_start_dynamic_witness :
  let strategy := InjectionStrategySelector.selectStrategy true setValueAtStart in
  method strategy = userscripts_dynamic
  /\ world strategy = USER_SCRIPT
  /\ timing strategy = document_start
  /\ InjectionStrategySelector.getStrategyScore strategy setValueAtStart = 135%Z.
Proof.
  apply (selectStrategy_special_start_dynamic setValueAtStart); reflexivity.
Defined.

(** C4 (as stated, refuted): a script without grants whose sandbox mode is
    not raw is, with the UserScripts API unavailable, placed in the
    USER_SCRIPT world, not in MAIN. *)
Lemma selectStrategy_no_grants_sandboxed_not_main :
  hasNoGrants sandboxedNoGrants = true
  /\ world (InjectionStrategySelector.selectStrategy false sandboxedNoGrants)
     = USER_SCRIPT
  /\ world (InjectionStrategySelector.selectStrategy false sandboxedNoGrants)
     <> MAIN.
Proof.
  repeat split. vm_compute. discriminate.
Qed.

(** C4 (amended): a script without grants is, with the UserScripts API
    unavailable, given the content-script method at its declared timing;
    the world is MAIN when its sandbox mode is raw (or not declared) and
    USER_SCRIPT otherwise. *)
Theorem selectStrategy_no_grants_world (script : UserScript) :
  hasNoGrants script = true ->
  let strategy := InjectionStrategySelector.selectStrategy false script in
  method strategy = content_script
  /\ timing strategy
     = InjectionUtils.convertRunAtTiming
         (JS.orDefault (run_at (meta script)) "document-end")
  /\ world strategy
     = if String.eqb (JS.orDefault (sandbox (meta script)) "raw") "raw"
       then MAIN else USER_SCRIPT.
Proof.
  intros Hnone strategy.
  unfold strategy, InjectionStrategySelector.selectStrategy,
    InjectionStrategySelector.needsIsolation,
    InjectionStrategySelector.hasGMAPIs,
    InjectionStrategySelector.hasSpecialAPIs.
  unfold hasNoGrants in Hnone.
  destruct (JS.orEmpty (grant (meta script))) as [ | g grants ];
    [ | discriminate Hnone ].
  rewrite !andb_false_r. cbn [existsb andb orb negb Nat.ltb Nat.leb List.length].
  destruct (String.eqb (JS.orDefault (sandbox (meta script)) "raw") "raw");
    cbn; repeat split.
Qed.

Lemma selectStrategy_no_grants_world_witness :
  let strategy := InjectionStrategySelector.selectStrategy false plainScript in
  method strategy = content_script
  /\ timing strategy
     = InjectionUtils.convertRunAtTiming
         (JS.orDefault (run_at (meta plainScript)) "document-end")
  /\ world strategy
     = if String.eqb (JS.orDefault (sandbox (meta plainScript)) "raw") "raw"
       then MAIN else USER_SCRIPT.
Proof.
  apply (selectStrategy_no_grants_world plainScript); reflexivity.
Defined.

(** * The cached capability probe *)

Section Probe.
Import InjectionUtils.

Variable browser : nat -> Browser.

Lemma runCheck_checks (st : ProbeState) :
  checks (snd (runCheck browser st)) = S (checks st).
Proof.
  unfold runCheck.
  destruct (checkUserScriptsAPIInternal (browser (checks st))) as [[a ios] ems].
  reflexivity.
Qed.

(** A probe caches exactly what it returns, stamped with [now], and
    runs the layered check once or twice. *)
Lemma probeAndCache_spec (now : Z) (st : ProbeState) :
  userScriptsAPICache (snd (probeAndCache browser now st))
  = Some (fst (probeAndCache browser now st), now)
  /\ (checks st < checks (snd (probeAndCache browser now st)))%nat
  /\ (checks (snd (probeAndCache browser now st)) <= checks st + 2)%nat.
Proof.
  unfold probeAndCache.
  destruct (runCheck browser st) as [a st1] eqn:E1.
  assert (H1 : checks st1 = S (checks st)).
  { change st1 with (snd (a, st1)). rewrite <- E1. apply runCheck_checks. }
  destruct a; cbn [negb].
  - cbn. rewrite H1. repeat split; lia.
  - destruct (runCheck browser (delay 150 st1)) as [a2 st2] eqn:E2.
    assert (H2 : checks st2 = S (checks st1)).
    { change st2 with (snd (a2, st2)). rewrite <- E2.
      rewrite runCheck_checks. reflexivity. }
    cbn. rewrite H2, H1. repeat split; lia.
Qed.


Lemma canUseUserScriptsAPI_hit (now : Z) (st : ProbeState)
      (a : bool) (ts : Z) :
  userScriptsAPICache st = Some (a, ts) ->
  (now - ts < CACHE_DURATION)%Z ->
  canUseUserScriptsAPI browser now st = (a, st).
Proof.
  intros Hc Hlt. unfold canUseUserScriptsAPI. rewrite Hc.
  apply Z.ltb_lt in Hlt. rewrite Hlt. reflexivity.
Qed.


End Probe.


Section ProbeFacts.
Import InjectionUtils ProbeLog.

Lemma check_passes (b : Browser) :
  fst (fst (checkUserScriptsAPIInternal b)) = passes b.
Proof.
  unfold checkUserScriptsAPIInternal, passes.
  destruct (chromeGlobal b); try reflexivity.
  destruct (userScriptsObject b); [ | reflexivity ].
  destruct (permissionReply b); try reflexivity;
    destruct (registerIsFunction b); try reflexivity;
    destruct (getScriptsResolves b); reflexivity.
Qed.

Lemma check_emits (b : Browser) :
  (List.length (snd (checkUserScriptsAPIInternal b)) <= 1)%nat
  /\ (passes b = true -> snd (checkUserScriptsAPIInternal b) = []).
Proof.
  unfold checkUserScriptsAPIInternal, passes.
  destruct (chromeGlobal b); cbn; try (split; [ lia | discriminate ]).
  destruct (userScriptsObject b); cbn; [ | split; [ lia | discriminate ] ].
  destruct (permissionReply b); cbn;
    try (split; [ lia | discriminate ]);
    destruct (registerIsFunction b); cbn;
    try (split; [ lia | discriminate ]);
    destruct (getScriptsResolves b); cbn;
    (split; [ lia | congruence ]).
Qed.

Lemma check_no_delay (b : Browser) (ms : Z) :
  ~ In (Delay ms) (snd (fst (checkUserScriptsAPIInternal b))).
Proof.
  unfold checkUserScriptsAPIInternal.
  destruct (chromeGlobal b); destruct (userScriptsObject b);
    destruct (permissionReply b); destruct (registerIsFunction b);
    destruct (getScriptsResolves b);
    cbn; intuition discriminate.
Qed.


Variable browser : nat -> Browser.

Lemma runCheck_run (st : ProbeState) :
  runCheck browser st
  = (passes (browser (checks st)),
     {| userScriptsAPICache := userScriptsAPICache st;
        checks := S (checks st);
        io := io st ++ snd (fst (checkUserScriptsAPIInternal
                                   (browser (checks st))));
        emitted := emitted st
                   ++ snd (checkUserScriptsAPIInternal
                             (browser (checks st))) |}).
Proof.
  unfold runCheck. rewrite <- check_passes.
  destruct (checkUserScriptsAPIInternal (browser (checks st)))
    as [[a ios] ems].
  reflexivity.
Qed.

(** What one probe with its retry does. *)
Lemma probeAndCache_retry (now : Z) (st : ProbeState) :
  let run := probeAndCache browser now st in
  let first := passes (browser (checks st)) in
  let second := passes (browser (S (checks st))) in
  fst run = first || second
  /\ checks (snd run) = (if first then S (checks st) else S (S (checks st)))
  /\ (In (Delay 150) (io (snd run))
      <-> first = false \/ In (Delay 150) (io st))
  /\ (exists events,
        emitted (snd run) = (emitted st ++ events)%list
        /\ (List.length events <= 2)%nat
        /\ (first = true -> events = [])).
Proof.
  intros run first second. subst run.
  unfold probeAndCache.
  rewrite runCheck_run. fold first.
  destruct (check_emits (browser (checks st))) as [Hl1 Hn1].
  fold first in Hn1.
  pose proof (check_no_delay (browser (checks st)) 150) as Hio1.
  destruct first eqn:Hfirst; cbn [negb orb].
  - cbn. repeat split.
    + rewrite in_app_iff. intros [H | H]; [ right; exact H | contradiction ].
    + intros [H | H]; [ discriminate H | ].
      rewrite in_app_iff. left. exact H.
    + eexists. split; [ reflexivity | ].
      rewrite (Hn1 eq_refl). split; [ cbn; lia | reflexivity ].
  - rewrite runCheck_run.
    cbn [delay checks io emitted userScriptsAPICache].
    fold second.
    destruct (check_emits (browser (S (checks st)))) as [Hl2 _].
    cbn. repeat split.
    + intros _. left. reflexivity.
    + intros _. rewrite !in_app_iff. left. right. left. reflexivity.
    + eexists. split; [ rewrite <- app_assoc; reflexivity | ].
      split; [ rewrite length_app; lia | discriminate ].
Qed.


End ProbeFacts.

Section Overlap.
Import InjectionUtils ProbeLog ProbeCalls.

Variable browser : nat -> Browser.

Lemma resumeN_returned (k : nat) (a : bool) (st : ProbeState) :
  resumeN browser k (Returned a) st = (Returned a, st).
Proof. induction k as [ | k IH ]; [ reflexivity | exact IH ]. Qed.

(** A call that misses the cache and is resumed to its end with
    nothing in between does what [probeAndCache] does. *)
Lemma resumeN_probe (now : Z) (st : ProbeState) :
  (let '(c, st') := startCheck browser Immediate now st in
   resumeN browser 7 c st')
  = (Returned (fst (probeAndCache browser now st)),
     snd (probeAndCache browser now st)).
Proof.
  unfold probeAndCache, runCheck, checkUserScriptsAPIInternal.
  destruct (browser (checks st)) as [cg uo pr rf gs] eqn:H0.
  destruct (browser (S (checks st))) as [cg1 uo1 pr1 rf1 gs1] eqn:H1.
  unfold startCheck. rewrite H0. cbn.
  repeat (match goal with
          | |- context [match ?x with _ => _ end] =>
              is_var x; destruct x
          | |- context [negb ?x] => is_var x; destruct x
          end;
          cbn; unfold startCheck; cbn; rewrite ?H0, ?H1; cbn);
    unfold logged, delay, setCache; cbn;
    rewrite ?app_nil_r, <- ?app_assoc; reflexivity.
Qed.

(** A call run alone from its entry to its return is the function
    [canUseUserScriptsAPI]. *)
Lemma resumeN_enter (now : Z) (st : ProbeState) :
  (let '(c, st') := enter browser now st in resumeN browser 7 c st')
  = (Returned (fst (canUseUserScriptsAPI browser now st)),
     snd (canUseUserScriptsAPI browser now st)).
Proof.
  unfold enter, canUseUserScriptsAPI.
  destruct (userScriptsAPICache st) as [[a ts] | ];
    [ destruct (now - ts <? CACHE_DURATION)%Z | ];
    first [ apply resumeN_probe | apply resumeN_returned ].
Qed.

Lemma run_cons (a : Action) (schedule : list Action) (p : Pool) :
  run browser (a :: schedule) p = run browser schedule (act browser p a).
Proof. reflexivity. Qed.

Lemma run_app (s1 s2 : list Action) (p : Pool) :
  run browser (s1 ++ s2) p = run browser s2 (run browser s1 p).
Proof. apply fold_left_app. Qed.

(** Resuming one call of the pool [k] times in a row. *)
Lemma run_resumeN (k : nat) :
  forall (calls : list Call) (st : ProbeState) (i : nat) (c : Call),
    calls !! i = Some c ->
    run browser (replicate k (Resume i)) (calls, st)
    = (<[i := fst (resumeN browser k c st)]> calls,
       snd (resumeN browser k c st)).
Proof.
  induction k as [ | k IH ]; intros calls st i c Hc.
  - cbn. rewrite (list_insert_id _ _ _ Hc). reflexivity.
  - cbn [replicate]. rewrite run_cons. cbn [act resumeN]. rewrite Hc.
    destruct (resume browser c st) as [c' st'].
    rewrite (IH (<[i := c']> calls) st' i c').
    + rewrite list_insert_insert_eq. reflexivity.
    + apply list_lookup_insert_eq. apply (lookup_lt_Some _ _ _ Hc).
Qed.

(** A call entered and run to its return with nothing in between,
    whatever other calls are suspended. *)
Lemma run_solo (calls : list Call) (st : ProbeState) (now : Z) :
  run browser (solo (length calls) now) (calls, st)
  = ((calls ++ [Returned (fst (canUseUserScriptsAPI browser now st))])%list,
     snd (canUseUserScriptsAPI browser now st)).
Proof.
  unfold solo, resumeToEnd. rewrite run_cons. cbn [act].
  pose proof (resumeN_enter now st) as Hrun.
  destruct (enter browser now st) as [c0 st0].
  rewrite (run_resumeN 7 (calls ++ [c0]) st0 (length calls) c0)
    by (apply list_lookup_middle; reflexivity).
  rewrite Hrun. cbn [fst snd].
  rewrite insert_app_r_alt by lia.
  rewrite Nat.sub_diag. reflexivity.
Qed.

(** A call that is suspended returns within seven resumptions and
    then writes the cache, stamped with its own entry time. *)
Lemma resumeN_in_flight (c : Call) (t : Z) (st : ProbeState) :
  entryTime c = Some t ->
  exists r,
    fst (resumeN browser 7 c st) = Returned r
    /\ userScriptsAPICache (snd (resumeN browser 7 c st)) = Some (r, t).
Proof.
  intros Ht.
  destruct (browser (checks st)) as [cg uo pr rf gs] eqn:H0.
  destruct c as [ phase now n | phase now n | phase now a | now | a ];
    cbn in Ht; inversion Ht; subst t; clear Ht;
    try (destruct (browser n) as [cgn uon prn rfn gsn] eqn:Hn);
    try destruct phase;
    cbn; unfold startCheck; cbn; rewrite ?H0, ?Hn; cbn;
    repeat (match goal with
            | |- context [match ?x with _ => _ end] =>
                is_var x; destruct x
            | |- context [negb ?x] => is_var x; destruct x
            end;
            cbn; unfold startCheck; cbn; rewrite ?H0, ?Hn; cbn);
    eexists; split; reflexivity.
Qed.

End Overlap.



(** * The enhanced executor *)

Section Executor.
Import InjectionUtils ExecutorLog.



End Executor.


(** The executor on a page where the script tag and the Function
    constructor throw and eval works. *)
Example createEnhancedScriptExecutor_strictPage :
  ExecutorLog.attempts
    (InjectionUtils.createEnhancedScriptExecutor ExecutorLog.strictPage "x" "n")
  = [InjectionUtils.ScriptTag; InjectionUtils.FunctionConstructor;
     InjectionUtils.EvalFallback]
  /\ ExecutorLog.outcomes
       (InjectionUtils.createEnhancedScriptExecutor ExecutorLog.strictPage "x" "n")
     = [(InjectionUtils.ScriptTag, false);
        (InjectionUtils.FunctionConstructor, false);
        (InjectionUtils.EvalFallback, true)]
  /\ ExecutorLog.executions
       (InjectionUtils.createEnhancedScriptExecutor ExecutorLog.strictPage "x" "n")
     = [(InjectionUtils.EvalFallback, "x")].
Proof. repeat split. Qed.

(** * GM_xmlhttpRequest *)

Section Whitelist.
Import GMAPIManager.

Lemma allowedBy_spec (hostname domain : string) :
  allowedBy hostname domain = true <->
  (domain = "*" \/ hostname = domain
   \/ JS.endsWith hostname ("." ++ domain) = true).
Proof.
  unfold allowedBy. rewrite !orb_true_iff, !String.eqb_eq. tauto.
Qed.

Lemma isAllowed_spec (domains : list string) (hostname : string) :
  isAllowed domains hostname = true <->
  exists domain,
    In domain domains
    /\ (domain = "*" \/ hostname = domain
        \/ JS.endsWith hostname ("." ++ domain) = true).
Proof.
  unfold isAllowed. rewrite existsb_exists.
  split; intros [domain [Hin H]]; exists domain; split; try exact Hin;
    apply allowedBy_spec; exact H.
Qed.

Lemma get_own {V} (obj : gmap string V) (key : string) (v : V) :
  JS.get obj key = JS.Own v <-> obj !! key = Some v.
Proof.
  unfold JS.get. destruct (obj !! key) as [ w | ].
  - split; intros H; inversion H; reflexivity.
  - destruct (JS.includes JS.objectPrototypeKeys key);
      split; intros H; discriminate H.
Qed.

Variable hostnameOf : string -> option string.
Variable fetch : Request -> FetchReply.

(** The handler issues at most one [fetch], and only past the
    whitelist check. *)
Lemma handleGMXMLHttpRequest_requests
      (scriptCache : gmap string UserScript) (payload : GMAPIPayload)
      (request : Request) :
  In request (snd (handleGMXMLHttpRequest hostnameOf fetch scriptCache payload)) ->
  exists sid d script domains hostname,
    scriptId payload = Some sid
    /\ details payload = Some d
    /\ scriptCache !! sid = Some script
    /\ connect (meta script) = Some domains
    /\ hostnameOf (url d) = Some hostname
    /\ isAllowed domains hostname = true
    /\ requestUrl request = url d
    /\ snd (handleGMXMLHttpRequest hostnameOf fetch scriptCache payload)
       = [request].
Proof.
  unfold handleGMXMLHttpRequest.
  destruct (scriptId payload) as [ sid | ]; [ | intros [] ].
  destruct (details payload) as [ d | ]; [ | intros [] ].
  destruct (String.eqb sid ""); [ intros [] | ].
  destruct (JS.get scriptCache sid) as [ script | | ] eqn:Hget;
    [ | | intros [] ].
  - apply get_own in Hget.
    destruct (hostnameOf (url d)) as [ hostname | ] eqn:Hhost;
      [ | intros [] ].
    destruct (connect (meta script)) as [ domains | ] eqn:Hconnect;
      [ | intros [] ].
    destruct (isAllowed domains hostname) eqn:Hallowed; [ | intros [] ].
    cbn [negb].
    destruct (fetch _); cbn; intros [<- | []];
      exists sid, d, script, domains, hostname; repeat split;
      assumption || reflexivity.
  - destruct (hostnameOf (url d)); intros [].
Qed.

Lemma handleGMXMLHttpRequest_refused
      (scriptCache : gmap string UserScript) (payload : GMAPIPayload)
      (sid : string) (d : Details) (script : UserScript)
      (domains : list string) (hostname : string) :
  sid <> "" ->
  scriptId payload = Some sid ->
  details payload = Some d ->
  scriptCache !! sid = Some script ->
  connect (meta script) = Some domains ->
  hostnameOf (url d) = Some hostname ->
  isAllowed domains hostname = false ->
  handleGMXMLHttpRequest hostnameOf fetch scriptCache payload
  = (Fulfilled (error ("Domain not whitelisted in @connect: " ++ hostname)),
     []).
Proof.
  intros Hsid Hs Hd Hget Hconnect Hhost Hno.
  unfold handleGMXMLHttpRequest. rewrite Hs, Hd.
  apply String.eqb_neq in Hsid. rewrite Hsid.
  apply get_own in Hget. rewrite Hget, Hhost, Hconnect, Hno. reflexivity.
Qed.

End Whitelist.

(** C10: for every call of the [GM_xmlhttpRequest] handler, whatever the
    payload and the script cache: (1) a [fetch] is issued only if the
    payload names a cached script with [@connect] metadata and the
    hostname of the request URL is whitelisted there, by the entry ["*"],
    by an entry equal to the hostname, or by an entry of which the
    hostname is a dot-separated subdomain; then it is the only [fetch], for
    that URL; (2) if the hostname is matched by no entry of the script's
    [@connect] list, the handler returns the error response
    "Domain not whitelisted in @connect: <hostname>" and issues no
    [fetch]. *)
Theorem handleGMXMLHttpRequest_whitelist
        (hostnameOf : string -> option string)
        (fetch : GMAPIManager.Request -> GMAPIManager.FetchReply)
        (scriptCache : gmap string UserScript)
        (payload : GMAPIManager.GMAPIPayload) :
  let result :=
    GMAPIManager.handleGMXMLHttpRequest hostnameOf fetch scriptCache payload in
  (forall request, In request (snd result) ->
     exists sid d script domains hostname domain,
       GMAPIManager.scriptId payload = Some sid
       /\ GMAPIManager.details payload = Some d
       /\ scriptCache !! sid = Some script
       /\ connect (meta script) = Some domains
       /\ hostnameOf (GMAPIManager.url d) = Some hostname
       /\ In domain domains
       /\ (domain = "*" \/ hostname = domain
           \/ JS.endsWith hostname ("." ++ domain) = true)
       /\ GMAPIManager.requestUrl request = GMAPIManager.url d
       /\ snd result = [request])
  /\ (forall sid d script domains hostname,
        sid <> "" ->
        GMAPIManager.scriptId payload = Some sid ->
        GMAPIManager.details payload = Some d ->
        scriptCache !! sid = Some script ->
        connect (meta script) = Some domains ->
        hostnameOf (GMAPIManager.url d) = Some hostname ->
        (forall domain, In domain domains ->
           domain <> "*" /\ hostname <> domain
           /\ JS.endsWith hostname ("." ++ domain) = false) ->
        result
        = (Fulfilled
             (GMAPIManager.error
                ("Domain not whitelisted in @connect: " ++ hostname)),
           [])).
Proof.
  intros result. split.
  - intros request Hin.
    destruct (handleGMXMLHttpRequest_requests hostnameOf fetch scriptCache
                payload request Hin)
      as (sid & d & script & domains & hostname
          & Hs & Hd & Hget & Hc & Hh & Hallowed & Hurl & Hone).
    apply isAllowed_spec in Hallowed. destruct Hallowed as [domain [Hin' Hm]].
    exists sid, d, script, domains, hostname, domain.
    repeat split; assumption.
  - intros sid d script domains hostname Hsid Hs Hd Hget Hc Hh Hnone.
    apply (handleGMXMLHttpRequest_refused hostnameOf fetch scriptCache payload
             sid d script domains hostname); try assumption.
    destruct (GMAPIManager.isAllowed domains hostname) eqn:Hallowed;
      [ | reflexivity ].
    apply isAllowed_spec in Hallowed. destruct Hallowed as [domain [Hin Hm]].
    destruct (Hnone domain Hin) as [H1 [H2 H3]].
    destruct Hm as [Hm | [Hm | Hm]]; [ contradiction | contradiction | ].
    rewrite H3 in Hm. discriminate Hm.
Qed.

(** A request to a host outside the [@connect] list of the sample script
    is refused without any [fetch]. *)
Lemma handleGMXMLHttpRequest_whitelist_witness :
  GMAPIManager.handleGMXMLHttpRequest GMSamples.hostnameOf GMSamples.fetch
    GMSamples.cache (GMSamples.payloadFor "https://evil.org")
  = (Fulfilled
       (GMAPIManager.error "Domain not whitelisted in @connect: evil.org"),
     []).
Proof.
  apply (proj2 (handleGMXMLHttpRequest_whitelist GMSamples.hostnameOf
                  GMSamples.fetch GMSamples.cache
                  (GMSamples.payloadFor "https://evil.org"))
               "script-1"
               {| GMAPIManager.url := "https://evil.org";
                  GMAPIManager.method := None;
                  GMAPIManager.headers := None;
                  GMAPIManager.data := None |}
               plainScript ["example.com"] "evil.org").
  - discriminate.
  - reflexivity.
  - reflexivity.
  - reflexivity.
  - reflexivity.
  - reflexivity.
  - intros domain [<- | []]. repeat split; try discriminate. 
Defined.

(** Requests to the whitelisted domain and to a subdomain of it reach the
    network; a host that merely ends in the same letters does not. *)
Example handleGMXMLHttpRequest_samples :
  List.length (snd (GMAPIManager.handleGMXMLHttpRequest GMSamples.hostnameOf
                      GMSamples.fetch GMSamples.cache
                      (GMSamples.payloadFor "https://example.com"))) = 1%nat
  /\ List.length (snd (GMAPIManager.handleGMXMLHttpRequest GMSamples.hostnameOf
                         GMSamples.fetch GMSamples.cache
                         (GMSamples.payloadFor "https://api.example.com"))) = 1%nat
  /\ List.length (snd (GMAPIManager.handleGMXMLHttpRequest GMSamples.hostnameOf
                         GMSamples.fetch GMSamples.cache
                         (GMSamples.payloadFor "https://badexample.com"))) = 0%nat.
Proof. repeat split; vm_compute; reflexivity. Qed.

(** * The engine: what a computation leaves in the log *)

Section Emits.
Import Engine EngineLog.
Local Open Scope engine_scope.

Variable q : Event -> bool.

Lemma emits_ret {A} (a : A) : emits q (ret a).
Proof. intros h s. exists []. cbn. rewrite app_nil_r. auto. Qed.

Lemma emits_throw {A} (e : Error) : emits q (@throw A e).
Proof. intros h s. exists []. cbn. rewrite app_nil_r. auto. Qed.

Lemma emits_record (e : Event) : q e = true -> emits q (record e).
Proof. intros He h s. exists [e]. cbn. rewrite He. auto. Qed.

Lemma emits_isAvailable :
  (forall b, q (AvailabilityRead b) = true) -> emits q isAvailable.
Proof.
  intros Hq h s. eexists [_]. cbn. rewrite Hq. auto.
Qed.

Lemma emits_hostCall (op : HostOp) :
  (forall ok, q (HostCall op ok) = true) -> emits q (hostCall op).
Proof.
  intros Hq h s. eexists [_]. unfold hostCall. cbn. rewrite Hq. auto.
Qed.

Lemma emits_isRegistered (scriptId : string) : emits q (isRegistered scriptId).
Proof. intros h s. exists []. cbn. rewrite app_nil_r. auto. Qed.

Lemma emits_setRegistered (f : gset string -> gset string) :
  emits q (setRegistered f).
Proof. intros h s. exists []. cbn. rewrite app_nil_r. auto. Qed.

Lemma emits_bind {A B} (m : M A) (k : A -> M B) :
  emits q m -> (forall a, emits q (k a)) -> emits q (bind m k).
Proof.
  intros Hm Hk h s. unfold bind.
  destruct (Hm h s) as [evs [Ht Hq]].
  destruct (m h s) as [[a | e] s1]; cbn in Ht.
  - destruct (Hk a h s1) as [evs' [Ht' Hq']].
    exists (evs ++ evs')%list. rewrite Ht', Ht, app_assoc, forallb_app, Hq, Hq'.
    auto.
  - exists evs. auto.
Qed.

Lemma emits_tryCatch {A} (m : M A) (handler : Error -> M A) :
  emits q m -> (forall e, emits q (handler e)) -> emits q (tryCatch m handler).
Proof.
  intros Hm Hk h s. unfold tryCatch.
  destruct (Hm h s) as [evs [Ht Hq]].
  destruct (m h s) as [[a | e] s1]; cbn in Ht.
  - exists evs. auto.
  - destruct (Hk e h s1) as [evs' [Ht' Hq']].
    exists (evs ++ evs')%list. rewrite Ht', Ht, app_assoc, forallb_app, Hq, Hq'.
    auto.
Qed.

End Emits.

(** Decompose a computation along [bind], [tryCatch] and conditionals. *)
Ltac emits_step :=
  first
    [ apply emits_ret
    | apply emits_throw
    | apply emits_isRegistered
    | apply emits_setRegistered
    | apply emits_bind; [ | intros ? ]
    | apply emits_tryCatch; [ | intros ? ]
    | apply emits_record
    | apply emits_isAvailable; intros ?
    | apply emits_hostCall; intros ?
    | match goal with
      | |- EngineLog.emits _ (if ?b then _ else _) => destruct b
      end ].

Section EmitsStrategies.
Import Engine EngineLog.

Variable q : Event -> bool.
Variable isFeatureEnabled : Flag -> bool.
Variable validateScriptContent : UserScript -> ValidationResult.

Lemma emits_unregisterScript (scriptId : string) :
  (forall e, belowStrategy e = true -> q e = true) ->
  emits q (unregisterScript scriptId).
Proof.
  intros Hq. unfold unregisterScript.
  repeat emits_step; apply Hq; reflexivity.
Qed.

Lemma emits_injectAPIBridge (tabId : Z) (scriptId : string) :
  (forall e, belowStrategy e = true -> q e = true) ->
  emits q (injectAPIBridge tabId scriptId).
Proof.
  intros Hq. unfold injectAPIBridge.
  repeat emits_step; apply Hq; reflexivity.
Qed.

Lemma emits_compliantInject (script : UserScript) (tabId : Z) :
  (forall e, belowStrategy e = true -> q e = true) ->
  emits q (compliantInject isFeatureEnabled validateScriptContent script tabId).
Proof.
  intros Hq.
  unfold compliantInject, injectViaUserScripts, injectViaScripting,
    registerScriptCompliant.
  repeat first [ apply emits_unregisterScript; exact Hq
               | apply emits_injectAPIBridge; exact Hq
               | emits_step ];
    apply Hq; reflexivity.
Qed.

Lemma emits_call (site : CallSite) (scriptId : string) (m : M unit) :
  q (Invoke site scriptId) = true ->
  (forall ok, q (Return site scriptId ok) = true) ->
  emits q m ->
  emits q (call site scriptId m).
Proof.
  intros Hi Hr Hm. unfold call.
  repeat emits_step; auto.
Qed.

Lemma belowStrategy_belowEngine (e : Event) :
  belowStrategy e = true -> belowEngine e = true.
Proof. destruct e as [ | | | [] | | | | | | | | ]; cbn; congruence. Qed.

Lemma emits_compatibilityInject (script : UserScript) (tabId : Z) :
  (forall e, belowEngine e = true -> q e = true) ->
  emits q (compatibilityInject isFeatureEnabled validateScriptContent
                               script tabId).
Proof.
  intros Hq.
  assert (Hq' : forall e, belowStrategy e = true -> q e = true).
  { intros e He. apply Hq, belowStrategy_belowEngine, He. }
  unfold compatibilityInject, injectWithLegacyMethods.
  repeat first [ apply emits_call
               | apply emits_compliantInject; exact Hq'
               | apply emits_injectAPIBridge; exact Hq'
               | emits_step ];
    try intros ?; apply Hq; reflexivity.
Qed.

End EmitsStrategies.

(** * The engine: validation gate and emergency guard *)

Section Gate.
Import Engine EngineLog.

Variable isFeatureEnabled : Flag -> bool.
Variable validateScriptContent : UserScript -> ValidationResult.

Lemma injectScript_after_selection (script : UserScript) (tabId : Z)
      (h : Host) (s : Sys) :
  injectScript isFeatureEnabled validateScriptContent script tabId h s
  = bind (validateCompliance isFeatureEnabled validateScriptContent script)
         (fun _ => injectByMode isFeatureEnabled validateScriptContent
                                script tabId)
         h (afterSelection script h s).
Proof.
  unfold injectScript, afterSelection.
  unfold bind at 1 2 3 4 5. unfold record at 1 2 3 4, isAvailable, logged. cbn.
  rewrite <- !app_assoc. reflexivity.
Qed.

Lemma emits_validateCompliance (q : Event -> bool) (script : UserScript) :
  (forall safe_, q (Validated ByEngine (id script) safe_) = true) ->
  q (Logged validation_failed (id script)) = true ->
  q (Logged validation_passed (id script)) = true ->
  emits q (validateCompliance isFeatureEnabled validateScriptContent script).
Proof.
  intros Hv Hf Hp. unfold validateCompliance.
  repeat emits_step; auto.
Qed.

(** Whatever the flags, [injectByMode] leaves engine-level call brackets,
    engine log lines and the events of the strategies. *)
Lemma emits_injectByMode (q : Event -> bool) (script : UserScript)
      (tabId : Z) :
  (forall e, belowEngine e = true -> q e = true) ->
  (forall site, q (Invoke site (id script)) = true) ->
  (forall site ok, q (Return site (id script) ok) = true) ->
  (forall a, q (Logged a (id script)) = true) ->
  emits q (injectByMode isFeatureEnabled validateScriptContent script tabId).
Proof.
  intros Hb Hi Hr Hl.
  assert (Hs : forall e, belowStrategy e = true -> q e = true).
  { intros e He. apply Hb, belowStrategy_belowEngine, He. }
  unfold injectByMode.
  repeat first [ apply emits_call
               | apply emits_compliantInject; exact Hs
               | apply emits_compatibilityInject; exact Hb
               | emits_step ];
    auto.
Qed.

Lemma belowEngine_not_emergency (e : Event) :
  belowEngine e = true -> negb (isEmergency e) = true.
Proof.
  destruct e as [ | | | [] | [] | [] | | | [] | | | ]; cbn; congruence.
Qed.

(** With the guard off, nothing of the emergency tier is logged. *)
Lemma emits_injectByMode_guard_off (script : UserScript) (tabId : Z) :
  emergencyGuard isFeatureEnabled = false ->
  emits (fun e => negb (isEmergency e))
        (injectByMode isFeatureEnabled validateScriptContent script tabId).
Proof.
  intros Hguard.
  assert (Hs : forall e, belowStrategy e = true -> negb (isEmergency e) = true).
  { intros e He. apply belowEngine_not_emergency, belowStrategy_belowEngine, He. }
  unfold injectByMode. rewrite Hguard.
  repeat first [ apply emits_call
               | apply emits_compliantInject; exact Hs
               | apply emits_compatibilityInject;
                 exact belowEngine_not_emergency
               | emits_step ];
    reflexivity.
Qed.

Lemma injectScript_strict_unsafe (script : UserScript) (tabId : Z)
      (h : Host) (s : Sys) :
  isFeatureEnabled FStoreCompliant = true ->
  safe (validateScriptContent script) = false ->
  injectScript isFeatureEnabled validateScriptContent script tabId h s
  = (Rejected (EngineNonCompliant (issues (validateScriptContent script))),
     let s' := afterSelection script h s in
     {| availabilityReads := availabilityReads s';
        registerCalls := registerCalls s';
        unregisterCalls := unregisterCalls s';
        executeCalls := executeCalls s';
        registeredScripts := registeredScripts s';
        trace := trace s'
                 ++ [Validated ByEngine (id script) false;
                     Logged validation_failed (id script)] |}).
Proof.
  intros Hstrict Hunsafe.
  rewrite injectScript_after_selection.
  unfold validateCompliance. rewrite Hstrict, Hunsafe.
  unfold bind, record, throw, logged. cbn.
  rewrite <- !app_assoc. reflexivity.
Qed.

End Gate.

Section BuildModeFacts.
Import BuildModes.

Lemma getCurrentBuildMode_defined (env : option string) (mode : BuildMode) :
  getCurrentBuildMode env = Fulfilled (Some mode) ->
  mode = store \/ mode = compat.
Proof.
  unfold getCurrentBuildMode, JS.get, BUILD_MODES.
  set (k := JS.orDefault env "store").
  destruct (decide (k = "store")) as [-> | Hstore].
  - rewrite lookup_insert_eq. intros H. inversion H. left. reflexivity.
  - rewrite lookup_insert_ne by congruence.
    destruct (decide (k = "compat")) as [-> | Hcompat].
    + rewrite lookup_insert_eq. intros H. inversion H. right. reflexivity.
    + rewrite lookup_insert_ne by congruence. rewrite lookup_empty.
      destruct (JS.includes JS.objectPrototypeKeys k); discriminate.
Qed.

End BuildModeFacts.

(** C9: under a build mode that [getCurrentBuildMode] can return (store or
    compat), with [legacyInjection] and [evalFallback] read from that mode
    and whatever [isFeatureEnabled] answers for [storeCompliant], the guard
    of the emergency branch is false, and no call of [injectScript] logs
    anything of the emergency tier: no emergency attempt, no call of a
    strategy from the emergency branch. *)
Theorem emergency_fallback_unreachable
        (env : option string) (mode : BuildModes.BuildMode)
        (storeCompliantFlag : bool)
        (validateScriptContent : UserScript -> Engine.ValidationResult)
        (script : UserScript) (tabId : Z) (h : Engine.Host) (s : Engine.Sys) :
  BuildModes.getCurrentBuildMode env = Fulfilled (Some mode) ->
  let flags := FeatureFlags.flagsUnder mode storeCompliantFlag in
  BuildModes.isFeatureEnabled env BuildModes.KLegacyInjection
  = Fulfilled (flags Engine.FLegacyInjection)
  /\ BuildModes.isFeatureEnabled env BuildModes.KEvalFallback
     = Fulfilled (flags Engine.FEvalFallback)
  /\ Engine.emergencyGuard flags = false
  /\ exists evs,
       Engine.trace
         (snd (Engine.injectScript flags validateScriptContent script tabId h s))
       = (Engine.trace s ++ evs)%list
       /\ forallb (fun e => negb (EngineLog.isEmergency e)) evs = true.
Proof.
  intros Hmode flags.
  assert (Hguard : Engine.emergencyGuard flags = false).
  { destruct (getCurrentBuildMode_defined env mode Hmode) as [-> | ->];
      unfold Engine.emergencyGuard, flags; cbn.
    - apply andb_false_r.
    - rewrite andb_false_r. reflexivity. }
  split; [ | split; [ | split; [ exact Hguard | ] ] ].
  - unfold BuildModes.isFeatureEnabled. rewrite Hmode. reflexivity.
  - unfold BuildModes.isFeatureEnabled. rewrite Hmode. reflexivity.
  - rewrite injectScript_after_selection.
    assert (Hrest :
              EngineLog.emits (fun e => negb (EngineLog.isEmergency e))
                (Engine.bind
                   (Engine.validateCompliance flags validateScriptContent script)
                   (fun _ => Engine.injectByMode flags validateScriptContent
                                                 script tabId))).
    { apply emits_bind.
      - apply emits_validateCompliance; intros; reflexivity.
      - intros _. apply emits_injectByMode_guard_off. exact Hguard. }
    destruct (Hrest h (EngineLog.afterSelection script h s)) as [evs [Ht Hq]].
    eexists. split.
    + rewrite Ht. unfold EngineLog.afterSelection. cbn [Engine.trace].
      rewrite <- app_assoc. reflexivity.
    + rewrite forallb_app, Hq. reflexivity.
Qed.

Lemma emergency_fallback_unreachable_witness :
  let flags := FeatureFlags.flagsUnder BuildModes.compat false in
  BuildModes.isFeatureEnabled (Some "compat") BuildModes.KLegacyInjection
  = Fulfilled (flags Engine.FLegacyInjection)
  /\ BuildModes.isFeatureEnabled (Some "compat") BuildModes.KEvalFallback
     = Fulfilled (flags Engine.FEvalFallback)
  /\ Engine.emergencyGuard flags = false
  /\ exists evs,
       Engine.trace
         (snd (Engine.injectScript flags EngineSamples.acceptAll plainScript 1
                 EngineSamples.failingHost Engine.initial))
       = (Engine.trace Engine.initial ++ evs)%list
       /\ forallb (fun e => negb (EngineLog.isEmergency e)) evs = true.
Proof.
  apply (emergency_fallback_unreachable (Some "compat") BuildModes.compat false
           EngineSamples.acceptAll plainScript 1 EngineSamples.failingHost
           Engine.initial).
  reflexivity.
Defined.

(** C1: in store-compliant mode, a call of [injectScript] on a script whose
    validation reports unsafe ends by throwing the engine's non-compliance
    error built from the validator's issues. On the way it logs the
    selection and the failed validation and nothing else: no strategy's
    [inject] is entered from any call site, so neither the compliant
    strategy nor a fallback or the emergency tier runs, and no injection
    call reaches the browser. *)
Theorem injectScript_strict_rejects_unsafe
        (isFeatureEnabled : Engine.Flag -> bool)
        (validateScriptContent : UserScript -> Engine.ValidationResult)
        (script : UserScript) (tabId : Z) (h : Engine.Host) (s : Engine.Sys) :
  isFeatureEnabled Engine.FStoreCompliant = true ->
  Engine.safe (validateScriptContent script) = false ->
  let run :=
    Engine.injectScript isFeatureEnabled validateScriptContent script tabId h s in
  fst run
  = Rejected (EngineNonCompliant (Engine.issues (validateScriptContent script)))
  /\ (exists evs,
        Engine.trace (snd run) = (Engine.trace s ++ evs)%list
        /\ EngineLog.invocations evs = []
        /\ forallb EngineLog.silent evs = true
        /\ forallb (fun e => negb (EngineLog.isEmergency e)) evs = true)
  /\ Engine.registerCalls (snd run) = Engine.registerCalls s
  /\ Engine.unregisterCalls (snd run) = Engine.unregisterCalls s
  /\ Engine.executeCalls (snd run) = Engine.executeCalls s
  /\ Engine.registeredScripts (snd run) = Engine.registeredScripts s.
Proof.
  intros Hstrict Hunsafe run. subst run.
  rewrite (injectScript_strict_unsafe isFeatureEnabled validateScriptContent
             script tabId h s Hstrict Hunsafe).
  cbn [fst snd]. split; [ reflexivity | split ].
  - eexists. split.
    + cbn [Engine.trace EngineLog.afterSelection].
      rewrite <- app_assoc. reflexivity.
    + repeat split.
  - repeat split.
Qed.

Lemma injectScript_strict_rejects_unsafe_witness :
  let run :=
    Engine.injectScript EngineSamples.strictFlags EngineSamples.rejectAll
      plainScript 1 EngineSamples.workingHost Engine.initial in
  fst run
  = Rejected (EngineNonCompliant
                (Engine.issues (EngineSamples.rejectAll plainScript)))
  /\ (exists evs,
        Engine.trace (snd run) = (Engine.trace Engine.initial ++ evs)%list
        /\ EngineLog.invocations evs = []
        /\ forallb EngineLog.silent evs = true
        /\ forallb (fun e => negb (EngineLog.isEmergency e)) evs = true)
  /\ Engine.registerCalls (snd run) = Engine.registerCalls Engine.initial
  /\ Engine.unregisterCalls (snd run) = Engine.unregisterCalls Engine.initial
  /\ Engine.executeCalls (snd run) = Engine.executeCalls Engine.initial
  /\ Engine.registeredScripts (snd run)
     = Engine.registeredScripts Engine.initial.
Proof.
  apply (injectScript_strict_rejects_unsafe EngineSamples.strictFlags
           EngineSamples.rejectAll plainScript 1 EngineSamples.workingHost
           Engine.initial); reflexivity.
Defined.

(** C6 (as stated, refuted): in store-compliant mode, on a script that
    fails validation, the engine has already called the selector and
    attached its result to the script when the validation runs; the call
    is rejected afterwards. *)
Lemma injectScript_selects_before_validating :
  let run :=
    Engine.injectScript EngineSamples.strictFlags EngineSamples.rejectAll
      plainScript 1 EngineSamples.failingHost Engine.initial in
  let strategy := InjectionStrategySelector.selectStrategy false plainScript in
  fst run = Rejected (EngineNonCompliant ["eval() usage detected"])
  /\ Engine.trace (snd run)
     = [Engine.Logged Engine.injection_start "script-1";
        Engine.AvailabilityRead false;
        Engine.Selected "script-1" strategy;
        Engine.Attached "script-1" strategy;
        Engine.Logged Engine.strategy_determined "script-1";
        Engine.Validated Engine.ByEngine "script-1" false;
        Engine.Logged Engine.validation_failed "script-1"]
  /\ EngineLog.selectionFollowsValidation false (Engine.trace (snd run))
     = false.
Proof. repeat split. Qed.

Section SelectionOnce.
Import Engine EngineLog.

Lemma belowEngine_not_selection (e : Event) :
  belowEngine e = true -> negb (isSelection e) = true.
Proof.
  destruct e as [ | | | [] | [] | [] | | | | | | ]; cbn; congruence.
Qed.

End SelectionOnce.

(** C6 (amended): every call of [injectScript] begins by reading the API
    availability, calling the selector and attaching the selected strategy
    to the script; this happens exactly once and before the validation of
    store-compliant mode and before any strategy runs. In store-compliant
    mode a script that fails validation is rejected after its strategy has
    been selected and attached, and before any strategy's [inject] is
    entered. *)
Theorem injectScript_selects_first
        (isFeatureEnabled : Engine.Flag -> bool)
        (validateScriptContent : UserScript -> Engine.ValidationResult)
        (script : UserScript) (tabId : Z) (h : Engine.Host) (s : Engine.Sys) :
  let run :=
    Engine.injectScript isFeatureEnabled validateScriptContent script tabId h s in
  let available := Engine.apiAvailable h (Engine.availabilityReads s) in
  let strategy := InjectionStrategySelector.selectStrategy available script in
  exists rest,
    Engine.trace (snd run)
    = (Engine.trace s
       ++ [Engine.Logged Engine.injection_start (id script);
           Engine.AvailabilityRead available;
           Engine.Selected (id script) strategy;
           Engine.Attached (id script) strategy]
       ++ rest)%list
    /\ forallb (fun e => negb (EngineLog.isSelection e)) rest = true
    /\ (isFeatureEnabled Engine.FStoreCompliant = true ->
        Engine.safe (validateScriptContent script) = false ->
        rest = [Engine.Logged Engine.strategy_determined (id script);
                Engine.Validated Engine.ByEngine (id script) false;
                Engine.Logged Engine.validation_failed (id script)]
        /\ fst run
           = Rejected (EngineNonCompliant
                         (Engine.issues (validateScriptContent script)))).
Proof.
  intros run available strategy.
  assert (Hrest :
            EngineLog.emits (fun e => negb (EngineLog.isSelection e))
              (Engine.bind
                 (Engine.validateCompliance isFeatureEnabled
                    validateScriptContent script)
                 (fun _ => Engine.injectByMode isFeatureEnabled
                             validateScriptContent script tabId))).
  { apply emits_bind.
    - apply emits_validateCompliance; intros; reflexivity.
    - intros _. apply emits_injectByMode; intros; try reflexivity.
      apply belowEngine_not_selection. assumption. }
  destruct (Hrest h (EngineLog.afterSelection script h s)) as [evs [Ht Hq]].
  exists (Engine.Logged Engine.strategy_determined (id script) :: evs).
  split; [ | split ].
  - subst run. rewrite injectScript_after_selection, Ht.
    unfold EngineLog.afterSelection. cbn [Engine.trace].
    rewrite <- !app_assoc. reflexivity.
  - cbn. exact Hq.
  - intros Hstrict Hunsafe. subst run.
    pose proof (injectScript_strict_unsafe isFeatureEnabled validateScriptContent
                  script tabId h s Hstrict Hunsafe) as Hrun.
    rewrite injectScript_after_selection in Hrun.
    rewrite injectScript_after_selection.
    rewrite Hrun in Ht. rewrite Hrun. cbn [fst snd Engine.trace] in *.
    split; [ | reflexivity ].
    apply app_inv_head in Ht. rewrite <- Ht. reflexivity.
Qed.

(** * The engine: the fallback chain *)

Section Chain.
Import Engine EngineLog.

Variable isFeatureEnabled : Flag -> bool.
Variable validateScriptContent : UserScript -> ValidationResult.

Lemma invocations_app (a b : list Event) :
  invocations (a ++ b) = (invocations a ++ invocations b)%list.
Proof.
  induction a as [ | e a IH ]; [ reflexivity | ].
  destruct e; cbn; rewrite ?IH; reflexivity.
Qed.

Lemma engineReturns_app (a b : list Event) :
  engineReturns (a ++ b) = (engineReturns a ++ engineReturns b)%list.
Proof.
  induction a as [ | e a IH ]; [ reflexivity | ].
  destruct e; cbn; rewrite ?IH; try reflexivity.
  destruct (byEngine site); rewrite ?IH; reflexivity.
Qed.

Lemma silent_projections (evs : list Event) :
  forallb silent evs = true ->
  invocations evs = [] /\ engineReturns evs = [].
Proof.
  induction evs as [ | e evs IH ]; [ auto | ].
  cbn [forallb]. rewrite andb_true_iff. intros [He Hevs].
  destruct (IH Hevs) as [Hi Hr].
  destruct e; cbn in He; try discriminate He; cbn; auto.
Qed.

Lemma belowStrategy_silent (e : Event) :
  belowStrategy e = true -> silent e = true.
Proof. destruct e as [ | | | [] | | | | | | | | ]; cbn; congruence. Qed.

(** A bracketed call logs its entry, what the callee logs, and how it
    ended; it ends as the callee does. *)
Lemma call_run (site : CallSite) (scriptId : string) (m : M unit)
      (h : Host) (s : Sys) :
  call site scriptId m h s
  = (fst (m h (logged (Invoke site scriptId) s)),
     logged (Return site scriptId
               (isFulfilled (fst (m h (logged (Invoke site scriptId) s)))))
            (snd (m h (logged (Invoke site scriptId) s)))).
Proof.
  unfold call, bind, tryCatch, record, throw.
  destruct (m h (logged (Invoke site scriptId) s)) as [[[] | e] s1];
    reflexivity.
Qed.

Lemma logs_call (site : CallSite) (scriptId : string) (m : M unit)
      (R : Outcome unit -> list Event -> Prop) :
  logs m R ->
  logs (call site scriptId m)
       (fun r evs =>
          exists inner,
            evs = (Invoke site scriptId :: inner
                   ++ [Return site scriptId (isFulfilled r)])%list
            /\ R r inner).
Proof.
  intros Hm h s. rewrite call_run.
  destruct (Hm h (logged (Invoke site scriptId) s)) as [inner [Ht HR]].
  cbn [fst snd]. eexists. split.
  - cbn [logged trace]. rewrite Ht. cbn [logged trace].
    rewrite <- !app_assoc. reflexivity.
  - exists inner. split; [ reflexivity | exact HR ].
Qed.

Lemma logs_compliantInject (script : UserScript) (tabId : Z) :
  logs (compliantInject isFeatureEnabled validateScriptContent script tabId)
       (fun _ evs => forallb silent evs = true).
Proof.
  apply (emits_compliantInject silent). exact belowStrategy_silent.
Qed.

(** The compatibility strategy enters the compliant strategy exactly
    once, first, and no strategy otherwise. *)
Lemma logs_compatibilityInject (script : UserScript) (tabId : Z) :
  logs (compatibilityInject isFeatureEnabled validateScriptContent
                            script tabId)
       (fun _ evs =>
          invocations evs = [CompatibilityFirst]
          /\ engineReturns evs = []).
Proof.
  intros h s. unfold compatibilityInject, tryCatch.
  destruct (logs_call CompatibilityFirst (id script) _ _
              (logs_compliantInject script tabId) h s)
    as [evs [Ht [inner [Hevs Hsilent]]]].
  destruct (silent_projections inner Hsilent) as [Hi Hr].
  destruct (call CompatibilityFirst (id script)
              (compliantInject isFeatureEnabled validateScriptContent
                               script tabId) h s) as [[[] | e] s1];
    cbn [fst snd] in *.
  - exists evs. split; [ exact Ht | ].
    rewrite Hevs. cbn. rewrite invocations_app, engineReturns_app, Hi, Hr.
    auto.
  - assert (Hlegacy : emits silent
                        (injectWithLegacyMethods script tabId)).
    { unfold injectWithLegacyMethods.
      repeat first [ apply emits_injectAPIBridge; exact belowStrategy_silent
                   | emits_step ];
        reflexivity. }
    destruct (Hlegacy h s1) as [evs2 [Ht2 Hs2]].
    destruct (silent_projections evs2 Hs2) as [Hi2 Hr2].
    exists (evs ++ evs2)%list. split.
    + rewrite Ht2, Ht, app_assoc. reflexivity.
    + rewrite Hevs. cbn.
      rewrite !invocations_app, !engineReturns_app, Hi, Hr, Hi2, Hr2.
      auto.
Qed.

(** An engine-level call of the compliant strategy. *)
Lemma logs_engine_compliant (site : CallSite) (script : UserScript)
      (tabId : Z) :
  byEngine site = true ->
  logs (call site (id script)
             (compliantInject isFeatureEnabled validateScriptContent
                              script tabId))
       (fun r evs =>
          invocations evs = [site]
          /\ engineReturns evs = [(site, isFulfilled r)]).
Proof.
  intros Hsite h s.
  destruct (logs_call site (id script) _ _
              (logs_compliantInject script tabId) h s)
    as [evs [Ht [inner [Hevs Hsilent]]]].
  destruct (silent_projections inner Hsilent) as [Hi Hr].
  exists evs. split; [ exact Ht | ].
  rewrite Hevs. cbn.
  rewrite invocations_app, engineReturns_app, Hi, Hr. cbn.
  rewrite Hsite. auto.
Qed.

(** An engine-level call of the compatibility strategy. *)
Lemma logs_engine_compatibility (site : CallSite) (script : UserScript)
      (tabId : Z) :
  byEngine site = true ->
  logs (call site (id script)
             (compatibilityInject isFeatureEnabled validateScriptContent
                                  script tabId))
       (fun r evs =>
          invocations evs = [site; CompatibilityFirst]
          /\ engineReturns evs = [(site, isFulfilled r)]).
Proof.
  intros Hsite h s.
  destruct (logs_call site (id script) _ _
              (logs_compatibilityInject script tabId) h s)
    as [evs [Ht [inner [Hevs [Hi Hr]]]]].
  exists evs. split; [ exact Ht | ].
  rewrite Hevs. cbn.
  rewrite invocations_app, engineReturns_app, Hi, Hr. cbn.
  rewrite Hsite. auto.
Qed.

End Chain.

Section ChainOfACall.
Import Engine EngineLog.

Variable isFeatureEnabled : Flag -> bool.
Variable validateScriptContent : UserScript -> ValidationResult.

Ltac project :=
  unfold chainFacts, runs, compatibilityCalls;
  rewrite ?invocations_app, ?engineReturns_app;
  repeat match goal with
         | H : invocations _ = _ |- _ => rewrite H; clear H
         | H : engineReturns _ = _ |- _ => rewrite H; clear H
         end;
  cbn.

Ltac traced :=
  cbn [logged trace];
  repeat match goal with
         | H : trace _ = _ |- _ => rewrite H; clear H; cbn [logged trace]
         end;
  rewrite <- ?app_assoc; reflexivity.

Lemma logs_injectByMode_chain (script : UserScript) (tabId : Z) :
  isFeatureEnabled FStoreCompliant = false ->
  logs (injectByMode isFeatureEnabled validateScriptContent script tabId)
       (chainFacts (isFeatureEnabled FLegacyInjection)
                   (isFeatureEnabled FEvalFallback)).
Proof.
  intros Hsc h s.
  destruct (injectByMode isFeatureEnabled validateScriptContent script tabId
                         h s) as [r s'] eqn:Hrun.
  cbn [fst snd].
  unfold injectByMode, emergencyGuard in Hrun. rewrite Hsc in Hrun.
  cbn [negb andb] in Hrun.
  destruct (isFeatureEnabled FLegacyInjection) eqn:Hlegacy;
    cbn [negb andb] in Hrun; unfold tryCatch, bind, record, throw in Hrun.
  - (* legacy mode *)
    destruct (logs_engine_compatibility isFeatureEnabled validateScriptContent
                EngineLegacy script tabId eq_refl h s)
      as [evs1 [Ht1 [Hi1 Hr1]]].
    destruct (call EngineLegacy (id script) _ h s) as [[[] | e] s1];
      cbn [fst snd isFulfilled] in *; inversion Hrun; subst r s'; clear Hrun.
    + exists (evs1 ++ [Logged injection_success (id script)])%list.
      split; [ traced | ].
      project. repeat split. eauto.
    + exists (evs1 ++ [Logged injection_failed (id script)])%list.
      split; [ traced | ].
      project. repeat split. eauto.
  - (* hybrid mode *)
    destruct (logs_engine_compliant isFeatureEnabled validateScriptContent
                EngineHybrid script tabId eq_refl h s)
      as [evs1 [Ht1 [Hi1 Hr1]]].
    destruct (call EngineHybrid (id script) _ h s) as [[[] | e1] s1];
      cbn [fst snd isFulfilled] in *.
    + inversion Hrun; subst r s'; clear Hrun.
      exists (evs1 ++ [Logged injection_success (id script)])%list.
      split; [ traced | ].
      project. repeat split. auto.
    + set (s1' := logged (Logged hybrid_fallback (id script)) s1) in *.
      destruct (logs_engine_compatibility isFeatureEnabled
                  validateScriptContent EngineHybridFallback script tabId
                  eq_refl h s1')
        as [evs2 [Ht2 [Hi2 Hr2]]].
      destruct (call EngineHybridFallback (id script) _ h s1')
        as [[[] | e2] s2];
        cbn [fst snd isFulfilled] in *.
      * inversion Hrun; subst r s'; clear Hrun.
        exists (evs1 ++ [Logged hybrid_fallback (id script)] ++ evs2
                ++ [Logged injection_success (id script)])%list.
        split; [ subst s1'; traced | ].
        project. repeat split. auto.
      * destruct (isFeatureEnabled FEvalFallback) eqn:Heval.
        -- set (s2' := logged (Logged emergency_attempt (id script))
                         (logged (Logged injection_failed (id script)) s2))
             in *.
           destruct (logs_engine_compatibility isFeatureEnabled
                       validateScriptContent EngineEmergency script tabId
                       eq_refl h s2')
             as [evs3 [Ht3 [Hi3 Hr3]]].
           destruct (call EngineEmergency (id script) _ h s2')
             as [[[] | e3] s3];
             cbn [fst snd isFulfilled] in *;
             inversion Hrun; subst r s'; clear Hrun.
           ++ exists (evs1 ++ [Logged hybrid_fallback (id script)] ++ evs2
                      ++ [Logged injection_failed (id script);
                          Logged emergency_attempt (id script)]
                      ++ evs3
                      ++ [Logged fallback_success (id script)])%list.
              split; [ subst s1' s2'; traced | ].
              project. repeat split. right. right. right. eauto.
           ++ exists (evs1 ++ [Logged hybrid_fallback (id script)] ++ evs2
                      ++ [Logged injection_failed (id script);
                          Logged emergency_attempt (id script)]
                      ++ evs3
                      ++ [Logged fallback_failed (id script)])%list.
              split; [ subst s1' s2'; traced | ].
              project. repeat split. right. right. right. eauto.
        -- inversion Hrun; subst r s'; clear Hrun.
           exists (evs1 ++ [Logged hybrid_fallback (id script)] ++ evs2
                   ++ [Logged injection_failed (id script)])%list.
           split; [ subst s1'; traced | ].
           project. repeat split. auto.
Qed.

End ChainOfACall.

(** C2: outside store-compliant mode the engine's own calls of a strategy
    during one [injectScript], the tiers of its fallback, form a fixed
    chain. In hybrid mode it is the compliant tier (the compliant
    strategy); if that throws, the permissive tier (the compatibility
    strategy), run once; if that throws too and the eval fallback is
    enabled, the emergency tier (one further attempt with the
    compatibility strategy). In legacy mode it is the single call of the
    compatibility strategy. Each tier is entered at most once, in this
    order, a later one only after the earlier has thrown, and the call
    succeeds exactly when the last attempt does. The log shows no other
    engine-level call of a strategy. As the permissive variant delegates
    to the compliant one first, the compliant strategy is entered once
    per attempt of the chain and the compatibility strategy once per
    engine-level call of it. *)
Theorem injectScript_fallback_chain
        (isFeatureEnabled : Engine.Flag -> bool)
        (validateScriptContent : UserScript -> Engine.ValidationResult)
        (script : UserScript) (tabId : Z) (h : Engine.Host) (s : Engine.Sys) :
  isFeatureEnabled Engine.FStoreCompliant = false ->
  let run :=
    Engine.injectScript isFeatureEnabled validateScriptContent script tabId h s in
  exists evs,
    Engine.trace (snd run) = (Engine.trace s ++ evs)%list
    /\ let chain := EngineLog.engineReturns evs in
       EngineLog.fallbackChain (isFeatureEnabled Engine.FLegacyInjection)
                               (isFeatureEnabled Engine.FEvalFallback) chain
       /\ List.filter Engine.byEngine (EngineLog.invocations evs)
          = List.map fst chain
       /\ isFulfilled (fst run) = EngineLog.chainSucceeded chain
       /\ EngineLog.runs Engine.Compliant evs = List.length chain
       /\ EngineLog.runs Engine.Compatibility evs
          = EngineLog.compatibilityCalls chain.
Proof.
  intros Hsc run. subst run.
  rewrite injectScript_after_selection.
  unfold Engine.validateCompliance. rewrite Hsc.
  change (Engine.bind (Engine.ret tt)
            (fun _ => Engine.injectByMode isFeatureEnabled validateScriptContent
                        script tabId) h (EngineLog.afterSelection script h s))
    with (Engine.injectByMode isFeatureEnabled validateScriptContent
            script tabId h (EngineLog.afterSelection script h s)).
  destruct (logs_injectByMode_chain isFeatureEnabled validateScriptContent
              script tabId Hsc h (EngineLog.afterSelection script h s))
    as [evs [Ht Hfacts]].
  eexists. split.
  - rewrite Ht. unfold EngineLog.afterSelection. cbn [Engine.trace].
    rewrite <- app_assoc. reflexivity.
  - unfold EngineLog.chainFacts in Hfacts.
    unfold EngineLog.runs in *.
    rewrite !invocations_app, !engineReturns_app. cbn.
    exact Hfacts.
Qed.

Lemma injectScript_fallback_chain_witness :
  let flags := FeatureFlags.flagsUnder BuildModes.compat false in
  let run :=
    Engine.injectScript flags EngineSamples.acceptAll
      plainScript 1 EngineSamples.failingHost Engine.initial in
  exists evs,
    Engine.trace (snd run) = (Engine.trace Engine.initial ++ evs)%list
    /\ let chain := EngineLog.engineReturns evs in
       EngineLog.fallbackChain
         (flags Engine.FLegacyInjection) (flags Engine.FEvalFallback) chain
       /\ List.filter Engine.byEngine (EngineLog.invocations evs)
          = List.map fst chain
       /\ isFulfilled (fst run) = EngineLog.chainSucceeded chain
       /\ EngineLog.runs Engine.Compliant evs = List.length chain
       /\ EngineLog.runs Engine.Compatibility evs
          = EngineLog.compatibilityCalls chain.
Proof.
  apply (injectScript_fallback_chain
           (FeatureFlags.flagsUnder BuildModes.compat false)
           EngineSamples.acceptAll plainScript 1 EngineSamples.failingHost
           Engine.initial).
  reflexivity.
Defined.

(** In legacy mode the engine calls the compatibility strategy once; with
    a browser that rejects every call the compliant strategy is tried once
    inside it, and nothing follows. *)
Example injectScript_legacy_chain :
  let run :=
    Engine.injectScript EngineSamples.legacyFlags EngineSamples.acceptAll
      plainScript 1 EngineSamples.failingHost Engine.initial in
  EngineLog.engineReturns (Engine.trace (snd run))
  = [(Engine.EngineLegacy, false)]
  /\ EngineLog.invocations (Engine.trace (snd run))
     = [Engine.EngineLegacy; Engine.CompatibilityFirst].
Proof. repeat split. Qed.

(** In hybrid mode with the eval fallback enabled (a combination of flags
    the engine provides for, though no build mode of the table produces
    it) and a browser that rejects every call, the three tiers are tried
    once each, in order. *)
Example injectScript_hybrid_chain :
  let run :=
    Engine.injectScript EngineSamples.hybridFlags EngineSamples.acceptAll
      plainScript 1 EngineSamples.failingHost Engine.initial in
  isRejected (fst run) = true
  /\ EngineLog.engineReturns (Engine.trace (snd run))
     = [(Engine.EngineHybrid, false); (Engine.EngineHybridFallback, false);
        (Engine.EngineEmergency, false)]
  /\ List.filter Engine.byEngine (EngineLog.invocations (Engine.trace (snd run)))
     = [Engine.EngineHybrid; Engine.EngineHybridFallback;
        Engine.EngineEmergency].
Proof. repeat split. Qed.

(** * The engine: independence of the shared state *)

Section Respects.
Import Engine EngineLog.

Lemma respects_ret {A} (a : A) : respects (ret a).
Proof. intros h s1 s2 H. auto. Qed.

Lemma respects_throw {A} (e : Error) : respects (@throw A e).
Proof. intros h s1 s2 H. auto. Qed.

Lemma respects_record (e : Event) : respects (record e).
Proof. intros h s1 s2 H. split; [ reflexivity | exact H ]. Qed.

Lemma respects_setRegistered (f : gset string -> gset string) :
  respects (setRegistered f).
Proof. intros h s1 s2 H. split; [ reflexivity | exact H ]. Qed.

Lemma respects_isAvailable : respects isAvailable.
Proof.
  intros h s1 s2 [Ha [Hr He]]. unfold isAvailable, agree. cbn.
  rewrite Ha. auto.
Qed.

Lemma respects_register : respects (hostCall UserScriptsRegister).
Proof.
  intros h s1 s2 [Ha [Hr He]]. unfold hostCall, agree. cbn.
  rewrite Hr. auto.
Qed.

Lemma respects_executeScript : respects (hostCall ScriptingExecuteScript).
Proof.
  intros h s1 s2 [Ha [Hr He]]. unfold hostCall, agree. cbn.
  rewrite He. auto.
Qed.

Lemma respects_bind {A B} (m : M A) (k : A -> M B) :
  respects m -> (forall a, respects (k a)) -> respects (bind m k).
Proof.
  intros Hm Hk h s1 s2 H. unfold bind.
  destruct (Hm h s1 s2 H) as [Hfst Hsnd].
  destruct (m h s1) as [r1 t1], (m h s2) as [r2 t2]. cbn in Hfst, Hsnd.
  subst r2. destruct r1 as [a | e].
  - apply Hk. exact Hsnd.
  - auto.
Qed.

Lemma respects_tryCatch {A} (m : M A) (handler : Error -> M A) :
  respects m -> (forall e, respects (handler e)) ->
  respects (tryCatch m handler).
Proof.
  intros Hm Hk h s1 s2 H. unfold tryCatch.
  destruct (Hm h s1 s2 H) as [Hfst Hsnd].
  destruct (m h s1) as [r1 t1], (m h s2) as [r2 t2]. cbn in Hfst, Hsnd.
  subst r2. destruct r1 as [a | e].
  - auto.
  - apply Hk. exact Hsnd.
Qed.

(** Unregistering never throws and touches neither the availability,
    register nor executeScript counters beyond its one availability
    read; whether it calls the browser depends on the shared map. *)
Lemma unregisterScript_run (scriptId : string) (h : Host) (s : Sys) :
  fst (unregisterScript scriptId h s) = Fulfilled tt
  /\ availabilityReads (snd (unregisterScript scriptId h s))
     = S (availabilityReads s)
  /\ registerCalls (snd (unregisterScript scriptId h s)) = registerCalls s
  /\ executeCalls (snd (unregisterScript scriptId h s)) = executeCalls s.
Proof.
  unfold unregisterScript, bind, isAvailable, isRegistered, tryCatch,
    hostCall, setRegistered, ret.
  cbn.
  destruct (apiAvailable h (availabilityReads s)); cbn; [ | auto ].
  destruct (bool_decide (scriptId ∈ registeredScripts s)); cbn; [ | auto ].
  destruct (unregisterResolves h (unregisterCalls s)); cbn; auto.
Qed.

Lemma respects_unregisterScript (scriptId : string) :
  respects (unregisterScript scriptId).
Proof.
  intros h s1 s2 [Ha [Hr He]].
  destruct (unregisterScript_run scriptId h s1) as [F1 [A1 [R1 E1]]].
  destruct (unregisterScript_run scriptId h s2) as [F2 [A2 [R2 E2]]].
  unfold agree. rewrite F1, F2, A1, A2, R1, R2, E1, E2. auto.
Qed.

End Respects.

Ltac respects_step :=
  first
    [ apply respects_ret
    | apply respects_throw
    | apply respects_record
    | apply respects_setRegistered
    | apply respects_isAvailable
    | apply respects_register
    | apply respects_executeScript
    | apply respects_unregisterScript
    | apply respects_bind; [ | intros ? ]
    | apply respects_tryCatch; [ | intros ? ]
    | match goal with
      | |- EngineLog.respects (if ?b then _ else _) => destruct b
      end ].

Section RespectsEngine.
Import Engine EngineLog.

Variable isFeatureEnabled : Flag -> bool.
Variable validateScriptContent : UserScript -> ValidationResult.

Lemma respects_compliantInject (script : UserScript) (tabId : Z) :
  respects (compliantInject isFeatureEnabled validateScriptContent
                            script tabId).
Proof.
  unfold compliantInject, injectViaUserScripts, injectViaScripting,
    registerScriptCompliant, injectAPIBridge.
  repeat respects_step.
Qed.

Lemma respects_compatibilityInject (script : UserScript) (tabId : Z) :
  respects (compatibilityInject isFeatureEnabled validateScriptContent
                                script tabId).
Proof.
  unfold compatibilityInject, injectWithLegacyMethods, call, injectAPIBridge.
  repeat first [ apply respects_compliantInject | respects_step ].
Qed.

Lemma respects_injectScript (script : UserScript) (tabId : Z) :
  respects (injectScript isFeatureEnabled validateScriptContent script tabId).
Proof.
  unfold injectScript, validateCompliance, injectByMode, call.
  repeat first [ apply respects_compliantInject
               | apply respects_compatibilityInject
               | respects_step ].
Qed.

End RespectsEngine.

(** * Batch injection *)

Section Batch.
Import Engine EngineLog.

Variable isFeatureEnabled : Flag -> bool.
Variable validateScriptContent : UserScript -> ValidationResult.
Variable hosts : nat -> Host.
Variable tabId : Z.


(** A task ends as [injectScript] does from the initial state, whatever
    the shared state it finds. *)
Lemma asTask_outcome (i : nat) (script : UserScript) (h : Host) (s : Sys) :
  fst (asTask (hosts i)
              (injectScript isFeatureEnabled validateScriptContent
                            script tabId) h s)
  = Fulfilled (taskOutcome isFeatureEnabled validateScriptContent hosts
                           tabId i script).
Proof.
  unfold asTask, taskOutcome.
  set (s0 := {| availabilityReads := 0; registerCalls := 0;
                unregisterCalls := 0; executeCalls := 0;
                registeredScripts := registeredScripts s;
                trace := trace s |}).
  assert (H : agree s0 initial) by (repeat split).
  destruct (respects_injectScript isFeatureEnabled validateScriptContent
              script tabId (hosts i) s0 initial H) as [Hfst _].
  destruct (injectScript isFeatureEnabled validateScriptContent script tabId
                         (hosts i) s0) as [r s1].
  cbn in *. rewrite Hfst. reflexivity.
Qed.

Lemma allSettled_results (scripts : list UserScript) :
  forall (index : nat) (h : Host) (s : Sys),
    fst (allSettled isFeatureEnabled validateScriptContent hosts index
                    scripts tabId h s)
    = Fulfilled
        (imap (fun j => taskOutcome isFeatureEnabled validateScriptContent
                          hosts tabId (index + j)) scripts).
Proof.
  induction scripts as [ | script rest IH ]; intros index h s.
  - reflexivity.
  - cbn [allSettled]. unfold bind at 1.
    pose proof (asTask_outcome index script h s) as Htask.
    destruct (asTask (hosts index) _ h s) as [r s1]. cbn in Htask.
    subst r. unfold bind at 1.
    pose proof (IH (S index) h s1) as Hrest.
    destruct (allSettled isFeatureEnabled validateScriptContent hosts
                         (S index) rest tabId h s1) as [rs s2].
    cbn in Hrest. subst rs. cbn [ret fst imap].
    f_equal. f_equal.
    + rewrite Nat.add_0_r. reflexivity.
    + apply imap_ext. intros j x _. cbn.
      replace (index + S j)%nat with (S (index + j))%nat by lia.
      reflexivity.
Qed.

Lemma emits_reportFailures (results : list (Outcome unit))
      (scripts : list UserScript) :
  forall index, emits (fun _ => true) (reportFailures index results scripts).
Proof.
  induction results as [ | result results IH ]; intros index;
    cbn [reportFailures].
  - apply emits_ret.
  - apply emits_bind; [ | intros _; apply IH ].
    destruct result; [ apply emits_ret | ].
    destruct (scripts !! index); [ apply emits_record | apply emits_throw ].
    reflexivity.
Qed.

(** Reporting the failures does not throw as long as every result has
    its script. *)
Lemma reportFailures_fulfilled (scripts : list UserScript)
      (results : list (Outcome unit)) :
  forall (index : nat) (h : Host) (s : Sys),
    (index + List.length results <= List.length scripts)%nat ->
    fst (reportFailures index results scripts h s) = Fulfilled tt.
Proof.
  induction results as [ | result results IH ]; intros index h s Hlen;
    cbn [reportFailures].
  - reflexivity.
  - cbn [List.length] in Hlen. unfold bind at 1.
    destruct result as [ [] | reason ].
    + cbn. apply IH. lia.
    + destruct (lookup_lt_is_Some_2 scripts index) as [script Hscript];
        [ lia | ].
      rewrite Hscript. cbn. apply IH. lia.
Qed.

(** The log only grows. *)
Lemma reportFailures_keeps (results : list (Outcome unit))
      (scripts : list UserScript) (index : nat) (h : Host) (s : Sys)
      (e : Event) :
  In e (trace s) ->
  In e (trace (snd (reportFailures index results scripts h s))).
Proof.
  intros Hin.
  destruct (emits_reportFailures results scripts index h s) as [evs [Ht _]].
  rewrite Ht. apply in_or_app. left. exact Hin.
Qed.

(** Every rejected result is reported with its index, the id of its
    script and the reason. *)
Lemma reportFailures_reports (scripts : list UserScript)
      (results : list (Outcome unit)) :
  forall (index j : nat) (h : Host) (s : Sys) (reason : Error)
         (script : UserScript),
    (index + List.length results <= List.length scripts)%nat ->
    results !! j = Some (Rejected reason) ->
    scripts !! (index + j)%nat = Some script ->
    In (BatchItemFailed (index + j) (id script) reason)
       (trace (snd (reportFailures index results scripts h s))).
Proof.
  induction results as [ | result results IH ];
    intros index j h s reason script Hlen Hj Hscript.
  - discriminate Hj.
  - cbn [List.length] in Hlen. cbn [reportFailures]. unfold bind at 1.
    destruct j as [ | j ].
    + cbn in Hj. inversion Hj; subst result.
      rewrite Nat.add_0_r in *. rewrite Hscript. cbn.
      apply reportFailures_keeps. cbn. apply in_or_app. right.
      left. reflexivity.
    + cbn in Hj.
      replace (index + S j)%nat with (S index + j)%nat in * by lia.
      destruct result as [ [] | reason0 ].
      * cbn [ret fst snd].
        apply (IH (S index) j); [ lia | exact Hj | exact Hscript ].
      * destruct (lookup_lt_is_Some_2 scripts index) as [script0 Hscript0];
          [ lia | ].
        rewrite Hscript0. cbn [record fst snd].
        apply (IH (S index) j); [ lia | exact Hj | exact Hscript ].
Qed.

End Batch.

(** C7: for every batch, flags, validator and browser, and from every
    state, [injectMultipleScripts] returns without throwing. The list of
    settled results it computes has one entry per script, in order; the
    entry of a script is the outcome of [injectScript] on that script with
    the replies the browser gives to that task, and it stays the same when
    any other item of the batch, or the replies to it, are replaced. The
    completion record counts the fulfilled and the rejected entries, which
    add up to the size of the batch, and every rejected entry is reported
    with its index, script id and reason. *)
Theorem injectMultipleScripts_settles
        (isFeatureEnabled : Engine.Flag -> bool)
        (validateScriptContent : UserScript -> Engine.ValidationResult)
        (hosts : nat -> Engine.Host) (scripts : list UserScript) (tabId : Z)
        (h : Engine.Host) (s : Engine.Sys) :
  let run :=
    Engine.injectMultipleScripts isFeatureEnabled validateScriptContent
      hosts scripts tabId h s in
  let results :=
    imap (EngineLog.taskOutcome isFeatureEnabled validateScriptContent
            hosts tabId) scripts in
  fst run = Fulfilled tt
  /\ fst (Engine.batchResults isFeatureEnabled validateScriptContent
             hosts scripts tabId h s) = Fulfilled results
  /\ List.length results = List.length scripts
  /\ (forall i script,
        scripts !! i = Some script ->
        results !! i
        = Some (fst (Engine.injectScript isFeatureEnabled validateScriptContent
                       script tabId (hosts i) Engine.initial)))
  /\ (forall hosts' scripts' h' s' results' i,
        fst (Engine.batchResults isFeatureEnabled validateScriptContent
               hosts' scripts' tabId h' s') = Fulfilled results' ->
        scripts' !! i = scripts !! i ->
        hosts' i = hosts i ->
        results' !! i = results !! i)
  /\ (exists before after,
        Engine.trace (snd run)
        = (before
           ++ [Engine.BatchComplete (List.length scripts)
                 (List.length (List.filter isFulfilled results))
                 (List.length (List.filter isRejected results))]
           ++ after)%list)
  /\ (forall i script reason,
        scripts !! i = Some script ->
        results !! i = Some (Rejected reason) ->
        In (Engine.BatchItemFailed i (id script) reason)
           (Engine.trace (snd run)))
  /\ (List.length (List.filter isFulfilled results)
      + List.length (List.filter isRejected results)
      = List.length scripts)%nat.
Proof.
  intros run results.
  assert (Hbatch : forall hosts0 scripts0 h0 s0,
             fst (Engine.batchResults isFeatureEnabled validateScriptContent
                    hosts0 scripts0 tabId h0 s0)
             = Fulfilled
                 (imap (EngineLog.taskOutcome isFeatureEnabled
                          validateScriptContent hosts0 tabId) scripts0)).
  { intros hosts0 scripts0 h0 s0.
    unfold Engine.batchResults, Engine.bind, Engine.record. cbn [fst snd].
    rewrite allSettled_results. reflexivity. }
  assert (Hlen : List.length results = List.length scripts).
  { unfold results. apply length_imap. }
  assert (Hlookup : forall hosts0 scripts0 i,
             imap (EngineLog.taskOutcome isFeatureEnabled
                     validateScriptContent hosts0 tabId) scripts0 !! i
             = EngineLog.taskOutcome isFeatureEnabled validateScriptContent
                 hosts0 tabId i <$> scripts0 !! i).
  { intros hosts0 scripts0 i. apply list_lookup_imap. }
  split; [ | split; [ | split; [ | split; [ | split; [ | split; [ | split ] ] ] ] ] ].
  - subst run. unfold Engine.injectMultipleScripts, Engine.bind at 1.
    pose proof (Hbatch hosts scripts h s) as Hb.
    destruct (Engine.batchResults isFeatureEnabled validateScriptContent
                hosts scripts tabId h s) as [r s1].
    cbn in Hb. subst r. fold results.
    unfold Engine.bind, Engine.record. cbn [fst snd].
    apply reportFailures_fulfilled. lia.
  - apply Hbatch.
  - exact Hlen.
  - intros i script Hi. unfold results. rewrite Hlookup, Hi. reflexivity.
  - intros hosts' scripts' h' s' results' i Hres Hscripts Hhosts.
    rewrite Hbatch in Hres. inversion Hres; subst results'.
    unfold results. rewrite !Hlookup, Hscripts.
    unfold EngineLog.taskOutcome. rewrite Hhosts. reflexivity.
  - subst run. unfold Engine.injectMultipleScripts, Engine.bind at 1.
    pose proof (Hbatch hosts scripts h s) as Hb.
    destruct (Engine.batchResults isFeatureEnabled validateScriptContent
                hosts scripts tabId h s) as [r s1].
    cbn in Hb. subst r. fold results.
    unfold Engine.bind, Engine.record. cbn [fst snd].
    destruct (emits_reportFailures results scripts 0%nat h
                (Engine.logged
                   (Engine.BatchComplete (List.length scripts)
                      (List.length (List.filter isFulfilled results))
                      (List.length (List.filter isRejected results))) s1))
      as [evs [Ht _]].
    exists (Engine.trace s1), evs. rewrite Ht. cbn [Engine.logged Engine.trace].
    rewrite <- app_assoc. reflexivity.
  - intros i script reason Hscript Hrejected.
    subst run. unfold Engine.injectMultipleScripts, Engine.bind at 1.
    pose proof (Hbatch hosts scripts h s) as Hb.
    destruct (Engine.batchResults isFeatureEnabled validateScriptContent
                hosts scripts tabId h s) as [r s1].
    cbn in Hb. subst r. fold results.
    unfold Engine.bind, Engine.record. cbn [fst snd].
    apply (reportFailures_reports scripts results 0%nat i);
      [ lia | exact Hrejected | exact Hscript ].
  - rewrite <- Hlen. unfold isRejected. apply List.filter_length.
Qed.

(** A strict-mode batch in which the second script fails validation: the
    other two are injected all the same. *)
Example injectMultipleScripts_partial_failure :
  fst (Engine.batchResults EngineSamples.strictFlags EngineSamples.rejectEmpty
         (fun _ => EngineSamples.workingHost)
         [plainScript; EngineSamples.emptyScript; setValueAtStart] 1
         EngineSamples.workingHost Engine.initial)
  = Fulfilled [Fulfilled tt; Rejected (EngineNonCompliant ["empty"]);
               Fulfilled tt].
Proof. vm_compute. reflexivity. Qed.

(** * Further properties of the selector *)

Section SelectorFacts.
Import InjectionStrategySelector.

Lemma privileged_as_every (grants : list string) :
  (0 <? List.length grants)%nat
  && negb (forallb (fun g => String.eqb g "none") grants)
  = existsb (fun g => negb (String.eqb g "none")) grants.
Proof.
  induction grants as [ | g grants IH ]; [ reflexivity | ].
  cbn. destruct (String.eqb g "none"); cbn; [ | reflexivity ].
  rewrite <- IH. destruct grants; reflexivity.
Qed.

Lemma Timing_eqb_refl (t : Timing) : Timing_eqb t t = true.
Proof. destruct t; reflexivity. Qed.

Lemma hasGMAPIs_privileged (script : UserScript) :
  hasGMAPIs script = requestsPrivilegedGrant script.
Proof. apply privileged_as_every. Qed.

Lemma needsIsolation_privileged (script : UserScript) :
  InjectionUtils.needsIsolation script = requestsPrivilegedGrant script.
Proof. apply privileged_as_every. Qed.

Lemma selectStrategy_timing (supports : bool) (script : UserScript) :
  timing (selectStrategy supports script)
  = InjectionUtils.convertRunAtTiming
      (JS.orDefault (run_at (meta script)) "document-end").
Proof.
  unfold selectStrategy.
  destruct (needsEarlyExecution script) eqn:Hearly;
    destruct (hasSpecialAPIs script);
    destruct supports;
    destruct (needsIsolation script);
    cbn; rewrite ?(early_timing script Hearly); reflexivity.
Qed.

End SelectorFacts.

(** X1: whatever branch of the decision table fires, the timing of the
    selected strategy is the conversion of the declared [@run-at]; a script
    with a grant other than "none" is never placed in the MAIN world, and
    the selector places a script in MAIN exactly when it has no such grant
    and its sandbox mode is raw (or undeclared). The selector never answers
    ISOLATED. *)
Theorem selectStrategy_timing_and_world (supports : bool) (script : UserScript) :
  let strategy := InjectionStrategySelector.selectStrategy supports script in
  timing strategy
  = InjectionUtils.convertRunAtTiming
      (JS.orDefault (run_at (meta script)) "document-end")
  /\ world strategy <> ISOLATED
  /\ (world strategy = MAIN <->
      requestsPrivilegedGrant script = false
      /\ JS.orDefault (sandbox (meta script)) "raw" = "raw").
Proof.
  intros strategy. subst strategy.
  unfold InjectionStrategySelector.selectStrategy,
    InjectionStrategySelector.needsIsolation.
  rewrite hasGMAPIs_privileged.
  destruct (InjectionStrategySelector.needsEarlyExecution script) eqn:Hearly;
    destruct (InjectionStrategySelector.hasSpecialAPIs script) eqn:Hspecial;
    destruct supports;
    destruct (requestsPrivilegedGrant script) eqn:Hpriv;
    destruct (String.eqb_spec (JS.orDefault (sandbox (meta script)) "raw") "raw")
      as [Hraw | Hraw];
    cbn;
    try (rewrite (special_requests_privileged script Hspecial) in Hpriv;
         discriminate Hpriv);
    rewrite ?(early_timing script Hearly);
    (split; [ reflexivity | split; [ discriminate | ] ]);
    split; try discriminate; try (intros [H1 H2]; congruence); auto.
Qed.

(** X2: the score [getStrategyScore] gives to the strategy that
    [selectStrategy] returns takes one of four values: 135 for
    userscripts-dynamic, 115 for userscripts-api, and for content-script 95
    when the script has a grant other than "none" and 80 otherwise. The
    timing bonus of 20 is always granted. *)
Theorem getStrategyScore_of_selection (supports : bool) (script : UserScript) :
  let strategy := InjectionStrategySelector.selectStrategy supports script in
  InjectionStrategySelector.getStrategyScore strategy script
  = match method strategy with
    | userscripts_dynamic => 135%Z
    | userscripts_api => 115%Z
    | content_script =>
        if requestsPrivilegedGrant script then 95%Z else 80%Z
    end.
Proof.
  intros strategy.
  pose proof (selectStrategy_timing supports script) as Ht.
  fold strategy in Ht.
  unfold InjectionStrategySelector.getStrategyScore.
  rewrite <- Ht, Timing_eqb_refl. clear Ht.
  fold (requestsPrivilegedGrant script).
  subst strategy.
  unfold InjectionStrategySelector.selectStrategy,
    InjectionStrategySelector.needsIsolation.
  rewrite hasGMAPIs_privileged.
  destruct (InjectionStrategySelector.needsEarlyExecution script);
    destruct (InjectionStrategySelector.hasSpecialAPIs script) eqn:Hspecial;
    destruct supports;
    destruct (requestsPrivilegedGrant script) eqn:Hpriv;
    destruct (String.eqb (JS.orDefault (sandbox (meta script)) "raw") "raw");
    cbn;
    try (rewrite (special_requests_privileged script Hspecial) in Hpriv;
         discriminate Hpriv);
    reflexivity.
Qed.

(** X3: [evaluateScriptComplexity] answers "simple" exactly for the scripts
    that declare no [@require], no [@resource], no [@connect], and whose
    grants are empty or the single entry "none". *)
Theorem evaluateScriptComplexity_simple (script : UserScript) :
  InjectionStrategySelector.evaluateScriptComplexity script
  = InjectionStrategySelector.simple
  <->
  JS.orEmpty (require (meta script)) = []
  /\ JS.orEmpty (resource (meta script)) = []
  /\ JS.orEmpty (connect (meta script)) = []
  /\ (JS.orEmpty (grant (meta script)) = []
      \/ JS.orEmpty (grant (meta script)) = ["none"]).
Proof.
  unfold InjectionStrategySelector.evaluateScriptComplexity.
  destruct (JS.orEmpty (require (meta script))) as [ | r rs ];
    [ | cbn; rewrite !orb_true_r; cbn;
        split; [ discriminate | intros (H & _); discriminate H ] ].
  destruct (JS.orEmpty (resource (meta script))) as [ | x xs ];
    [ | cbn; rewrite !orb_true_r; cbn;
        split; [ discriminate | intros (_ & H & _); discriminate H ] ].
  destruct (JS.orEmpty (connect (meta script))) as [ | c cs ];
    [ | cbn; rewrite !orb_true_r; cbn;
        split; [ discriminate | intros (_ & _ & H & _); discriminate H ] ].
  cbn [List.length Nat.ltb Nat.leb]. rewrite !orb_false_r.
  destruct (JS.orEmpty (grant (meta script))) as [ | g [ | g2 gs ] ].
  - cbn. split; auto.
  - cbn. rewrite orb_false_r.
    destruct (String.eqb_spec g "none") as [-> | Hg]; cbn.
    + split; auto.
    + split; [ discriminate | ].
      intros (_ & _ & _ & [H | H]); [ discriminate H | ].
      inversion H. contradiction.
  - destruct gs as [ | g3 [ | g4 gs ] ]; cbn;
      (split; [ discriminate | ]);
      intros (_ & _ & _ & [H | H]); discriminate H.
Qed.

(** * Further properties of the capability probe *)


(** X4: one run of the layered check answers true exactly when every
    layer lets the browser through, where a permission query that throws
    counts like one that answers yes. It emits at most one guidance event,
    and none when it answers true; the permission-denied event is emitted
    exactly when [chrome.userScripts] exists and the permission query
    answers no. *)
Theorem checkUserScriptsAPIInternal_layers (b : InjectionUtils.Browser) :
  let result := InjectionUtils.checkUserScriptsAPIInternal b in
  fst (fst result) = ProbeLog.passes b
  /\ (List.length (snd result) <= 1)%nat
  /\ (ProbeLog.passes b = true -> snd result = [])
  /\ (In (InjectionUtils.mkEmit InjectionUtils.userscripts_permission_denied
                                None) (snd result)
      <-> InjectionUtils.chromeGlobal b = InjectionUtils.ChromePresent
          /\ InjectionUtils.userScriptsObject b = true
          /\ InjectionUtils.permissionReply b
             = InjectionUtils.PermissionDenied)
  /\ (In InjectionUtils.GetScripts (snd (fst result))
      <-> InjectionUtils.chromeGlobal b = InjectionUtils.ChromePresent
          /\ InjectionUtils.userScriptsObject b = true
          /\ InjectionUtils.permissionReply b
             <> InjectionUtils.PermissionDenied
          /\ InjectionUtils.registerIsFunction b = true).
Proof.
  intros result. subst result.
  split; [ apply check_passes | ].
  destruct (check_emits b) as [Hlen Hnone].
  split; [ exact Hlen | split; [ exact Hnone | ] ].
  unfold InjectionUtils.checkUserScriptsAPIInternal.
  destruct (InjectionUtils.chromeGlobal b);
    destruct (InjectionUtils.userScriptsObject b);
    destruct (InjectionUtils.permissionReply b);
    destruct (InjectionUtils.registerIsFunction b);
    destruct (InjectionUtils.getScriptsResolves b);
    cbn; split; split;
    intuition (try discriminate; try congruence).
Qed.

(** X5: a call of [canUseUserScriptsAPI] that finds no fresh cache entry
    answers true exactly when the immediate check or the one retry passes.
    It runs the layered check once when the immediate check passes and
    twice otherwise, waits 150 ms exactly in the second case, and emits at
    most two guidance events, none when the immediate check passes. *)
Theorem canUseUserScriptsAPI_retry
        (browser : nat -> InjectionUtils.Browser) (now : Z)
        (st : InjectionUtils.ProbeState) :
  match InjectionUtils.userScriptsAPICache st with
  | Some (_, timestamp) => (InjectionUtils.CACHE_DURATION <= now - timestamp)%Z
  | None => True
  end ->
  let run := InjectionUtils.canUseUserScriptsAPI browser now st in
  let first := ProbeLog.passes (browser (InjectionUtils.checks st)) in
  let second := ProbeLog.passes (browser (S (InjectionUtils.checks st))) in
  fst run = first || second
  /\ InjectionUtils.checks (snd run)
     = (if first then S (InjectionUtils.checks st)
        else S (S (InjectionUtils.checks st)))
  /\ (In (InjectionUtils.Delay 150) (InjectionUtils.io (snd run))
      <-> first = false \/ In (InjectionUtils.Delay 150) (InjectionUtils.io st))
  /\ (exists events,
        InjectionUtils.emitted (snd run)
        = (InjectionUtils.emitted st ++ events)%list
        /\ (List.length events <= 2)%nat
        /\ (first = true -> events = [])).
Proof.
  intros Hstale run first second.
  assert (Hrun : run = InjectionUtils.probeAndCache browser now st).
  { subst run. unfold InjectionUtils.canUseUserScriptsAPI.
    destruct (InjectionUtils.userScriptsAPICache st) as [[a ts] | ];
      [ | reflexivity ].
    apply Z.ltb_ge in Hstale. rewrite Hstale. reflexivity. }
  rewrite Hrun. apply probeAndCache_retry.
Qed.

Lemma canUseUserScriptsAPI_retry_witness :
  let run :=
    InjectionUtils.canUseUserScriptsAPI ProbeSamples.lateBrowser 0
      ProbeSamples.fresh in
  let first :=
    ProbeLog.passes
      (ProbeSamples.lateBrowser (InjectionUtils.checks ProbeSamples.fresh)) in
  let second :=
    ProbeLog.passes
      (ProbeSamples.lateBrowser
         (S (InjectionUtils.checks ProbeSamples.fresh))) in
  fst run = first || second
  /\ InjectionUtils.checks (snd run)
     = (if first then S (InjectionUtils.checks ProbeSamples.fresh)
        else S (S (InjectionUtils.checks ProbeSamples.fresh)))
  /\ (In (InjectionUtils.Delay 150) (InjectionUtils.io (snd run))
      <-> first = false
          \/ In (InjectionUtils.Delay 150)
                (InjectionUtils.io ProbeSamples.fresh))
  /\ (exists events,
        InjectionUtils.emitted (snd run)
        = (InjectionUtils.emitted ProbeSamples.fresh ++ events)%list
        /\ (List.length events <= 2)%nat
        /\ (first = true -> events = [])).
Proof.
  apply (canUseUserScriptsAPI_retry ProbeSamples.lateBrowser 0
           ProbeSamples.fresh).
  exact I.
Defined.

(** X6: [clearUserScriptsAPICache] empties the cache but does not cancel
    a probe in flight. After it the statistics report no cached value,
    and a call that is then entered and runs to its return with no other
    call resumed in between runs the layered check again whatever the
    time; afterwards the statistics report the value it returned, with
    the age counted from its entry. A call that was suspended in its
    probe when the cache was cleared still writes its answer when it
    returns, stamped with its own entry time, so a call entered after
    that within 30000 ms of the stamp is answered from the cache and
    runs no check. *)
Theorem clearUserScriptsAPICache_forces_probe
        (browser : nat -> InjectionUtils.Browser)
        (calls : list ProbeCalls.Call) (st : InjectionUtils.ProbeState)
        (now later : Z) :
  let cleared := ProbeCalls.run browser [ProbeCalls.Clear] (calls, st) in
  ProbeLog.cached (ProbeLog.getUserScriptsAPIStats later (snd cleared)) = false
  /\ (let after :=
        ProbeCalls.run browser (ProbeCalls.solo (length calls) now) cleared in
      exists r,
        fst after = (calls ++ [ProbeCalls.Returned r])%list
        /\ r = ProbeLog.passes (browser (InjectionUtils.checks st))
               || ProbeLog.passes (browser (S (InjectionUtils.checks st)))
        /\ (InjectionUtils.checks st < InjectionUtils.checks (snd after))%nat
        /\ ProbeLog.getUserScriptsAPIStats later (snd after)
           = {| ProbeLog.cached := true;
                ProbeLog.cacheAge := Some (later - now)%Z;
                ProbeLog.statsAvailable := Some r |})
  /\ (forall (i : nat) (c : ProbeCalls.Call) (t : Z),
        calls !! i = Some c ->
        ProbeCalls.entryTime c = Some t ->
        let resumed :=
          ProbeCalls.run browser (ProbeCalls.resumeToEnd i) cleared in
        exists r,
          fst resumed = <[i := ProbeCalls.Returned r]> calls
          /\ InjectionUtils.userScriptsAPICache (snd resumed) = Some (r, t)
          /\ forall now',
               (now' - t < InjectionUtils.CACHE_DURATION)%Z ->
               ProbeCalls.run browser
                 (ProbeCalls.solo (length calls) now') resumed
               = ((<[i := ProbeCalls.Returned r]> calls
                   ++ [ProbeCalls.Returned r])%list,
                  snd resumed)).
Proof.
  intros cleared.
  assert (Hcleared :
            cleared = (calls, InjectionUtils.clearUserScriptsAPICache st))
    by reflexivity.
  rewrite Hcleared. cbn [fst snd].
  split; [ reflexivity | split ].
  - cbn zeta. rewrite run_solo. cbn [fst snd].
    assert (Hrun :
              InjectionUtils.canUseUserScriptsAPI browser now
                (InjectionUtils.clearUserScriptsAPICache st)
              = InjectionUtils.probeAndCache browser now
                  (InjectionUtils.clearUserScriptsAPICache st))
      by reflexivity.
    rewrite Hrun.
    destruct (probeAndCache_retry browser now
                (InjectionUtils.clearUserScriptsAPICache st))
      as (Hres & Hchecks & _).
    destruct (probeAndCache_spec browser now
                (InjectionUtils.clearUserScriptsAPICache st))
      as [Hcache _].
    change (InjectionUtils.checks
              (InjectionUtils.clearUserScriptsAPICache st))
      with (InjectionUtils.checks st) in Hres, Hchecks.
    eexists. split; [ reflexivity | split; [ exact Hres | split ] ].
    + rewrite Hchecks.
      destruct (ProbeLog.passes (browser (InjectionUtils.checks st))); lia.
    + unfold ProbeLog.getUserScriptsAPIStats. rewrite Hcache. reflexivity.
  - intros i c t Hc Ht. cbn zeta.
    unfold ProbeCalls.resumeToEnd.
    rewrite (run_resumeN browser 7 calls _ i c Hc).
    destruct (resumeN_in_flight browser c t
                (InjectionUtils.clearUserScriptsAPICache st) Ht)
      as [r [Hr Hcache]].
    rewrite Hr. cbn [fst snd].
    exists r. split; [ reflexivity | split; [ exact Hcache | ] ].
    intros now' Hfresh.
    replace (length calls)
      with (length (<[i := ProbeCalls.Returned r]> calls))
      by apply length_insert.
    rewrite run_solo.
    rewrite (canUseUserScriptsAPI_hit browser now' _ r t Hcache Hfresh).
    reflexivity.
Qed.

Lemma clearUserScriptsAPICache_forces_probe_witness :
  let browser := fun _ : nat => ProbeSamples.working in
  let entered :=
    ProbeCalls.run browser [ProbeCalls.Enter 1000] ([], ProbeSamples.fresh) in
  let resumed :=
    ProbeCalls.run browser (ProbeCalls.resumeToEnd 0)
      (ProbeCalls.run browser [ProbeCalls.Clear] entered) in
  fst entered = [ProbeCalls.AtPermissionQuery ProbeCalls.Immediate 1000 0]
  /\ exists r,
       fst resumed = [ProbeCalls.Returned r]
       /\ InjectionUtils.userScriptsAPICache (snd resumed) = Some (r, 1000%Z)
       /\ ProbeCalls.run browser (ProbeCalls.solo 1 2000) resumed
          = ([ProbeCalls.Returned r; ProbeCalls.Returned r], snd resumed).
Proof.
  split; [ reflexivity | ].
  destruct (clearUserScriptsAPICache_forces_probe
              (fun _ : nat => ProbeSamples.working)
              [ProbeCalls.AtPermissionQuery ProbeCalls.Immediate 1000 0]
              (snd (ProbeCalls.run (fun _ : nat => ProbeSamples.working)
                      [ProbeCalls.Enter 1000] ([], ProbeSamples.fresh)))
              0 0)
    as (_ & _ & Hflight).
  destruct (Hflight 0%nat
              (ProbeCalls.AtPermissionQuery ProbeCalls.Immediate 1000 0)
              1000%Z eq_refl eq_refl)
    as [r (Hcalls & Hcache & Hnext)].
  exists r.
  split; [ exact Hcalls | split; [ exact Hcache | ] ].
  apply (Hnext 2000%Z). reflexivity.
Defined.

(** * The guidance event bus *)

Section Bus.
Import GuidanceEventBus.

Lemma get_set_eq (listeners : Listeners) (k : string) (ls : list Listener) :
  get (set listeners k ls) k = Some ls.
Proof.
  induction listeners as [ | [k' old] rest IH ]; cbn.
  - rewrite String.eqb_refl. reflexivity.
  - destruct (String.eqb k' k) eqn:Hk; cbn; rewrite Hk; auto.
Qed.

Lemma get_set_ne (listeners : Listeners) (k k' : string)
      (ls : list Listener) :
  k <> k' -> get (set listeners k ls) k' = get listeners k'.
Proof.
  intros Hne.
  induction listeners as [ | [k0 old] rest IH ]; cbn.
  - apply String.eqb_neq in Hne. rewrite Hne. reflexivity.
  - destruct (String.eqb_spec k0 k) as [-> | Hk0]; cbn.
    + apply String.eqb_neq in Hne. rewrite Hne. reflexivity.
    + destruct (String.eqb k0 k'); auto.
Qed.

Lemma keys_set (listeners : Listeners) (k : string) (ls : list Listener) :
  getRegisteredEvents (set listeners k ls)
  = match get listeners k with
    | Some _ => getRegisteredEvents listeners
    | None => (getRegisteredEvents listeners ++ [k])%list
    end.
Proof.
  unfold getRegisteredEvents.
  induction listeners as [ | [k' old] rest IH ]; cbn; [ reflexivity | ].
  destruct (String.eqb k' k) eqn:Hk; cbn; [ reflexivity | ].
  rewrite IH. destruct (get rest k); reflexivity.
Qed.

Lemma get_None_keys (listeners : Listeners) (k : string) :
  get listeners k = None <-> ~ In k (getRegisteredEvents listeners).
Proof.
  unfold getRegisteredEvents.
  induction listeners as [ | [k' old] rest IH ]; cbn; [ tauto | ].
  destruct (String.eqb_spec k' k) as [-> | Hk].
  - split; [ discriminate | intros H; exfalso; apply H; left; reflexivity ].
  - rewrite IH. tauto.
Qed.

(** What [on] does to the array stored under a type. *)
Lemma get_on (listeners : Listeners) (t t' : string) (l : Listener) :
  get (on t' l listeners) t
  = if String.eqb t' t
    then Some (match get listeners t with
               | Some ls => ls
               | None => []
               end ++ [l])%list
    else get listeners t.
Proof.
  unfold on.
  destruct (String.eqb_spec t' t) as [-> | Hne].
  - destruct (get listeners t) as [ ls | ] eqn:Hget.
    + rewrite Hget, get_set_eq. reflexivity.
    + rewrite get_set_eq, get_set_eq. reflexivity.
  - destruct (get listeners t') as [ ls | ] eqn:Hget.
    + rewrite Hget. apply get_set_ne. exact Hne.
    + rewrite get_set_eq. rewrite !get_set_ne by exact Hne. reflexivity.
Qed.

Lemma get_off (listeners : Listeners) (t t' : string) (l : Listener) :
  get (off t' l listeners) t
  = if String.eqb t' t
    then option_map (removeFirst l) (get listeners t)
    else get listeners t.
Proof.
  unfold off.
  destruct (String.eqb_spec t' t) as [-> | Hne].
  - destruct (get listeners t) as [ ls | ] eqn:Hget.
    + rewrite get_set_eq. reflexivity.
    + rewrite Hget. reflexivity.
  - destruct (get listeners t') as [ ls | ]; [ | reflexivity ].
    apply get_set_ne. exact Hne.
Qed.

Lemma removeFirst_fresh (l : Listener) (ls : list Listener) :
  ~ In l ls -> removeFirst l (ls ++ [l]) = ls.
Proof.
  induction ls as [ | x ls IH ]; cbn; intros Hnot.
  - rewrite Nat.eqb_refl. reflexivity.
  - destruct (Nat.eqb_spec x l) as [-> | Hx].
    + exfalso. apply Hnot. left. reflexivity.
    + rewrite IH; [ reflexivity | tauto ].
Qed.

Variable behaviour : Listener -> GuidanceEvent -> bool.

Lemma deliver_app (event : GuidanceEvent) (a b : list Listener) :
  deliver behaviour event (a ++ b)
  = (deliver behaviour event a ++ deliver behaviour event b)%list.
Proof. induction a as [ | l a IH ]; cbn; rewrite ?IH; reflexivity. Qed.

Lemma receivers_deliver (event : GuidanceEvent) (ls : list Listener) :
  List.map receiver (deliver behaviour event ls) = ls.
Proof. induction ls as [ | l ls IH ]; cbn; rewrite ?IH; reflexivity. Qed.

(** [emit] calls the listeners stored under the type, all of them. *)
Lemma emit_deliver (t : string) (d : option string) (now : Z)
      (listeners : Listeners) :
  emit behaviour t d now listeners
  = deliver behaviour {| type := t; data := d; timestamp := now |}
            (match get listeners t with Some ls => ls | None => [] end).
Proof.
  unfold emit. destruct (get listeners t) as [ [ | l ls ] | ]; reflexivity.
Qed.

End Bus.

(** X7: registering a listener with [on] adds exactly one call to later
    emissions of that event type, after all calls made before, and changes
    nothing for other event types; every registered listener is called
    whether or not other listeners throw. *)
Theorem emit_after_on
        (behaviour : GuidanceEventBus.Listener
                     -> GuidanceEventBus.GuidanceEvent -> bool)
        (listeners : GuidanceEventBus.Listeners)
        (registered emitted : string) (listener : GuidanceEventBus.Listener)
        (payload : option string) (now : Z) :
  let event :=
    {| GuidanceEventBus.type := emitted; GuidanceEventBus.data := payload;
       GuidanceEventBus.timestamp := now |} in
  GuidanceEventBus.emit behaviour emitted payload now
    (GuidanceEventBus.on registered listener listeners)
  = (GuidanceEventBus.emit behaviour emitted payload now listeners
     ++ (if String.eqb registered emitted
         then [ {| GuidanceEventBus.receiver := listener;
                   GuidanceEventBus.received := event;
                   GuidanceEventBus.threw := behaviour listener event |} ]
         else []))%list.
Proof.
  intros event. rewrite !emit_deliver, get_on.
  destruct (String.eqb registered emitted).
  - rewrite deliver_app. reflexivity.
  - rewrite app_nil_r. reflexivity.
Qed.

(** X8: [off] removes one registration of the listener for that event
    type, the earliest, and nothing else: the listeners called by a later
    emission are those called before with the first occurrence of the
    removed listener taken out, and emissions of other types are
    unchanged. Removing a listener that was just added as a new one
    restores the calls, but the event type stays registered, also when no
    listener is left. *)
Theorem emit_after_off
        (behaviour : GuidanceEventBus.Listener
                     -> GuidanceEventBus.GuidanceEvent -> bool)
        (listeners : GuidanceEventBus.Listeners)
        (removed emitted : string) (listener : GuidanceEventBus.Listener)
        (payload : option string) (now : Z) :
  let calledBefore :=
    List.map GuidanceEventBus.receiver
      (GuidanceEventBus.emit behaviour emitted payload now listeners) in
  List.map GuidanceEventBus.receiver
    (GuidanceEventBus.emit behaviour emitted payload now
       (GuidanceEventBus.off removed listener listeners))
  = (if String.eqb removed emitted
     then GuidanceEventBus.removeFirst listener calledBefore
     else calledBefore)
  /\ GuidanceEventBus.getRegisteredEvents
       (GuidanceEventBus.off removed listener listeners)
     = GuidanceEventBus.getRegisteredEvents listeners
  /\ (~ In listener calledBefore ->
      List.map GuidanceEventBus.receiver
        (GuidanceEventBus.emit behaviour emitted payload now
           (GuidanceEventBus.off emitted listener
              (GuidanceEventBus.on emitted listener listeners)))
      = calledBefore
      /\ In emitted
            (GuidanceEventBus.getRegisteredEvents
               (GuidanceEventBus.off emitted listener
                  (GuidanceEventBus.on emitted listener listeners)))).
Proof.
  intros calledBefore. subst calledBefore.
  rewrite !emit_deliver, !receivers_deliver, get_off.
  split; [ | split ].
  - destruct (String.eqb removed emitted); [ | reflexivity ].
    destruct (GuidanceEventBus.get listeners emitted); reflexivity.
  - unfold GuidanceEventBus.off.
    destruct (GuidanceEventBus.get listeners removed) eqn:Hget;
      [ | reflexivity ].
    rewrite keys_set, Hget. reflexivity.
  - intros Hfresh. rewrite get_off, get_on, !String.eqb_refl. cbn.
    split; [ apply removeFirst_fresh; exact Hfresh | ].
    apply Decidable.not_not.
    + unfold Decidable.decidable.
      destruct (in_dec String.string_dec emitted
                  (GuidanceEventBus.getRegisteredEvents
                     (GuidanceEventBus.off emitted listener
                        (GuidanceEventBus.on emitted listener listeners))));
        tauto.
    + intros Hnot. apply get_None_keys in Hnot.
      rewrite get_off, get_on, !String.eqb_refl in Hnot. discriminate Hnot.
Qed.

(** X9: [on] registers an event type at most once: the registered types
    stay free of duplicates, a known type keeps its place and a new one is
    added at the end. *)
Theorem on_registered_events
        (listeners : GuidanceEventBus.Listeners) (eventType : string)
        (listener : GuidanceEventBus.Listener) :
  NoDup (GuidanceEventBus.getRegisteredEvents listeners) ->
  NoDup (GuidanceEventBus.getRegisteredEvents
           (GuidanceEventBus.on eventType listener listeners))
  /\ GuidanceEventBus.getRegisteredEvents
       (GuidanceEventBus.on eventType listener listeners)
     = (if JS.includes (GuidanceEventBus.getRegisteredEvents listeners)
                       eventType
        then GuidanceEventBus.getRegisteredEvents listeners
        else GuidanceEventBus.getRegisteredEvents listeners ++ [eventType])%list.
Proof.
  intros Hnodup.
  assert (Hkeys :
            GuidanceEventBus.getRegisteredEvents
              (GuidanceEventBus.on eventType listener listeners)
            = match GuidanceEventBus.get listeners eventType with
              | Some _ => GuidanceEventBus.getRegisteredEvents listeners
              | None =>
                  (GuidanceEventBus.getRegisteredEvents listeners
                   ++ [eventType])%list
              end).
  { unfold GuidanceEventBus.on.
    destruct (GuidanceEventBus.get listeners eventType) as [ ls | ] eqn:Hget.
    - rewrite Hget, keys_set, Hget. reflexivity.
    - rewrite get_set_eq, keys_set, get_set_eq, keys_set, Hget.
      reflexivity. }
  rewrite Hkeys.
  destruct (GuidanceEventBus.get listeners eventType) as [ ls | ] eqn:Hget.
  - assert (Hin : In eventType (GuidanceEventBus.getRegisteredEvents listeners)).
    { destruct (in_dec String.string_dec eventType
                  (GuidanceEventBus.getRegisteredEvents listeners))
        as [Hin | Hnot]; [ exact Hin | ].
      apply get_None_keys in Hnot. congruence. }
    split; [ exact Hnodup | ].
    replace (JS.includes (GuidanceEventBus.getRegisteredEvents listeners)
                         eventType) with true; [ reflexivity | ].
    symmetry. unfold JS.includes. apply existsb_exists.
    exists eventType. split; [ exact Hin | apply String.eqb_refl ].
  - pose proof (proj1 (get_None_keys listeners eventType) Hget) as Hnot.
    split.
    + apply NoDup_app. split; [ exact Hnodup | split ].
      * intros x Hx Hk. apply list_elem_of_In in Hx, Hk.
        destruct Hk as [<- | []]. contradiction.
      * constructor; [ intros H; apply list_elem_of_In in H; destruct H
                     | constructor ].
    + replace (JS.includes (GuidanceEventBus.getRegisteredEvents listeners)
                           eventType) with false; [ reflexivity | ].
      symmetry. unfold JS.includes.
      destruct (existsb (String.eqb eventType)
                  (GuidanceEventBus.getRegisteredEvents listeners)) eqn:He;
        [ | reflexivity ].
      apply existsb_exists in He. destruct He as [x [Hx Heq]].
      apply String.eqb_eq in Heq. subst x. contradiction.
Qed.

Lemma on_registered_events_witness :
  NoDup (GuidanceEventBus.getRegisteredEvents
           (GuidanceEventBus.on "userscripts_unavailable" 7 [("a", [1])]))
  /\ GuidanceEventBus.getRegisteredEvents
       (GuidanceEventBus.on "userscripts_unavailable" 7 [("a", [1])])
     = (if JS.includes (GuidanceEventBus.getRegisteredEvents [("a", [1])])
                       "userscripts_unavailable"
        then GuidanceEventBus.getRegisteredEvents [("a", [1])]
        else GuidanceEventBus.getRegisteredEvents [("a", [1])]
             ++ ["userscripts_unavailable"])%list.
Proof.
  apply (on_registered_events [("a", [1%nat])] "userscripts_unavailable" 7%nat).
  cbn. apply NoDup_singleton.
Defined.

(** X10: [UserGuidanceService.init] is idempotent: however often it is
    called on a service that starts uninitialised with an empty bus, every
    guidance event the probe can emit is then delivered to exactly one
    listener, the one registered for its type. *)
Theorem init_registers_once
        (behaviour : GuidanceEventBus.Listener
                     -> GuidanceEventBus.GuidanceEvent -> bool)
        (calls : nat) (e : InjectionUtils.Emit) (now : Z) :
  let start :=
    {| UserGuidanceService.initialized := false;
       UserGuidanceService.bus := [] |} in
  let s := Nat.iter (S calls) UserGuidanceService.init start in
  UserGuidanceService.init s = s
  /\ List.map GuidanceEventBus.receiver
       (GuidanceEventBus.emitProbeEvent behaviour e now
          (UserGuidanceService.bus s))
     = [match InjectionUtils.emitType e with
        | InjectionUtils.userscripts_permission_denied =>
            UserGuidanceService.permissionListener
        | InjectionUtils.userscripts_unavailable =>
            UserGuidanceService.unavailableListener
        | InjectionUtils.browser_compatibility =>
            UserGuidanceService.compatibilityListener
        end].
Proof.
  intros start s.
  assert (Hs : s = UserGuidanceService.init start).
  { subst s. induction calls as [ | n IH ]; [ reflexivity | ].
    change (Nat.iter (S (S n)) UserGuidanceService.init start)
      with (UserGuidanceService.init
              (Nat.iter (S n) UserGuidanceService.init start)).
    rewrite IH. reflexivity. }
  rewrite Hs. split; [ reflexivity | ].
  unfold GuidanceEventBus.emitProbeEvent.
  destruct (InjectionUtils.emitType e); reflexivity.
Qed.

(** * The registry of UserScriptsAPIManager *)

Section Registry.
Import Engine UserScriptsAPIManager.

Lemma elem_of_insert_other (other x : string) (r : gset string) :
  other <> x -> (other ∈ {[x]} ∪ r <-> other ∈ r).
Proof. set_solver. Qed.

Lemma elem_of_remove_other (other x : string) (r : gset string) :
  other <> x -> (other ∈ r ∖ {[x]} <-> other ∈ r).
Proof. set_solver. Qed.

Lemma elem_of_insert_self (x : string) (r : gset string) :
  x ∈ {[x]} ∪ r.
Proof. set_solver. Qed.

Lemma elem_of_batch (x : string) (l : list string) (r : gset string) :
  In x l -> x ∈ list_to_set (C := gset string) l ∪ r.
Proof. intros H. apply list_elem_of_In in H. set_solver. Qed.

Lemma not_elem_of_remove (x : string) (r : gset string) :
  x ∉ r ∖ {[x]}.
Proof. set_solver. Qed.

Lemma unregisterScript_registry (scriptId : string) (h : Host) (s : Sys) :
  let run := unregisterScript scriptId h s in
  let called :=
    apiAvailable h (availabilityReads s)
    && bool_decide (scriptId ∈ registeredScripts s) in
  registeredScripts (snd run)
  = (if called && unregisterResolves h (unregisterCalls s)
     then registeredScripts s ∖ {[scriptId]}
     else registeredScripts s)
  /\ unregisterCalls (snd run)
     = (if called then S (unregisterCalls s) else unregisterCalls s).
Proof.
  unfold unregisterScript, bind, isAvailable, isRegistered, tryCatch,
    hostCall, setRegistered, ret.
  cbn.
  destruct (apiAvailable h (availabilityReads s)); cbn; [ | auto ].
  destruct (bool_decide (scriptId ∈ registeredScripts s)); cbn; [ | auto ].
  destruct (unregisterResolves h (unregisterCalls s)); cbn; auto.
Qed.

Lemma markRegistered_run (scripts : list (UserScript * InjectionStrategy)) :
  forall (h : Host) (s : Sys),
    let run := markRegistered scripts h s in
    fst run = Fulfilled tt
    /\ registeredScripts (snd run)
       = list_to_set (List.map (fun p => id (fst p)) scripts)
         ∪ registeredScripts s
    /\ availabilityReads (snd run) = availabilityReads s
    /\ registerCalls (snd run) = registerCalls s
    /\ unregisterCalls (snd run) = unregisterCalls s
    /\ executeCalls (snd run) = executeCalls s
    /\ trace (snd run) = trace s.
Proof.
  induction scripts as [ | [script strategy] rest IH ]; intros h s;
    cbn zeta.
  - cbn. split; [ reflexivity | split; [ set_solver | repeat split ] ].
  - cbn [markRegistered]. unfold bind, setRegistered.
    cbn [fst snd].
    match goal with
    | |- context [markRegistered rest h ?s1] =>
        destruct (IH h s1) as (F & R & A & G & U & E & T);
        destruct (markRegistered rest h s1) as [r s2]
    end.
    cbn [fst snd availabilityReads registerCalls unregisterCalls
         executeCalls registeredScripts trace List.map list_to_set] in *.
    split; [ exact F | split; [ | repeat split; assumption ] ].
    rewrite R. set_solver.
Qed.

Lemma register_rethrow_run (h : Host) (s : Sys) :
  let run :=
    tryCatch (hostCall UserScriptsRegister) (fun error => throw error) h s in
  (fst run = Fulfilled tt <-> registerResolves h (registerCalls s) = true)
  /\ registeredScripts (snd run) = registeredScripts s
  /\ unregisterCalls (snd run) = unregisterCalls s
  /\ registerCalls (snd run) = S (registerCalls s).
Proof.
  unfold tryCatch, hostCall, throw. cbn.
  destruct (registerResolves h (registerCalls s)); cbn;
    (split; [ split; congruence | auto ]).
Qed.

End Registry.

(** X11: [registerScriptCompliant] fulfils exactly when the API is
    available at its first check and the browser accepts the registration;
    a script it has registered has the status 'registered' afterwards, and
    the status of every other script is left as it was. *)
Theorem registerScriptCompliant_registry
        (script : UserScript) (strategy : InjectionStrategy)
        (h : Engine.Host) (s : Engine.Sys) :
  let run := Engine.registerScriptCompliant script strategy h s in
  (fst run = Fulfilled tt <->
   Engine.apiAvailable h (Engine.availabilityReads s) = true
   /\ Engine.registerResolves h (Engine.registerCalls s) = true)
  /\ (fst run = Fulfilled tt ->
      UserScriptsAPIManager.getScriptStatus (id script) (snd run) = true)
  /\ (forall other,
        other <> id script ->
        UserScriptsAPIManager.getScriptStatus other (snd run)
        = UserScriptsAPIManager.getScriptStatus other s).
Proof.
  intros run. subst run.
  unfold UserScriptsAPIManager.getScriptStatus.
  unfold Engine.registerScriptCompliant, Engine.unregisterScript, Engine.bind,
    Engine.isAvailable, Engine.isRegistered, Engine.tryCatch, Engine.hostCall,
    Engine.setRegistered, Engine.ret, Engine.throw.
  cbn.
  destruct (Engine.apiAvailable h (Engine.availabilityReads s)); cbn.
  2: { split; [ split; [ discriminate | intros [H _]; discriminate H ] | ].
       split; [ discriminate | reflexivity ]. }
  destruct (Engine.apiAvailable h (S (Engine.availabilityReads s))); cbn;
    [ destruct (bool_decide (id script ∈ Engine.registeredScripts s)); cbn;
      [ destruct (Engine.unregisterResolves h (Engine.unregisterCalls s)); cbn
      | ]
    | ];
    (destruct (Engine.registerResolves h (Engine.registerCalls s)); cbn;
     (split;
      [ split; [ try discriminate; auto | intros [_ H]; try discriminate H; auto ]
      | split;
        [ try discriminate; intros _; apply bool_decide_eq_true;
          apply elem_of_insert_self
        | intros other Hother; apply bool_decide_ext;
          rewrite ?(elem_of_insert_other other (id script) _ Hother);
          rewrite ?(elem_of_remove_other other (id script) _ Hother);
          reflexivity ] ])).
Qed.

(** X12: [registerMultipleScripts] enters every script of the batch in
    [registeredScripts] before it calls the browser and does not take
    them out again when the call is rejected: with the API available,
    every script of the batch has the status 'registered' afterwards
    whether the call fulfils or rejects, and no unregister call is made.
    With the API unavailable it throws and leaves the registry as it
    was. *)
Theorem registerMultipleScripts_registry
        (scripts : list (UserScript * InjectionStrategy))
        (h : Engine.Host) (s : Engine.Sys) :
  let run := UserScriptsAPIManager.registerMultipleScripts scripts h s in
  let available := Engine.apiAvailable h (Engine.availabilityReads s) in
  (available = true ->
   (fst run = Fulfilled tt <->
    Engine.registerResolves h (Engine.registerCalls s) = true)
   /\ (forall script strategy,
         In (script, strategy) scripts ->
         UserScriptsAPIManager.getScriptStatus (id script) (snd run) = true)
   /\ Engine.unregisterCalls (snd run) = Engine.unregisterCalls s
   /\ Engine.registerCalls (snd run) = S (Engine.registerCalls s))
  /\ (available = false ->
      fst run = Rejected UserScriptsAPIUnavailable
      /\ Engine.registeredScripts (snd run) = Engine.registeredScripts s
      /\ Engine.registerCalls (snd run) = Engine.registerCalls s).
Proof.
  intros run available. subst run available.
  unfold UserScriptsAPIManager.registerMultipleScripts, Engine.bind,
    Engine.isAvailable.
  cbn [fst snd].
  destruct (Engine.apiAvailable h (Engine.availabilityReads s)); cbn [negb];
    (split; [ | intros H; try discriminate H ]); try (intros H; discriminate H).
  - intros _.
    match goal with
    | |- context [UserScriptsAPIManager.markRegistered scripts h ?s1] =>
        pose proof (markRegistered_run scripts h s1)
          as (F & R & A & G & U & E & T);
        destruct (UserScriptsAPIManager.markRegistered scripts h s1) as [r s2]
    end.
    cbn [fst snd Engine.registerCalls Engine.unregisterCalls
         Engine.registeredScripts] in *.
    subst r.
    pose proof (register_rethrow_run h s2) as (F' & R' & U' & G').
    cbn zeta in F', R', U', G'.
    rewrite G in F', G'. rewrite U in U'.
    split; [ exact F' | split; [ | split; [ exact U' | exact G' ] ] ].
    intros script strategy Hin.
    unfold UserScriptsAPIManager.getScriptStatus.
    apply bool_decide_eq_true. rewrite R', R.
    apply elem_of_batch.
    apply in_map_iff. exists (script, strategy). auto.
  - cbn. auto.
Qed.

Lemma registerMultipleScripts_registry_witness :
  let scripts :=
    [(plainScript, InjectionStrategySelector.selectStrategy true plainScript)] in
  let run :=
    UserScriptsAPIManager.registerMultipleScripts scripts
      RegistrySamples.rejectingHost Engine.initial in
  Engine.apiAvailable RegistrySamples.rejectingHost 0 = true
  /\ fst run <> Fulfilled tt
  /\ UserScriptsAPIManager.getScriptStatus (id plainScript) (snd run) = true.
Proof.
  cbn zeta.
  assert (Havail : Engine.apiAvailable RegistrySamples.rejectingHost 0 = true)
    by reflexivity.
  destruct (registerMultipleScripts_registry
              [(plainScript,
                InjectionStrategySelector.selectStrategy true plainScript)]
              RegistrySamples.rejectingHost Engine.initial)
    as [Hyes _].
  destruct (Hyes Havail) as (F & S & _).
  split; [ exact Havail | split ].
  - intros Hf. apply F in Hf. discriminate Hf.
  - apply (S plainScript
             (InjectionStrategySelector.selectStrategy true plainScript)).
    left. reflexivity.
Defined.

(** X13: [unregisterAll] never throws. It empties [registeredScripts]
    exactly when the API is available and the browser accepts the call;
    when the API is unavailable it makes no browser call, and when the
    browser rejects the call every script keeps its status. *)
Theorem unregisterAll_registry (h : Engine.Host) (s : Engine.Sys) :
  let run := UserScriptsAPIManager.unregisterAll h s in
  let available := Engine.apiAvailable h (Engine.availabilityReads s) in
  fst run = Fulfilled tt
  /\ Engine.registeredScripts (snd run)
     = (if available && Engine.unregisterResolves h (Engine.unregisterCalls s)
        then ∅ else Engine.registeredScripts s)
  /\ Engine.unregisterCalls (snd run)
     = (if available then S (Engine.unregisterCalls s)
        else Engine.unregisterCalls s).
Proof.
  intros run available. subst run available.
  unfold UserScriptsAPIManager.unregisterAll, Engine.bind, Engine.isAvailable,
    Engine.tryCatch, Engine.hostCall, Engine.setRegistered, Engine.ret.
  cbn.
  destruct (Engine.apiAvailable h (Engine.availabilityReads s)); cbn;
    [ | auto ].
  destruct (Engine.unregisterResolves h (Engine.unregisterCalls s)); cbn; auto.
Qed.

(** X14: [unregisterScript] never throws. It calls the browser exactly
    when the API is available and the script is in [registeredScripts]; it
    takes the script out of the registry exactly when that call is
    accepted, so a script whose removal the browser rejected keeps the
    status 'registered'; the status of every other script is left as it
    was. *)
Theorem unregisterScript_status (scriptId : string)
        (h : Engine.Host) (s : Engine.Sys) :
  let run := Engine.unregisterScript scriptId h s in
  let called :=
    Engine.apiAvailable h (Engine.availabilityReads s)
    && UserScriptsAPIManager.getScriptStatus scriptId s in
  fst run = Fulfilled tt
  /\ Engine.unregisterCalls (snd run)
     = (if called then S (Engine.unregisterCalls s)
        else Engine.unregisterCalls s)
  /\ UserScriptsAPIManager.getScriptStatus scriptId (snd run)
     = UserScriptsAPIManager.getScriptStatus scriptId s
       && negb (called
                && Engine.unregisterResolves h (Engine.unregisterCalls s))
  /\ (forall other,
        other <> scriptId ->
        UserScriptsAPIManager.getScriptStatus other (snd run)
        = UserScriptsAPIManager.getScriptStatus other s).
Proof.
  intros run called. subst run called.
  destruct (unregisterScript_run scriptId h s) as (F & _).
  destruct (unregisterScript_registry scriptId h s) as (R & U).
  cbn zeta in R, U.
  unfold UserScriptsAPIManager.getScriptStatus.
  split; [ exact F | split; [ exact U | ] ].
  rewrite R.
  split.
  - destruct (Engine.apiAvailable h (Engine.availabilityReads s));
      cbn [andb negb]; [ | rewrite andb_true_r; reflexivity ].
    destruct (bool_decide (scriptId ∈ Engine.registeredScripts s)) eqn:Hhas;
      cbn [andb negb]; [ | exact Hhas ].
    destruct (Engine.unregisterResolves h (Engine.unregisterCalls s));
      cbn [negb]; [ | exact Hhas ].
    apply bool_decide_eq_false. apply not_elem_of_remove.
  - intros other Hother.
    destruct (_ && _); [ | reflexivity ].
    apply bool_decide_ext. apply elem_of_remove_other. exact Hother.
Qed.

(** * The strategies: which browser API an injection uses *)

Section CompliantPaths.
Import Engine EngineFacts.

Variable isFeatureEnabled : Flag -> bool.
Variable validateScriptContent : UserScript -> ValidationResult.

Lemma compliantInject_refused_run (script : UserScript) (tabId : Z)
      (h : Host) (s : Sys) :
  refused isFeatureEnabled validateScriptContent script = true ->
  compliantInject isFeatureEnabled validateScriptContent script tabId h s
  = (Rejected (StrategyNonCompliant (name (meta script))
                 (issues (validateScriptContent script))),
     logged (Validated ByCompliantStrategy (id script)
               (safe (validateScriptContent script))) s).
Proof.
  unfold refused, compliantInject. intros ->.
  unfold bind, record, throw. reflexivity.
Qed.

Lemma compliantInject_accepted_run (script : UserScript) (tabId : Z)
      (h : Host) (s : Sys) :
  refused isFeatureEnabled validateScriptContent script = false ->
  compliantInject isFeatureEnabled validateScriptContent script tabId h s
  = let s1 :=
      logged (Validated ByCompliantStrategy (id script)
                (safe (validateScriptContent script))) s in
    let s2 :=
      logged (AvailabilityRead (apiAvailable h (availabilityReads s)))
        {| availabilityReads := S (availabilityReads s);
           registerCalls := registerCalls s;
           unregisterCalls := unregisterCalls s;
           executeCalls := executeCalls s;
           registeredScripts := registeredScripts s;
           trace := trace s1 |} in
    if apiAvailable h (availabilityReads s)
    then injectViaUserScripts script h s2
    else injectViaScripting script tabId h s2.
Proof.
  unfold refused, compliantInject. intros ->.
  unfold bind at 1 2 3. unfold record, ret, isAvailable, logged. cbn.
  destruct (apiAvailable h (availabilityReads s)); reflexivity.
Qed.

Lemma injectViaUserScripts_no_scripting (script : UserScript)
      (h : Host) (s : Sys) :
  executeCalls (snd (injectViaUserScripts script h s)) = executeCalls s.
Proof.
  unfold injectViaUserScripts, registerScriptCompliant, unregisterScript,
    bind, isAvailable, isRegistered, tryCatch, hostCall, setRegistered,
    ret, throw.
  cbn.
  destruct (apiAvailable h (availabilityReads s)); cbn; [ | reflexivity ].
  destruct (apiAvailable h (S (availabilityReads s))); cbn;
    [ destruct (bool_decide (id script ∈ registeredScripts s)); cbn;
      [ destruct (unregisterResolves h (unregisterCalls s)); cbn | ]
    | ];
    destruct (registerResolves h (registerCalls s)); reflexivity.
Qed.

Lemma injectViaScripting_run (script : UserScript) (tabId : Z)
      (h : Host) (s : Sys) :
  let run := injectViaScripting script tabId h s in
  registerCalls (snd run) = registerCalls s
  /\ unregisterCalls (snd run) = unregisterCalls s
  /\ registeredScripts (snd run) = registeredScripts s
  /\ availabilityReads (snd run) = availabilityReads s
  /\ executeCalls s < executeCalls (snd run)
  /\ executeCalls (snd run)
     <= executeCalls s + (if InjectionUtils.needsIsolation script
                          then 3 else 1)
  /\ (scriptingWorks h -> fst run = Fulfilled tt)
  /\ (fst run = Fulfilled tt ->
      executeCalls (snd run)
      = executeCalls s + (if InjectionUtils.needsIsolation script
                          then 3 else 1)).
Proof.
  unfold injectViaScripting, injectAPIBridge, bind, hostCall, ret,
    scriptingWorks.
  destruct (InjectionUtils.needsIsolation script); cbn;
    repeat (match goal with
            | |- context [if executeScriptResolves h ?n then _ else _] =>
                let H := fresh "H" in
                destruct (executeScriptResolves h n) eqn:H; cbn
            end);
    repeat split; try lia; try congruence.
Qed.

End CompliantPaths.

(** X15: in store-compliant mode [CompliantInjectionStrategy.inject]
    refuses a script that [validateScriptContent] finds unsafe before it
    touches the browser: it throws its own error carrying the script's
    name and the issues, without reading the availability of the
    UserScripts API and without any register, unregister or
    executeScript call. In every other case the error it throws, if any,
    is not that one. *)
Theorem compliantInject_refusal
        (isFeatureEnabled : Engine.Flag -> bool)
        (validateScriptContent : UserScript -> Engine.ValidationResult)
        (script : UserScript) (tabId : Z) (h : Engine.Host) (s : Engine.Sys) :
  let run :=
    Engine.compliantInject isFeatureEnabled validateScriptContent
                           script tabId h s in
  let refused :=
    EngineFacts.refused isFeatureEnabled validateScriptContent script in
  (refused = true ->
   fst run = Rejected (StrategyNonCompliant
                         (name (meta script))
                         (Engine.issues (validateScriptContent script)))
   /\ Engine.availabilityReads (snd run) = Engine.availabilityReads s
   /\ Engine.registerCalls (snd run) = Engine.registerCalls s
   /\ Engine.unregisterCalls (snd run) = Engine.unregisterCalls s
   /\ Engine.executeCalls (snd run) = Engine.executeCalls s
   /\ Engine.registeredScripts (snd run) = Engine.registeredScripts s)
  /\ (refused = false ->
      forall e, fst run = Rejected e ->
                EngineFacts.isStrategyNonCompliant e = false).
Proof.
  intros run refused. subst run refused. split; intros Hr.
  - rewrite (compliantInject_refused_run _ _ _ _ _ _ Hr). cbn.
    repeat split; reflexivity.
  - rewrite (compliantInject_accepted_run _ _ _ _ _ _ Hr). cbn zeta.
    intros e.
    unfold Engine.injectViaUserScripts, Engine.injectViaScripting,
      Engine.registerScriptCompliant, Engine.unregisterScript,
      Engine.injectAPIBridge, Engine.bind, Engine.isAvailable,
      Engine.isRegistered, Engine.tryCatch, Engine.hostCall,
      Engine.setRegistered, Engine.ret, Engine.throw, Engine.logged.
    cbn.
    destruct (Engine.apiAvailable h (Engine.availabilityReads s)); cbn.
    + destruct (Engine.apiAvailable h (S (Engine.availabilityReads s))); cbn;
        [ destruct (Engine.apiAvailable h (S (S (Engine.availabilityReads s))));
          cbn;
          [ destruct (bool_decide (id script ∈ Engine.registeredScripts s));
            cbn;
            [ destruct (Engine.unregisterResolves h (Engine.unregisterCalls s));
              cbn
            | ]
          | ];
          destruct (Engine.registerResolves h (Engine.registerCalls s)); cbn
        | ];
        intros He; inversion He; reflexivity.
    + destruct (InjectionUtils.needsIsolation script); cbn;
        repeat (match goal with
                | |- context [if Engine.executeScriptResolves h ?n then _ else _] =>
                    destruct (Engine.executeScriptResolves h n); cbn
                end);
        intros He; inversion He; reflexivity.
Qed.

(** X16: when [CompliantInjectionStrategy.inject] does not refuse the
    script, the one reading of the API's availability decides the browser
    API it uses. Available: no [chrome.scripting.executeScript] call is
    made, whether the registration succeeds or not. Unavailable: no
    register or unregister call is made and the registry is left alone;
    at least one executeScript call is made, at most one for a script
    that needs no isolation and at most three (two for the API bridge)
    for one that does. *)
Theorem compliantInject_api_choice
        (isFeatureEnabled : Engine.Flag -> bool)
        (validateScriptContent : UserScript -> Engine.ValidationResult)
        (script : UserScript) (tabId : Z) (h : Engine.Host) (s : Engine.Sys) :
  EngineFacts.refused isFeatureEnabled validateScriptContent script = false ->
  let run :=
    Engine.compliantInject isFeatureEnabled validateScriptContent
                           script tabId h s in
  let available := Engine.apiAvailable h (Engine.availabilityReads s) in
  (available = true ->
   Engine.executeCalls (snd run) = Engine.executeCalls s)
  /\ (available = false ->
      Engine.registerCalls (snd run) = Engine.registerCalls s
      /\ Engine.unregisterCalls (snd run) = Engine.unregisterCalls s
      /\ Engine.registeredScripts (snd run) = Engine.registeredScripts s
      /\ Engine.executeCalls s < Engine.executeCalls (snd run)
      /\ Engine.executeCalls (snd run)
         <= Engine.executeCalls s
            + (if InjectionUtils.needsIsolation script then 3 else 1)).
Proof.
  intros Hr run available. subst run available.
  rewrite (compliantInject_accepted_run _ _ _ _ _ _ Hr). cbn zeta.
  destruct (Engine.apiAvailable h (Engine.availabilityReads s));
    (split; [ intros Ha; try discriminate Ha
            | intros Ha; try discriminate Ha ]).
  - rewrite injectViaUserScripts_no_scripting. reflexivity.
  - match goal with
    | |- context [Engine.injectViaScripting script tabId h ?s2] =>
        destruct (injectViaScripting_run script tabId h s2)
          as (R & U & G & _ & Lo & Hi & _)
    end.
    cbn [Engine.logged Engine.registerCalls Engine.unregisterCalls
         Engine.registeredScripts Engine.executeCalls] in *.
    repeat split; assumption.
Qed.

Lemma compliantInject_api_choice_witness :
  let run :=
    Engine.compliantInject EngineSamples.strictFlags EngineSamples.acceptAll
                           setValueAtStart 7 EngineSamples.failingHost
                           Engine.initial in
  Engine.registerCalls (snd run) = 0
  /\ 0 < Engine.executeCalls (snd run) <= 3.
Proof.
  assert (Hr : EngineFacts.refused EngineSamples.strictFlags
                 EngineSamples.acceptAll setValueAtStart = false)
    by reflexivity.
  destruct (compliantInject_api_choice
              EngineSamples.strictFlags EngineSamples.acceptAll
              setValueAtStart 7 EngineSamples.failingHost Engine.initial Hr)
    as [_ Hno].
  destruct (Hno eq_refl) as (R & _ & _ & Lo & Hi).
  split; [ exact R | split; [ exact Lo | exact Hi ] ].
Defined.

(** * The engine: what decides the outcome of an injection *)

Section Raises.
Import Engine EngineFacts.
Local Open Scope engine_scope.

Variable p : Error -> bool.

Lemma raises_ret {A} (a : A) : raises p (ret a).
Proof. intros h s e H. discriminate H. Qed.

Lemma raises_throw {A} (e : Error) : p e = true -> raises p (@throw A e).
Proof. intros He h s e' H. cbn in H. inversion H. subst. exact He. Qed.

Lemma raises_record (e : Event) : raises p (record e).
Proof. intros h s e' H. discriminate H. Qed.

Lemma raises_isAvailable : raises p isAvailable.
Proof. intros h s e H. discriminate H. Qed.

Lemma raises_isRegistered (scriptId : string) :
  raises p (isRegistered scriptId).
Proof. intros h s e H. discriminate H. Qed.

Lemma raises_setRegistered (f : gset string -> gset string) :
  raises p (setRegistered f).
Proof. intros h s e H. discriminate H. Qed.

Lemma raises_hostCall (op : HostOp) :
  (forall n, p (HostError op n) = true) -> raises p (hostCall op).
Proof.
  intros Hp h s e. unfold hostCall. cbn.
  destruct op; cbn;
    match goal with
    | |- context [if ?b then _ else _] => destruct b
    end;
    intros H; inversion H; apply Hp.
Qed.

Lemma raises_bind {A B} (m : M A) (k : A -> M B) :
  raises p m -> (forall a, raises p (k a)) -> raises p (bind m k).
Proof.
  intros Hm Hk h s e. unfold bind.
  pose proof (Hm h s) as Hm'.
  destruct (m h s) as [[a | e'] s1]; cbn in *.
  - apply Hk.
  - intros H. inversion H. subst. apply Hm'. reflexivity.
Qed.

Lemma raises_tryCatch {A} (m : M A) (handler : Error -> M A) :
  raises p m ->
  (forall e, p e = true -> raises p (handler e)) ->
  raises p (tryCatch m handler).
Proof.
  intros Hm Hk h s e. unfold tryCatch.
  pose proof (Hm h s) as Hm'.
  destruct (m h s) as [[a | e'] s1]; cbn in *.
  - intros H. discriminate H.
  - apply Hk. apply Hm'. reflexivity.
Qed.

End Raises.

(** Decompose a computation along [bind], [tryCatch] and conditionals. *)
Ltac raises_step :=
  first
    [ apply raises_ret
    | apply raises_record
    | apply raises_isAvailable
    | apply raises_isRegistered
    | apply raises_setRegistered
    | apply raises_throw
    | apply raises_hostCall; intros ?
    | apply raises_bind; [ | intros ? ]
    | apply raises_tryCatch; [ | intros ? ? ]
    | match goal with
      | |- EngineFacts.raises _ (if ?b then _ else _) => destruct b
      end ].

Section Outcomes.
Import Engine EngineLog EngineFacts.

Variable isFeatureEnabled : Flag -> bool.
Variable validateScriptContent : UserScript -> ValidationResult.

(** Below the engine's own validation nothing throws the engine's
    non-compliance error. *)
Lemma raises_compliantInject (script : UserScript) (tabId : Z) :
  raises (fun e => negb (isEngineNonCompliant e))
         (compliantInject isFeatureEnabled validateScriptContent
                          script tabId).
Proof.
  unfold compliantInject, injectViaUserScripts, injectViaScripting,
    registerScriptCompliant, unregisterScript, injectAPIBridge.
  repeat raises_step; try reflexivity; assumption.
Qed.

Lemma raises_call (p : Error -> bool) (site : CallSite) (scriptId : string)
      (m : M unit) :
  raises p m -> raises p (call site scriptId m).
Proof.
  intros Hm. unfold call.
  repeat raises_step; try assumption.
Qed.

Lemma raises_compatibilityInject (script : UserScript) (tabId : Z) :
  raises (fun e => negb (isEngineNonCompliant e))
         (compatibilityInject isFeatureEnabled validateScriptContent
                              script tabId).
Proof.
  unfold compatibilityInject, injectWithLegacyMethods, injectAPIBridge.
  repeat first [ apply raises_call
               | apply raises_compliantInject
               | raises_step ];
    try reflexivity.
Qed.

Lemma raises_injectByMode (script : UserScript) (tabId : Z) :
  raises (fun e => negb (isEngineNonCompliant e))
         (injectByMode isFeatureEnabled validateScriptContent script tabId).
Proof.
  unfold injectByMode.
  repeat first [ apply raises_call
               | apply raises_compliantInject
               | apply raises_compatibilityInject
               | raises_step ];
    try reflexivity; try assumption.
Qed.

Lemma injectWithLegacyMethods_fulfils (script : UserScript) (tabId : Z)
      (h : Host) (s : Sys) :
  scriptingWorks h ->
  fst (injectWithLegacyMethods script tabId h s) = Fulfilled tt.
Proof.
  intros Hw.
  unfold injectWithLegacyMethods, injectAPIBridge, bind, record, hostCall,
    ret.
  destruct (InjectionUtils.needsIsolation script); cbn;
    rewrite ?Hw; cbn; rewrite ?Hw; cbn; rewrite ?Hw; reflexivity.
Qed.

Lemma compatibilityInject_fulfils (script : UserScript) (tabId : Z)
      (h : Host) (s : Sys) :
  scriptingWorks h ->
  fst (compatibilityInject isFeatureEnabled validateScriptContent
                           script tabId h s)
  = Fulfilled tt.
Proof.
  intros Hw. unfold compatibilityInject, tryCatch.
  destruct (call CompatibilityFirst (id script)
              (compliantInject isFeatureEnabled validateScriptContent
                               script tabId) h s)
    as [[[] | e] s1]; cbn [fst].
  - reflexivity.
  - apply injectWithLegacyMethods_fulfils, Hw.
Qed.

Lemma injectByMode_fulfils (script : UserScript) (tabId : Z)
      (h : Host) (s : Sys) :
  isFeatureEnabled FStoreCompliant = false ->
  scriptingWorks h ->
  fst (injectByMode isFeatureEnabled validateScriptContent script tabId h s)
  = Fulfilled tt.
Proof.
  intros Hstrict Hw. unfold injectByMode. rewrite Hstrict.
  destruct (isFeatureEnabled FLegacyInjection).
  - unfold tryCatch at 1. unfold bind at 1. rewrite call_run.
    rewrite compatibilityInject_fulfils by exact Hw. reflexivity.
  - unfold tryCatch at 1. unfold bind at 1. unfold tryCatch at 1.
    destruct (call EngineHybrid (id script)
                (compliantInject isFeatureEnabled validateScriptContent
                                 script tabId) h s)
      as [[[] | e] s1].
    + reflexivity.
    + unfold bind at 1. unfold record at 1. rewrite call_run.
      rewrite compatibilityInject_fulfils by exact Hw. reflexivity.
Qed.

Lemma validateCompliance_off (script : UserScript) :
  isFeatureEnabled FStoreCompliant = false ->
  validateCompliance isFeatureEnabled validateScriptContent script = ret tt.
Proof. unfold validateCompliance. intros ->. reflexivity. Qed.

Lemma validateCompliance_safe (script : UserScript) (h : Host) (s : Sys) :
  isFeatureEnabled FStoreCompliant = true ->
  safe (validateScriptContent script) = true ->
  validateCompliance isFeatureEnabled validateScriptContent script h s
  = (Fulfilled tt,
     logged (Logged validation_passed (id script))
            (logged (Validated ByEngine (id script) true) s)).
Proof.
  unfold validateCompliance. intros -> Hs. rewrite Hs. reflexivity.
Qed.

Lemma raises_validateCompliance_valid (script : UserScript) :
  ModeValidation.valid
    (ModeValidation.validateScriptForCurrentMode
       isFeatureEnabled validateScriptContent script) = true ->
  raises (fun e => negb (isEngineNonCompliant e))
         (validateCompliance isFeatureEnabled validateScriptContent script).
Proof.
  unfold ModeValidation.validateScriptForCurrentMode, validateCompliance.
  destruct (isFeatureEnabled FStoreCompliant); cbn.
  - intros ->. cbn. repeat raises_step.
  - intros _. apply raises_ret.
Qed.

End Outcomes.



(** X18: outside store-compliant mode [injectScript] fulfils whenever the
    browser accepts every [chrome.scripting.executeScript] call: neither
    the validator's verdict nor a missing UserScripts API nor a rejected
    registration makes it fail. *)
Theorem injectScript_fulfils_when_scripting_works
        (isFeatureEnabled : Engine.Flag -> bool)
        (validateScriptContent : UserScript -> Engine.ValidationResult)
        (script : UserScript) (tabId : Z) (h : Engine.Host) (s : Engine.Sys) :
  isFeatureEnabled Engine.FStoreCompliant = false ->
  EngineFacts.scriptingWorks h ->
  fst (Engine.injectScript isFeatureEnabled validateScriptContent
                           script tabId h s)
  = Fulfilled tt.
Proof.
  intros Hstrict Hw.
  rewrite injectScript_after_selection.
  rewrite (validateCompliance_off _ _ _ Hstrict).
  unfold Engine.bind at 1. unfold Engine.ret at 1.
  apply injectByMode_fulfils; assumption.
Qed.

Lemma injectScript_fulfils_when_scripting_works_witness :
  fst (Engine.injectScript EngineSamples.hybridFlags EngineSamples.rejectAll
         setValueAtStart 7 RegistrySamples.rejectingHost Engine.initial)
  = Fulfilled tt.
Proof.
  apply (injectScript_fulfils_when_scripting_works
           EngineSamples.hybridFlags EngineSamples.rejectAll setValueAtStart 7
           RegistrySamples.rejectingHost Engine.initial).
  - reflexivity.
  - intros n. reflexivity.
Defined.

(** X19: in store-compliant mode there is no fallback from the
    UserScripts API to [chrome.scripting]. With the API present at every
    reading, [injectScript] fulfils exactly when the script is safe and
    the browser accepts the registration, and it makes no
    [chrome.scripting.executeScript] call, also when the registration is
    rejected. *)
Theorem injectScript_strict_no_scripting_fallback
        (isFeatureEnabled : Engine.Flag -> bool)
        (validateScriptContent : UserScript -> Engine.ValidationResult)
        (script : UserScript) (tabId : Z) (h : Engine.Host) (s : Engine.Sys) :
  isFeatureEnabled Engine.FStoreCompliant = true ->
  EngineFacts.alwaysAvailable h ->
  let run :=
    Engine.injectScript isFeatureEnabled validateScriptContent
                        script tabId h s in
  (fst run = Fulfilled tt <->
   Engine.safe (validateScriptContent script) = true
   /\ Engine.registerResolves h (Engine.registerCalls s) = true)
  /\ Engine.executeCalls (snd run) = Engine.executeCalls s.
Proof.
  intros Hstrict Ha run. subst run.
  unfold EngineFacts.alwaysAvailable in Ha.
  remember (Engine.injectScript isFeatureEnabled validateScriptContent
                                script tabId h s) as run eqn:Hrun.
  destruct (Engine.safe (validateScriptContent script)) eqn:Hsafe.
  - rewrite injectScript_after_selection in Hrun.
    unfold Engine.bind at 1 in Hrun.
    rewrite (validateCompliance_safe _ _ _ _ _ Hstrict Hsafe) in Hrun.
    unfold Engine.injectByMode, Engine.emergencyGuard in Hrun.
    rewrite Hstrict in Hrun.
    cbn [negb andb] in Hrun.
    unfold Engine.tryCatch at 1 in Hrun. unfold Engine.bind at 1 in Hrun.
    rewrite call_run in Hrun.
    rewrite compliantInject_accepted_run in Hrun
      by (unfold EngineFacts.refused; rewrite Hsafe; reflexivity).
    cbn zeta in Hrun.
    cbn [EngineLog.afterSelection Engine.logged Engine.availabilityReads]
      in Hrun.
    rewrite !Ha in Hrun.
    unfold Engine.injectViaUserScripts, Engine.registerScriptCompliant,
      Engine.unregisterScript, Engine.bind, Engine.isAvailable,
      Engine.isRegistered, Engine.tryCatch, Engine.hostCall,
      Engine.setRegistered, Engine.ret, Engine.throw, Engine.record,
      Engine.logged in Hrun.
    cbn in Hrun. repeat (rewrite Ha in Hrun; cbn in Hrun).
    destruct (bool_decide (id script ∈ Engine.registeredScripts s));
      cbn in Hrun;
      [ destruct (Engine.unregisterResolves h (Engine.unregisterCalls s));
        cbn in Hrun
      | ];
      (destruct (Engine.registerResolves h (Engine.registerCalls s));
       cbn in Hrun; subst run; cbn;
       (split; [ split; [ try discriminate; auto
                        | intros [_ H];
                          first [ reflexivity | discriminate H ] ]
               | reflexivity ])).
  - rewrite (injectScript_strict_unsafe _ _ _ _ _ _ Hstrict Hsafe) in Hrun.
    subst run. cbn.
    split; [ split; [ discriminate | intros [H _]; discriminate H ]
           | reflexivity ].
Qed.

Lemma injectScript_strict_no_scripting_fallback_witness :
  let run :=
    Engine.injectScript EngineSamples.strictFlags EngineSamples.acceptAll
                        setValueAtStart 7 RegistrySamples.rejectingHost
                        Engine.initial in
  fst run <> Fulfilled tt /\ Engine.executeCalls (snd run) = 0.
Proof.
  destruct (injectScript_strict_no_scripting_fallback
              EngineSamples.strictFlags EngineSamples.acceptAll
              setValueAtStart 7 RegistrySamples.rejectingHost Engine.initial
              eq_refl (fun n => eq_refl))
    as [F E].
  split; [ | exact E ].
  intros Hf. apply F in Hf. destruct Hf as [_ Hf]. discriminate Hf.
Defined.

(** X20: [InjectionUtils.validateScriptForCurrentMode] predicts the
    engine's own rejection. When it reports the script as invalid,
    [injectScript] throws the engine's non-compliance error with the
    reported issues; when it reports the script as valid, whatever error
    [injectScript] throws is not that one. *)
Theorem validateScriptForCurrentMode_predicts_rejection
        (isFeatureEnabled : Engine.Flag -> bool)
        (validateScriptContent : UserScript -> Engine.ValidationResult)
        (script : UserScript) (tabId : Z) (h : Engine.Host) (s : Engine.Sys) :
  let run :=
    Engine.injectScript isFeatureEnabled validateScriptContent
                        script tabId h s in
  let verdict :=
    ModeValidation.validateScriptForCurrentMode
      isFeatureEnabled validateScriptContent script in
  (ModeValidation.valid verdict = false ->
   fst run
   = Rejected (EngineNonCompliant (ModeValidation.validityIssues verdict)))
  /\ (ModeValidation.valid verdict = true ->
      forall e, fst run = Rejected e ->
                EngineFacts.isEngineNonCompliant e = false).
Proof.
  intros run verdict. subst run. split.
  - subst verdict. unfold ModeValidation.validateScriptForCurrentMode.
    destruct (isFeatureEnabled Engine.FStoreCompliant) eqn:Hstrict;
      cbn [ModeValidation.valid ModeValidation.validityIssues];
      [ | discriminate ].
    intros Hunsafe.
    rewrite (injectScript_strict_unsafe _ _ _ _ _ _ Hstrict Hunsafe).
    reflexivity.
  - intros Hvalid e He.
    rewrite injectScript_after_selection in He.
    assert (Hr : EngineFacts.raises
                   (fun e => negb (EngineFacts.isEngineNonCompliant e))
                   (Engine.bind
                      (Engine.validateCompliance
                         isFeatureEnabled validateScriptContent script)
                      (fun _ =>
                         Engine.injectByMode
                           isFeatureEnabled validateScriptContent
                           script tabId))).
    { apply raises_bind.
      - apply raises_validateCompliance_valid. exact Hvalid.
      - intros _. apply raises_injectByMode. }
    specialize (Hr _ _ _ He). cbn beta in Hr.
    apply negb_true_iff in Hr. exact Hr.
Qed.

(** * The background page: automatic injection *)

Section AutoInjection.
Import Engine EngineLog EngineFacts Background.

Variable isFeatureEnabled : Flag -> bool.
Variable validateScriptContent : UserScript -> ValidationResult.
Variable matched : UserScript -> bool.

Lemma starts_app (a b : list Event) :
  starts (a ++ b) = (starts a ++ starts b)%list.
Proof.
  induction a as [ | e a IH ]; [ reflexivity | ].
  destruct e as [ | | | | | | | | [] | | | ]; cbn; rewrite ?IH; reflexivity.
Qed.

Lemma starts_none (evs : list Event) :
  forallb (fun e => negb (isStart e)) evs = true -> starts evs = [].
Proof.
  induction evs as [ | e evs IH ]; [ reflexivity | ].
  cbn [forallb]. rewrite andb_true_iff. intros [He Hevs].
  destruct e as [ | | | | | | | | [] | | | ]; cbn in He;
    try discriminate He; cbn; auto.
Qed.

Lemma belowEngine_not_start (e : Event) :
  belowEngine e = true -> negb (isStart e) = true.
Proof.
  destruct e as [ | | | | | | | | [] | | | ]; cbn; congruence.
Qed.

(** Past its first log line [injectScript] logs no further start. *)
Lemma emits_afterSelection_no_start (script : UserScript) (tabId : Z) :
  emits (fun e => negb (isStart e))
        (bind (validateCompliance isFeatureEnabled validateScriptContent
                                  script)
              (fun _ => injectByMode isFeatureEnabled validateScriptContent
                                     script tabId)).
Proof.
  assert (Hs : forall e, belowStrategy e = true -> negb (isStart e) = true).
  { intros e He. apply belowEngine_not_start, belowStrategy_belowEngine, He. }
  apply emits_bind; [ | intros _ ].
  - apply emits_validateCompliance; try reflexivity; intros ?; reflexivity.
  - unfold injectByMode.
    repeat first [ apply emits_call
                 | apply emits_compliantInject; exact Hs
                 | apply emits_compatibilityInject;
                   exact belowEngine_not_start
                 | emits_step ];
      reflexivity.
Qed.

Lemma injectScript_starts (script : UserScript) (tabId : Z)
      (h : Host) (s : Sys) :
  exists evs,
    trace (snd (injectScript isFeatureEnabled validateScriptContent
                             script tabId h s))
    = (trace s ++ evs)%list
    /\ starts evs = [id script].
Proof.
  rewrite injectScript_after_selection.
  destruct (emits_afterSelection_no_start script tabId h
              (afterSelection script h s)) as [evs [Ht Hq]].
  eexists. split.
  - rewrite Ht. cbn [afterSelection trace]. rewrite <- app_assoc.
    reflexivity.
  - rewrite starts_app, (starts_none _ Hq). reflexivity.
Qed.

Lemma autoInject_run (scripts : list UserScript) (tabId : Z) :
  forall (h : Host) (s : Sys),
  exists evs,
    trace (snd (autoInject isFeatureEnabled validateScriptContent matched
                           scripts tabId h s))
    = (trace s ++ evs)%list
    /\ (fst (autoInject isFeatureEnabled validateScriptContent matched
                        scripts tabId h s) = Fulfilled tt ->
        starts evs = List.map id (List.filter matched scripts))
    /\ (forall e,
          fst (autoInject isFeatureEnabled validateScriptContent matched
                          scripts tabId h s) = Rejected e ->
          exists pre script post,
            scripts = (pre ++ script :: post)%list
            /\ matched script = true
            /\ starts evs
               = (List.map id (List.filter matched pre) ++ [id script])%list
            /\ fst (autoInject isFeatureEnabled validateScriptContent
                               matched pre tabId h s) = Fulfilled tt
            /\ fst (injectScript isFeatureEnabled validateScriptContent
                      script tabId h
                      (snd (autoInject isFeatureEnabled
                              validateScriptContent matched pre tabId h s)))
               = Rejected e).
Proof.
  induction scripts as [ | script rest IH ]; intros h s.
  - exists []. cbn. rewrite app_nil_r.
    split; [ reflexivity | split; [ reflexivity | discriminate ] ].
  - cbn [autoInject List.filter]. unfold bind.
    destruct (matched script) eqn:Hm.
    + destruct (injectScript_starts script tabId h s) as [evs1 [Ht1 Hs1]].
      destruct (injectScript isFeatureEnabled validateScriptContent
                             script tabId h s)
        as [[[] | e1] s1] eqn:Hinj; cbn [fst snd] in Ht1.
      * destruct (IH h s1) as [evs2 [Ht2 [Hok Hbad]]].
        exists (evs1 ++ evs2)%list.
        split; [ rewrite Ht2, Ht1, app_assoc; reflexivity | ].
        split.
        -- intros Hf. rewrite starts_app, Hs1, (Hok Hf). reflexivity.
        -- intros e He.
           destruct (Hbad e He)
             as (pre & failing & post & -> & Hmf & Hst & Hpre & Hfail).
           exists (script :: pre), failing, post.
           split; [ reflexivity | ].
           split; [ exact Hmf | ].
           split.
           { rewrite starts_app, Hs1, Hst. cbn [List.filter].
             rewrite Hm. reflexivity. }
           cbn [autoInject]. unfold bind. rewrite Hm, Hinj.
           split; assumption.
      * exists evs1.
        split; [ exact Ht1 | ].
        split; [ discriminate | ].
        intros e He. cbn [fst] in He. inversion He. subst e1.
        exists [], script, rest.
        split; [ reflexivity | ].
        split; [ exact Hm | ].
        split; [ exact Hs1 | ].
        cbn [autoInject ret fst snd]. rewrite Hinj.
        split; reflexivity.
    + unfold ret at 1.
      destruct (IH h s) as [evs [Ht [Hok Hbad]]].
      exists evs.
      split; [ exact Ht | ].
      split; [ exact Hok | ].
      intros e He.
      destruct (Hbad e He)
        as (pre & failing & post & -> & Hmf & Hst & Hpre & Hfail).
      exists (script :: pre), failing, post.
      split; [ reflexivity | ].
      split; [ exact Hmf | ].
      split.
      { rewrite Hst. cbn [List.filter]. rewrite Hm. reflexivity. }
      cbn [autoInject]. unfold bind. rewrite Hm. unfold ret.
      split; assumption.
Qed.

End AutoInjection.

(** X21: the automatic injection on page load injects the matching
    scripts one after the other and stops at the first one whose
    [injectScript] rejects. If the loop completes, the injections started
    are those of the matching scripts, in order. If it rejects, it does
    so with the error of one matching script; every matching script
    before that one was injected, and no injection of a later script is
    started. *)
Theorem autoInject_stops_at_first_failure
        (isFeatureEnabled : Engine.Flag -> bool)
        (validateScriptContent : UserScript -> Engine.ValidationResult)
        (matched : UserScript -> bool)
        (scripts : list UserScript) (tabId : Z)
        (h : Engine.Host) (s : Engine.Sys) :
  exists evs,
    Engine.trace
      (snd (Background.autoInject isFeatureEnabled validateScriptContent
              matched scripts tabId h s))
    = (Engine.trace s ++ evs)%list
    /\ (fst (Background.autoInject isFeatureEnabled validateScriptContent
               matched scripts tabId h s) = Fulfilled tt ->
        EngineFacts.starts evs = List.map id (List.filter matched scripts))
    /\ (forall e,
          fst (Background.autoInject isFeatureEnabled validateScriptContent
                 matched scripts tabId h s) = Rejected e ->
          exists pre script post,
            scripts = (pre ++ script :: post)%list
            /\ matched script = true
            /\ EngineFacts.starts evs
               = (List.map id (List.filter matched pre) ++ [id script])%list
            /\ fst (Background.autoInject isFeatureEnabled
                      validateScriptContent matched pre tabId h s)
               = Fulfilled tt
            /\ fst (Engine.injectScript isFeatureEnabled validateScriptContent
                      script tabId h
                      (snd (Background.autoInject isFeatureEnabled
                              validateScriptContent matched pre tabId h s)))
               = Rejected e).
Proof.
  apply autoInject_run.
Qed.

(** * The engine's health check *)

Section Health.
Import UnifiedInjectionEngine.

Lemma stringIncludes_check_failed (errorText : string) :
  stringIncludes ("Permission check failed: " ++ errorText)
                 "required permission"
  = stringIncludes errorText "required permission".
Proof. reflexivity. Qed.

Lemma lacks_required (granted : option (list string)) :
  (exists permission,
      In permission requiredPermissions /\ lacks granted permission = true)
  <-> lacks granted "scripting" || lacks granted "tabs"
      || lacks granted "activeTab" = true.
Proof.
  split.
  - intros [permission [Hin Hl]].
    cbn in Hin. destruct Hin as [<- | [<- | [<- | []]]];
      rewrite Hl, ?orb_true_r; reflexivity.
  - rewrite !orb_true_iff. intros [[H | H] | H];
      eexists; (split; [ | exact H ]); cbn; auto.
Qed.

End Health.

(** X22: [healthCheck] reports 'unhealthy' exactly when the permission
    query resolves and one of 'scripting', 'tabs', 'activeTab' is not
    granted, or when the query fails with an error whose text contains
    'required permission'. A missing UserScripts API, a missing
    'userScripts' permission, or a permission query that fails with any
    other error never makes it worse than 'degraded'. It reports
    'healthy' exactly when no issue was collected. *)
Theorem healthCheck_status
        (userScriptsAPIFlag userScriptsPresent : bool)
        (reply : UnifiedInjectionEngine.PermissionsReply) :
  let result :=
    UnifiedInjectionEngine.healthCheck userScriptsAPIFlag userScriptsPresent
                                       reply in
  (UnifiedInjectionEngine.status result = UnifiedInjectionEngine.unhealthy
   <-> match reply with
       | UnifiedInjectionEngine.PermissionsResolved granted =>
           exists permission,
             In permission UnifiedInjectionEngine.requiredPermissions
             /\ UnifiedInjectionEngine.lacks granted permission = true
       | UnifiedInjectionEngine.PermissionsRejected errorText =>
           UnifiedInjectionEngine.stringIncludes errorText
                                                 "required permission"
           = true
       end)
  /\ (UnifiedInjectionEngine.status result = UnifiedInjectionEngine.healthy
      <-> UnifiedInjectionEngine.healthIssues result = []).
Proof.
  intros result. subst result.
  unfold UnifiedInjectionEngine.healthCheck.
  cbn [UnifiedInjectionEngine.status UnifiedInjectionEngine.healthIssues].
  split.
  - destruct reply as [granted | errorText].
    + rewrite lacks_required.
      unfold UnifiedInjectionEngine.collectIssues,
        UnifiedInjectionEngine.requiredPermissions.
      cbn [List.filter].
      destruct (UnifiedInjectionEngine.lacks granted "scripting");
        destruct (UnifiedInjectionEngine.lacks granted "tabs");
        destruct (UnifiedInjectionEngine.lacks granted "activeTab");
        destruct (UnifiedInjectionEngine.lacks granted "userScripts");
        destruct userScriptsAPIFlag; destruct userScriptsPresent;
        vm_compute; split; congruence.
    + unfold UnifiedInjectionEngine.collectIssues.
      destruct userScriptsAPIFlag; destruct userScriptsPresent;
        cbn [andb negb app List.length Nat.eqb existsb];
        rewrite ?stringIncludes_check_failed;
        change (UnifiedInjectionEngine.stringIncludes
                  "UserScripts API not available but feature is enabled"
                  "required permission")
          with false;
        cbn [orb];
        rewrite ?orb_false_r;
        destruct (UnifiedInjectionEngine.stringIncludes
                    errorText "required permission");
        split; congruence.
  - destruct (UnifiedInjectionEngine.collectIssues
                userScriptsAPIFlag userScriptsPresent reply)
      as [ | issue issues ]; cbn [List.length Nat.eqb].
    + split; reflexivity.
    + destruct (existsb _ _); split; discriminate.
Qed.

(** * Build modes: reading a feature *)

(** X23: [isFeatureEnabled] answers only under the build modes 'store'
    and 'compat', an unset or empty BUILD_MODE counting as 'store'; its
    answer is the entry of that mode's feature table. Under any other
    name it throws: the "unknown build mode" error of
    [getCurrentBuildMode], unless the name is one every object inherits
    from [Object.prototype], in which case [getCurrentBuildMode] lets it
    through and reading the feature fails with a TypeError. *)
Theorem isFeatureEnabled_outcome
        (env : option string) (k : BuildModes.FeatureKey) :
  let mode := JS.orDefault env "store" in
  match BuildModes.isFeatureEnabled env k with
  | Fulfilled b =>
      (mode = "store"
       /\ b = BuildModes.feature (BuildModes.features BuildModes.store) k)
      \/ (mode = "compat"
          /\ b = BuildModes.feature (BuildModes.features BuildModes.compat) k)
  | Rejected e =>
      mode <> "store" /\ mode <> "compat"
      /\ e = (if JS.includes JS.objectPrototypeKeys mode
              then TypeError "features"
              else UnknownBuildMode mode)
  end.
Proof.
  intros mode. subst mode.
  unfold BuildModes.isFeatureEnabled, BuildModes.getCurrentBuildMode, JS.get,
    BuildModes.BUILD_MODES.
  set (mode := JS.orDefault env "store").
  destruct (decide (mode = "store")) as [Hs | Hs].
  - rewrite Hs, lookup_insert_eq. left. split; reflexivity.
  - rewrite lookup_insert_ne by congruence.
    destruct (decide (mode = "compat")) as [Hc | Hc].
    + rewrite Hc, lookup_insert_eq. right. split; reflexivity.
    + rewrite lookup_insert_ne by congruence. rewrite lookup_empty.
      destruct (JS.includes JS.objectPrototypeKeys mode);
        (split; [ exact Hs | split; [ exact Hc | reflexivity ] ]).
Qed.
